(** * TheodoraQ quiz controller: generation, repair pass and ownership

    A shallow embedding of the quiz controller (generateQuiz, getQuizzes,
    getQuizById, deleteQuiz, updateQuiz, createManualQuiz) and the
    properties its specification states about it.

    JavaScript values are modelled at the shape the controller reads:
    strings as [string], arrays as lists, a property that may be missing
    ([undefined]) as [option], and a value whose kind the controller does
    not fix (an option or the answer of a generated question, the
    numberOfQuestions of a request) as a JSON value [JsValue].  The
    in-place mutation of the repair pass is modelled by functional record
    update: the pass never writes inside an option or an answer. *)

From Stdlib Require Import Ascii.
From stdpp Require Import gmap strings list pretty.

(** ** JavaScript primitives used by the controller *)

(** Truthiness of a string: only the empty string is falsy. *)
Definition truthy (s : string) : bool := negb (bool_decide (s = "")).

(** [arr.includes(x)]. *)
Definition includes `{EqDecision A} (arr : list A) (x : A) : bool :=
  bool_decide (x ∈ arr).

(** ** JSON values

    The values JSON.parse returns.  Text is a sequence of code units below
    256.

    A Number is modelled by its decimal form, the one Number::toString
    prints and JSON.stringify sends: [JNumber n] is a Number whose decimal
    form is the integer [n] (for 2^60 that is 1152921504606847000, and 0
    stands for both zeros, which the controller cannot tell apart),
    [JFraction negative s j] is a Number whose decimal form has [j] digits
    after the point, the digits of [s] divided by 10^j with the given sign
    ([j] is positive and [s] does not end in 0), and [JInfinity] is what
    JSON.parse returns for a literal too large for a Number.

    An array or an object is modelled by its identity and by the string
    ToString gives for it (the elements joined by commas for an array,
    [[object Object]] for a plain object): the controller tells it apart
    from other values and hands it to parseInt, and does nothing else with
    it.

    Equality of two values of this type is then the SameValueZero
    comparison of [includes]. *)
Inductive JsValue :=
  | JNumber (n : Z)
  | JFraction (negative : bool) (s : positive) (j : nat)
  | JInfinity (negative : bool)
  | JString (s : string)
  | JNull
  | JBoolean (b : bool)
  | JObject (address : N) (form : string).

#[global] Instance JsValue_eq_dec : EqDecision JsValue.
Proof. solve_decision. Defined.

(** ToBoolean: the falsy values are 0, the empty string, null and false. *)
Definition ToBoolean (v : JsValue) : bool :=
  match v with
  | JNumber n => negb (bool_decide (n = 0%Z))
  | JString s => truthy s
  | JNull => false
  | JBoolean b => b
  | JFraction _ _ _ | JInfinity _ | JObject _ _ => true
  end.

(** ** Questions and the repair pass (generateQuiz, step 5.5)

    A question of the parsed candidate: its text and type, which the pass
    reads as strings, its array of options and its answer.  A question
    whose [options] is not an array has no image here; when it is missing
    from a question of type mcq or true_false, the pass throws. *)

Record Question := mkQuestion {
  text : string;
  type : string;
  options : list JsValue;
  answer : JsValue
}.

Definition set_answer (q : Question) (a : JsValue) : Question :=
  {| text := text q; type := type q; options := options q; answer := a |}.

Definition set_options (q : Question) (o : list JsValue) : Question :=
  {| text := text q; type := type q; options := o; answer := answer q |}.

(** [q.options[0] || 'No answer provided']: the first option when there is
    one and it is truthy. *)
Definition first_option_or_default (opts : list JsValue) : JsValue :=
  match opts with
  | o :: _ => if ToBoolean o then o else JString "No answer provided"
  | [] => JString "No answer provided"
  end.

(** [while (q.options.length < 4) q.options.push(`Option ${q.options.length + 1}`)].
    The fuel bounds the number of iterations; four always suffice. *)
Fixpoint push_options (fuel : nat) (opts : list JsValue) : list JsValue :=
  if (length opts <? 4) then
    match fuel with
    | O => opts
    | S fuel' =>
        push_options fuel'
          (opts ++ [JString ("Option " +:+ pretty (length opts + 1))])
    end
  else opts.

#[global] Arguments push_options : simpl never.

(** "Check if answer exists in options". *)
Definition check_answer (q : Question) : Question :=
  if bool_decide (type q = "mcq") || bool_decide (type q = "true_false") then
    if negb (includes (options q) (answer q)) then
      set_answer q (first_option_or_default (options q))
    else q
  else q.

(** "Ensure MCQ has 4 options". *)
Definition ensure_mcq_options (q : Question) : Question :=
  if bool_decide (type q = "mcq") && (length (options q) <? 4) then
    set_options q (push_options 4 (options q))
  else q.

(** "Ensure true_false has correct options". *)
Definition ensure_true_false (q : Question) : Question :=
  if bool_decide (type q = "true_false") &&
     negb (includes (options q) (JString "True")) then
    let q' := set_options q [JString "True"; JString "False"] in
    if negb (includes [JString "True"; JString "False"] (answer q'))
    then set_answer q' (JString "True")
    else q'
  else q.

(** The callback of [aiJson.questions.map((q, index) => ...)]. *)
Definition validateQuestion (q : Question) : Question :=
  ensure_true_false (ensure_mcq_options (check_answer q)).

Definition validatedQuestions (questions : list Question) : list Question :=
  map validateQuestion questions.

(** The type test of the repair pass. *)
Definition is_type (t : string) (q : Question) : bool := bool_decide (type q = t).

(** ** [ToString] *)

Fixpoint string_take (n : nat) (s : string) : string :=
  match n, s with
  | S k, String c s' => String c (string_take k s')
  | _, _ => EmptyString
  end.

Fixpoint string_drop (n : nat) (s : string) : string :=
  match n, s with
  | S k, String _ s' => string_drop k s'
  | _, _ => s
  end.

Fixpoint zeros (n : nat) : string :=
  match n with
  | O => ""
  | S k => String "0" (zeros k)
  end.

(** The digits of an integer without its trailing zeros. *)
Fixpoint strip_zeros (digits : string) : string :=
  match digits with
  | String c r =>
      match strip_zeros r with
      | EmptyString => if bool_decide (c = "0"%char) then "" else String c ""
      | r' => String c r'
      end
  | EmptyString => ""
  end.

(** Exponent notation (the last two steps of Number::toString): the first
    digit, a point and the other digits when there are any, then [e], the
    sign of the exponent and its magnitude. *)
Definition exponent_form (digits : string) (e : Z) : string :=
  match digits with
  | String c EmptyString => String c ""
  | String c r => String c ("." +:+ r)
  | EmptyString => ""
  end +:+ "e" +:+ (if bool_decide (e < 0)%Z then "-" else "+") +:+
  pretty (Z.abs e).

(** Number::toString for a positive Number with the [k] digits [digits]
    and the point after the [n]-th of them (the Number is digits × 10^(n-k)):
    the digits and n - k zeros when k ≤ n ≤ 21; the digits with a point
    after the n-th when 0 < n ≤ 21; [0.], -n zeros and the digits when
    -6 < n ≤ 0; exponent notation with the exponent n - 1 otherwise. *)
Definition Number_toString (digits : string) (n : Z) : string :=
  let k := Z.of_nat (String.length digits) in
  if bool_decide (k ≤ n ≤ 21)%Z then digits +:+ zeros (Z.to_nat (n - k))
  else if bool_decide (0 < n ≤ 21)%Z then
    string_take (Z.to_nat n) digits +:+ "." +:+ string_drop (Z.to_nat n) digits
  else if bool_decide (-6 < n ≤ 0)%Z then
    "0." +:+ zeros (Z.to_nat (- n)) +:+ digits
  else exponent_form digits (n - 1).

Definition sign_of (negative : bool) : string := if negative then "-" else "".

(** ToString.  An integer below 10^21 is printed in plain decimal; from
    10^21 on its digits without the trailing zeros are printed in exponent
    notation.  The point of a fraction with the [k] digits [s], [j] of them
    after the point, is at k - j. *)
Definition ToString (v : JsValue) : string :=
  match v with
  | JNumber n =>
      if bool_decide (Z.abs n < 10 ^ 21)%Z then pretty n
      else
        let digits := pretty (Z.abs n) in
        sign_of (bool_decide (n < 0)%Z) +:+
        exponent_form (strip_zeros digits) (Z.of_nat (String.length digits) - 1)
  | JFraction negative s j =>
      let digits := pretty (N.pos s) in
      sign_of negative +:+
      Number_toString digits (Z.of_nat (String.length digits) - Z.of_nat j)
  | JInfinity negative => sign_of negative +:+ "Infinity"
  | JString s => s
  | JNull => "null"
  | JBoolean true => "true"
  | JBoolean false => "false"
  | JObject _ form => form
  end.

(** ** [parseInt] *)

(** WhiteSpace and LineTerminator code units below 256: TAB, LF, VT, FF, CR,
    SP and NBSP. *)
Definition is_whitespace (c : ascii) : bool :=
  bool_decide (N_of_ascii c ∈ [9; 10; 11; 12; 13; 32; 160]%N).

Fixpoint skip_whitespace (s : string) : string :=
  match s with
  | String c s' => if is_whitespace c then skip_whitespace s' else s
  | EmptyString => EmptyString
  end.

(** The value of a character as a digit in the given radix. *)
Definition digit_value (radix : N) (c : ascii) : option N :=
  let n := N_of_ascii c in
  let v :=
    if (48 <=? n)%N && (n <=? 57)%N then Some (n - 48)%N
    else if (97 <=? n)%N && (n <=? 122)%N then Some (n - 87)%N
    else if (65 <=? n)%N && (n <=? 90)%N then Some (n - 55)%N
    else None in
  match v with
  | Some d => if (d <? radix)%N then Some d else None
  | None => None
  end.

(** The number denoted by the longest prefix of digits. *)
Fixpoint parse_digits (radix acc : N) (s : string) : N :=
  match s with
  | String c s' =>
      match digit_value radix c with
      | Some d => parse_digits radix (acc * radix + d) s'
      | None => acc
      end
  | EmptyString => acc
  end.

Definition starts_with_digit (radix : N) (s : string) : bool :=
  match s with
  | String c _ => bool_decide (is_Some (digit_value radix c))
  | EmptyString => false
  end.

(** The digits of [parseInt] once white space and sign are gone: an optional
    0x or 0X prefix selects radix 16, then comes the longest prefix of
    digits; [None] when there is no digit. *)
Definition parse_magnitude (s : string) : option N :=
  let '(radix, s3) :=
    match s with
    | String "0" (String "x" r) => (16%N, r)
    | String "0" (String "X" r) => (16%N, r)
    | _ => (10%N, s)
    end in
  if starts_with_digit radix s3 then Some (parse_digits radix 0 s3) else None.

(** The integer [parseInt(s)] reads, without a radix: leading white space,
    an optional sign, then the magnitude; [None] when there is no digit. *)
Definition parse_integer (s : string) : option Z :=
  let s1 := skip_whitespace s in
  let '(sign, s2) :=
    match s1 with
    | String "-" r => ((-1)%Z, r)
    | String "+" r => (1%Z, r)
    | _ => (1%Z, s1)
    end in
  (λ v, sign * Z.of_N v)%Z <$> parse_magnitude s2.

(** A Number that holds an integer, by its value, or an infinity: the
    results of parseInt other than NaN. *)
Inductive Integral :=
  | Finite (n : Z)
  | Infinite (negative : bool).

#[global] Instance Integral_eq_dec : EqDecision Integral.
Proof. solve_decision. Defined.

(** The Number nearest to an integer: the integer itself when it has at
    most 53 binary digits; otherwise the integer rounded to 53 binary
    digits, to the nearest and in a tie to the even one, and an infinity
    when that is 2^1024 or more. *)
Definition nearest_Number (z : Z) : Integral :=
  let a := Z.abs z in
  let e := (Z.log2 a - 52)%Z in
  if bool_decide (e ≤ 0)%Z then Finite z
  else
    let q := (a `div` 2 ^ e)%Z in
    let r := (a `mod` 2 ^ e)%Z in
    let half := (2 ^ (e - 1))%Z in
    let q' :=
      if bool_decide (half < r)%Z || bool_decide (r = half) && Z.odd q
      then (q + 1)%Z else q in
    if bool_decide (2 ^ 1024 ≤ q' * 2 ^ e)%Z then Infinite (bool_decide (z < 0)%Z)
    else Finite (Z.sgn z * (q' * 2 ^ e))%Z.

(** [parseInt(s)]: the Number nearest to the integer read, as V8 computes
    it; [None] is NaN. *)
Definition parseInt_string (s : string) : option Integral :=
  nearest_Number <$> parse_integer s.

Definition parseInt (v : JsValue) : option Integral := parseInt_string (ToString v).

(** Strings made of the decimal digits 0 to 9 only. *)
Definition decimal_char (c : ascii) : Prop := (48 ≤ N_of_ascii c ≤ 57)%N.

Fixpoint all_decimal (s : string) : Prop :=
  match s with
  | String c s' => decimal_char c ∧ all_decimal s'
  | EmptyString => True
  end.

(** [x || d] on an integer that may be missing: a missing value and 0 are
    falsy. *)
Definition or_default (x : option Z) (d : Z) : Z :=
  match x with
  | Some n => if bool_decide (n = 0%Z) then d else n
  | None => d
  end.

(** [x || d] on the result of parseInt: NaN and 0 are falsy. *)
Definition or_number (x : option Integral) (d : Z) : Integral :=
  match x with
  | Some (Finite n) => if bool_decide (n = 0%Z) then Finite d else Finite n
  | Some (Infinite negative) => Infinite negative
  | None => Finite d
  end.

(** [Math.max(lo, Math.min(hi, x))]. *)
Definition bounded (lo hi : Z) (x : Integral) : Z :=
  match x with
  | Finite n => (lo `max` (hi `min` n))%Z
  | Infinite false => (lo `max` hi)%Z
  | Infinite true => lo
  end.

(** [Math.max(1, Math.min(50, parseInt(numberOfQuestions) || 5))], with the
    destructuring default [numberOfQuestions = 5] for a missing property. *)
Definition questionCount (numberOfQuestions : option JsValue) : Z :=
  let numberOfQuestions := default (JNumber 5) numberOfQuestions in
  bounded 1 50 (or_number (parseInt numberOfQuestions) 5).

(** The clamp the specification speaks of. *)
Definition clamp (lo hi n : Z) : Z := (lo `max` (hi `min` n))%Z.

(** ** The advisory message *)

Definition plural (n : Z) : string := if bool_decide (n > 1)%Z then "s" else "".

Definition responseMessage (questionCount actualCount : Z) : string :=
  if bool_decide (actualCount < questionCount)%Z then
    let difference := (questionCount - actualCount)%Z in
    "AI generated " +:+ pretty actualCount +:+ " questions (requested " +:+
    pretty questionCount +:+ "). " +:+ pretty difference +:+ " question" +:+
    plural difference +:+
    " short. You can add more questions manually or regenerate."
  else if bool_decide (actualCount > questionCount)%Z then
    let extra := (actualCount - questionCount)%Z in
    "AI generated " +:+ pretty actualCount +:+ " questions (requested " +:+
    pretty questionCount +:+ "). " +:+ pretty extra +:+ " extra question" +:+
    plural extra +:+ ". You can remove extras if needed."
  else "Quiz generated successfully. Review and save when ready.".

(** ** Extraction of the JSON span from the provider's text *)

(** [s.replace(/pat/g, '')] for a literal, non-empty pattern: matches are
    taken leftmost and do not overlap. *)
Fixpoint replace_go (pat : string) (skip : nat) (s : string) : string :=
  match s with
  | EmptyString => EmptyString
  | String c s' =>
      match skip with
      | S k => replace_go pat k s'
      | O =>
          if String.prefix pat s then replace_go pat (String.length pat - 1) s'
          else String c (replace_go pat 0 s')
      end
  end.

Definition remove_all (pat s : string) : string := replace_go pat 0 s.

Fixpoint trim_end (s : string) : string :=
  match s with
  | EmptyString => EmptyString
  | String c s' =>
      let r := trim_end s' in
      if is_whitespace c && bool_decide (r = "") then "" else String c r
  end.

Definition trim (s : string) : string := trim_end (skip_whitespace s).

(** [indexOf] and [lastIndexOf] of a character; [None] is -1. *)
Fixpoint indexOf (c : ascii) (s : string) : option nat :=
  match s with
  | EmptyString => None
  | String d s' => if bool_decide (c = d) then Some 0 else S <$> indexOf c s'
  end.

Fixpoint lastIndexOf (c : ascii) (s : string) : option nat :=
  match s with
  | EmptyString => None
  | String d s' =>
      match lastIndexOf c s' with
      | Some i => Some (S i)
      | None => if bool_decide (c = d) then Some 0 else None
      end
  end.

(** [s.substring(a, b)]: the arguments are swapped when [a > b] and clamped
    to the length of [s]. *)
Definition substring (a b : nat) (s : string) : string :=
  let lo := a `min` b in
  let hi := a `max` b in
  string_take (hi - lo) (string_drop lo s).

(** ** Documents, requests and responses *)

(** The parsed provider output [aiJson]: an object whose [title] and
    [questions] properties may be missing. *)
Module AiJson.
Record t := mk {
  title : option string;
  questions : option (list Question)
}.
End AiJson.

(** Modelled from the spec: the Quiz schema (models/Quiz.js) is not part of
    the sources.  A stored quiz has a store-assigned identifier, a title, an
    ordered sequence of questions, a time limit in minutes, the identifier
    of the owning administrator and an optional weightage with its type. *)
Module Quiz.
Record doc := mk {
  _id : string;
  title : string;
  questions : list Question;
  timeLimit : Z;
  adminId : string;
  weightage : option Z;
  weightageType : option string
}.

Definition set_title (quiz : doc) (v : string) : doc :=
  mk (_id quiz) v (questions quiz) (timeLimit quiz) (adminId quiz)
     (weightage quiz) (weightageType quiz).
Definition set_questions (quiz : doc) (v : list Question) : doc :=
  mk (_id quiz) (title quiz) v (timeLimit quiz) (adminId quiz)
     (weightage quiz) (weightageType quiz).
Definition set_timeLimit (quiz : doc) (v : Z) : doc :=
  mk (_id quiz) (title quiz) (questions quiz) v (adminId quiz)
     (weightage quiz) (weightageType quiz).
End Quiz.

(** [req.user], as the authentication middleware leaves it. *)
Module User.
Record t := mk {
  id : option string;
  _id : option string
}.
End User.

(** [req.body]: every property the controller or its callers name. *)
Record Body := mkBody {
  prompt : option string;
  quizType : option string;
  numberOfQuestions : option JsValue;
  title : option string;
  questions : option (list Question);
  timeLimit : option Z;
  weightage : option Z;
  weightageType : option string
}.

Record Request := mkRequest {
  body : Body;
  params_id : string;
  query_limit : option string;
  user : option User.t
}.

Inductive Data :=
  | PreviewData (title : option string) (questions : list Question) (timeLimit : Z)
  | QuizData (quiz : Quiz.doc)
  | QuizList (quizzes : list Quiz.doc).

(** [res.status(status).json({ success, message, error, rawText, data, preview })]. *)
Record Response := mkResponse {
  status : Z;
  success : bool;
  message : option string;
  error : option string;
  rawText : option string;
  data : option Data;
  preview : option bool
}.

Definition failure (status : Z) (message : string) : Response :=
  mkResponse status false (Some message) None None None None.

Definition truthy_opt (x : option string) : bool :=
  match x with
  | Some s => truthy s
  | None => false
  end.

(** [req.user?.id || req.user?._id].  Identifiers are modelled by their
    [toString()] image, which is what the ownership checks compare. *)
Definition adminId (req : Request) : option string :=
  match user req with
  | None => None
  | Some u =>
      match User.id u with
      | Some i => if truthy i then Some i else User._id u
      | None => User._id u
      end
  end.

(** The values interpolated into the instruction sent to the provider. *)
Record Prompt := mkPrompt {
  topic : string;
  questionType : option string;
  count : Z;
  countMessage : string
}.

Definition count_message (questionCount : Z) : string :=
  if bool_decide (questionCount = 1)%Z then "That means ONE question only."
  else if bool_decide (questionCount = 2)%Z then "That means TWO questions only."
  else if bool_decide (questionCount >= 3)%Z && bool_decide (questionCount <= 5)%Z then
    "That means " +:+ pretty questionCount +:+ " questions - not 5, not 10, exactly "
    +:+ pretty questionCount +:+ "."
  else if bool_decide (questionCount > 5)%Z && bool_decide (questionCount <= 10)%Z then
    "That means " +:+ pretty questionCount +:+ " questions total - count them carefully."
  else if bool_decide (questionCount > 10)%Z then
    "That means " +:+ pretty questionCount +:+ " questions - yes, " +:+
    pretty questionCount +:+ " full questions. This is a comprehensive quiz."
  else "".

Definition fullPrompt (prompt : string) (quizType : option string)
    (questionCount : Z) : Prompt :=
  mkPrompt prompt quizType questionCount (count_message questionCount).

(** ** The environment of the controller

    What the controller reaches outside its own code: the configured API
    key, the text-generation provider (an error message or the returned
    text), JSON.parse (the parser's error message or the parsed object), and
    the document store's schema: the validation run by [save] ([None] when
    the document is accepted), the defaults of the fields the controller
    does not set, and the query engine behind [Quiz.find]. *)
Record Env := mkEnv {
  GEMINI_API_KEY : option string;
  generateContent : Prompt → string + string;
  JSON_parse : string → string + AiJson.t;
  validate : Quiz.doc → option string;
  default_weightage : option Z;
  default_weightageType : option string;
  find : gmap string Quiz.doc → string → option Integral → list Quiz.doc
}.

(** ** Store and exceptions as a monad *)

Abbreviation Store := (gmap string Quiz.doc).

Inductive Exception := Error (message : string).

Definition error_message (e : Exception) : string :=
  match e with Error m => m end.

(** A computation reads and writes the store and either throws or returns.
    Writes made before a throw stay in the store. *)
Definition M (A : Type) : Type := Store → (Exception + A) * Store.

#[global] Instance M_ret : MRet M := λ A a s, (inr a, s).

#[global] Instance M_bind : MBind M := λ A B f m s,
  match m s with
  | (inr a, s') => f a s'
  | (inl e, s') => (inl e, s')
  end.

Definition throw {A} (e : Exception) : M A := λ s, (inl e, s).

(** [try { m } catch (e) { ... }] with the caught value handed to the
    continuation. *)
Definition attempt {A} (m : M A) : M (Exception + A) := λ s,
  let '(r, s') := m s in (inr r, s').

(** The outermost [try { ... } catch (error) { res.status(500).json(...) }]
    of a handler. *)
Definition handler (m : M Response) (message : string) : Store → Response * Store :=
  λ s,
    match m s with
    | (inr r, s') => (r, s')
    | (inl e, s') =>
        (mkResponse 500 false (Some message) (Some (error_message e)) None None None, s')
    end.

(** ** The Quiz model's operations *)

(** [Quiz.findById(id)] for an identifier of the store's format. *)
Definition Quiz_findById (id : string) : M (option Quiz.doc) :=
  λ s, (inr (s !! id), s).

Definition Quiz_findByIdAndDelete (id : string) : M unit :=
  λ s, (inr (), delete id s).

(** [new Quiz({ title, questions, timeLimit, adminId })]: the identifier is
    assigned at construction and is not in use. *)
Definition Quiz_new (env : Env) (title : string) (questions : list Question)
    (timeLimit : Z) (adminId : string) : M Quiz.doc :=
  λ s, (inr (Quiz.mk (fresh (dom s)) title questions timeLimit adminId
               (default_weightage env) (default_weightageType env)), s).

(** [quiz.save()]: validates against the schema, then writes the document
    under its identifier. *)
Definition Quiz_save (env : Env) (quiz : Quiz.doc) : M unit :=
  λ s,
    match validate env quiz with
    | Some m => (inl (Error m), s)
    | None => (inr (), <[Quiz._id quiz := quiz]> s)
    end.

Definition Quiz_find (env : Env) (adminId : string) (limit : option Integral) :
    M (list Quiz.doc) :=
  λ s, (inr (find env s adminId limit), s).

(** [x.toString()] on a value that may be undefined. *)
Definition toString (x : option string) : M string :=
  match x with
  | Some s => mret s
  | None => throw (Error "Cannot read properties of undefined (reading 'toString')")
  end.

(** ** The handlers *)

(** POST /api/quiz/generate *)
Definition generateQuiz (env : Env) (req : Request) : Store → Response * Store :=
  handler (
    let prompt := prompt (body req) in
    let quizType := quizType (body req) in
    let adminId := adminId req in
    if negb (truthy_opt prompt) then
      mret (failure 400 "Prompt is required")
    else if negb (truthy_opt adminId) then
      mret (failure 401 "You must be logged in to create a quiz")
    else
      let questionCount := questionCount (numberOfQuestions (body req)) in
      if negb (truthy_opt (GEMINI_API_KEY env)) then
        mret (failure 500 "Gemini API key is not configured")
      else
        let fullPrompt := fullPrompt (default "" prompt) quizType questionCount in
        r ← attempt (match generateContent env fullPrompt with
                     | inr text => mret text
                     | inl m => throw (Error m)
                     end);
        match r with
        | inl apiError =>
            mret (mkResponse 500 false
              (Some "Failed to connect to AI service. Please check your API key and try again.")
              (Some (error_message apiError)) None None None)
        | inr text =>
            let text := trim (remove_all "```" (remove_all "```json" text)) in
            match indexOf "{" text, lastIndexOf "}" text with
            | Some firstBrace, Some lastBrace =>
                let jsonText := substring firstBrace (lastBrace + 1) text in
                r ← attempt (match JSON_parse env jsonText with
                             | inr v => mret v
                             | inl m => throw (Error m)
                             end);
                match r with
                | inl parseError =>
                    mret (mkResponse 500 false (Some "AI response was not valid JSON.")
                      (Some (error_message parseError))
                      (Some (substring 0 500 jsonText)) None None)
                | inr aiJson =>
                    questions ←
                      match AiJson.questions aiJson with
                      | Some qs => mret qs
                      | None => throw (Error
                          "Cannot read properties of undefined (reading 'length')")
                      end;
                    let validatedQuestions := validatedQuestions questions in
                    let actualCount := Z.of_nat (length validatedQuestions) in
                    mret (mkResponse 200 true
                      (Some (responseMessage questionCount actualCount)) None None
                      (Some (PreviewData (AiJson.title aiJson) validatedQuestions 10))
                      (Some true))
                end
            | _, _ =>
                mret (mkResponse 500 false (Some "AI response did not contain valid JSON")
                  None (Some (substring 0 500 text)) None None)
            end
        end)
    "Failed to generate quiz".

(** The limit of GET /api/quiz: [req.query.limit ? parseInt(req.query.limit) : null],
    applied only when truthy. *)
Definition query_limit_value (req : Request) : option Integral :=
  match query_limit req with
  | Some l =>
      if truthy l then
        match parseInt_string l with
        | Some limit => if bool_decide (limit = Finite 0) then None else Some limit
        | None => None
        end
      else None
  | None => None
  end.

(** GET /api/quiz *)
Definition getQuizzes (env : Env) (req : Request) : Store → Response * Store :=
  handler (
    if negb (truthy_opt (adminId req)) then
      mret (failure 401 "You must be logged in to view quizzes")
    else
      quizzes ← Quiz_find env (default "" (adminId req)) (query_limit_value req);
      mret (mkResponse 200 true None None None (Some (QuizList quizzes)) None))
    "Failed to fetch quizzes".

(** GET /api/quiz/:id *)
Definition getQuizById (env : Env) (req : Request) : Store → Response * Store :=
  handler (
    quiz ← Quiz_findById (params_id req);
    match quiz with
    | None => mret (failure 404 "Quiz not found")
    | Some quiz =>
        requester ← toString (adminId req);
        if negb (bool_decide (Quiz.adminId quiz = requester)) then
          mret (failure 403 "Not authorized to view this quiz")
        else
          mret (mkResponse 200 true None None None (Some (QuizData quiz)) None)
    end)
    "Failed to fetch quiz".

(** DELETE /api/quiz/:id *)
Definition deleteQuiz (env : Env) (req : Request) : Store → Response * Store :=
  handler (
    quiz ← Quiz_findById (params_id req);
    match quiz with
    | None => mret (failure 404 "Quiz not found")
    | Some quiz =>
        requester ← toString (adminId req);
        if negb (bool_decide (Quiz.adminId quiz = requester)) then
          mret (failure 403 "Not authorized to delete this quiz")
        else
          Quiz_findByIdAndDelete (params_id req);;
          mret (mkResponse 200 true (Some "Quiz deleted successfully")
                  None None None None)
    end)
    "Failed to delete quiz".

(** The three assignments of updateQuiz: a property of the body is applied
    when it is not undefined. *)
Definition apply_patch (b : Body) (quiz : Quiz.doc) : Quiz.doc :=
  let quiz := match title b with
              | Some v => Quiz.set_title quiz v
              | None => quiz
              end in
  let quiz := match questions b with
              | Some v => Quiz.set_questions quiz v
              | None => quiz
              end in
  match timeLimit b with
  | Some v => Quiz.set_timeLimit quiz v
  | None => quiz
  end.

(** PUT /api/quiz/:id *)
Definition updateQuiz (env : Env) (req : Request) : Store → Response * Store :=
  handler (
    quiz ← Quiz_findById (params_id req);
    match quiz with
    | None => mret (failure 404 "Quiz not found")
    | Some quiz =>
        requester ← toString (adminId req);
        if negb (bool_decide (Quiz.adminId quiz = requester)) then
          mret (failure 403 "Not authorized to edit this quiz")
        else
          let quiz := apply_patch (body req) quiz in
          Quiz_save env quiz;;
          mret (mkResponse 200 true (Some "Quiz updated successfully")
                  None None (Some (QuizData quiz)) None)
    end)
    "Failed to update quiz".

(** [!title || !questions || questions.length === 0]. *)
Definition missing_fields (b : Body) : bool :=
  negb (truthy_opt (title b)) ||
  match questions b with
  | None => true
  | Some qs => bool_decide (length qs = 0)
  end.

(** POST /api/quiz/manual *)
Definition createManualQuiz (env : Env) (req : Request) : Store → Response * Store :=
  handler (
    let b := body req in
    if missing_fields b then
      mret (failure 400 "Title and at least one question are required")
    else if negb (truthy_opt (adminId req)) then
      mret (failure 401 "You must be logged in to create a quiz")
    else
      newQuiz ← Quiz_new env (default "" (title b)) (default [] (questions b))
                  (or_default (timeLimit b) 10) (default "" (adminId req));
      Quiz_save env newQuiz;;
      mret (mkResponse 201 true (Some "Quiz created successfully")
              None None (Some (QuizData newQuiz)) None))
    "Failed to create quiz".

(** ** Sample questions *)

Definition q_five_options : Question :=
  {| text := "Pick one"; type := "mcq";
     options := JString <$> ["a"; "b"; "c"; "d"; "e"]; answer := JString "a" |}.

Definition q_empty_mcq : Question :=
  {| text := "Q"; type := "mcq"; options := []; answer := JString "A" |}.

Definition q_short_mcq : Question :=
  {| text := "Capital of France?"; type := "mcq";
     options := JString <$> ["Paris"; "Rome"]; answer := JString "Berlin" |}.

Definition q_maybe : Question :=
  {| text := "Is it?"; type := "true_false";
     options := JString <$> ["True"; "Maybe"]; answer := JString "Maybe" |}.

Definition q_yes_no : Question :=
  {| text := "Is water wet?"; type := "true_false";
     options := JString <$> ["Yes"; "No"]; answer := JString "Yes" |}.

(** ** Store invariant and frame conditions *)

(** Every document is stored under its own identifier. *)
Definition store_ok (s : Store) : Prop :=
  map_Forall (λ k quiz, Quiz._id quiz = k) s.

(** A computation that leaves the store as it found it. *)
Definition read_only {A} (m : M A) : Prop := ∀ s, (m s).2 = s.

(** ** Sample environment and requests *)

Definition sample_aiJson : AiJson.t :=
  AiJson.mk (Some "Geography") (Some [q_short_mcq; q_yes_no; q_empty_mcq]).

Definition sample_parse (jsonText : string) : string + AiJson.t :=
  if bool_decide (jsonText = "{quiz}") then inr sample_aiJson
  else inl "Unexpected token".

Definition sample_find (s : Store) (adminId : string) (limit : option Integral) :
    list Quiz.doc :=
  filter (λ quiz, Quiz.adminId quiz = adminId) (snd <$> map_to_list s).

Definition sample_env : Env :=
  mkEnv (Some "key") (λ _, inr "Here is the quiz: ```json {quiz} ``` ")
        sample_parse (λ _, None) None None sample_find.

Definition failing_env : Env :=
  mkEnv (Some "key") (λ _, inl "fetch failed")
        sample_parse (λ _, None) None None sample_find.

Definition empty_body : Body := mkBody None None None None None None None None.

Definition admin1 : User.t := User.mk (Some "admin1") None.
Definition admin2 : User.t := User.mk None (Some "admin2").

Definition generate_request (n : Z) : Request :=
  mkRequest (mkBody (Some "Capitals") (Some "mcq") (Some (JNumber n))
               None None None None None)
            "" None (Some admin1).

Definition anonymous_request : Request := mkRequest empty_body "" None None.

Definition stored_quiz : Quiz.doc :=
  Quiz.mk "q1" "Capitals" [q_five_options] 10 "admin1" (Some 20%Z) (Some "percentage").

Definition sample_store : Store := {[ "q1" := stored_quiz ]}.

(** The body the edit form sends on save: title, time limit, questions,
    weightage and weightage type. *)
Definition form_body : Body :=
  mkBody None None None (Some "Capital cities") (Some [q_maybe]) (Some 10%Z)
         (Some 50%Z) (Some "marks").

Definition update_request (u : User.t) (b : Body) : Request :=
  mkRequest b "q1" None (Some u).

(** ** The advisory messages, as the specification names them *)

Definition success_message : string :=
  "Quiz generated successfully. Review and save when ready.".

(** "N short, add manually or regenerate". *)
Definition short_message (returned requested N : Z) : string :=
  "AI generated " +:+ pretty returned +:+ " questions (requested " +:+
  pretty requested +:+ "). " +:+ pretty N +:+ " question" +:+ plural N +:+
  " short. You can add more questions manually or regenerate.".

(** "N extra, remove if needed". *)
Definition extra_message (returned requested N : Z) : string :=
  "AI generated " +:+ pretty returned +:+ " questions (requested " +:+
  pretty requested +:+ "). " +:+ pretty N +:+ " extra question" +:+ plural N +:+
  ". You can remove extras if needed.".

Definition advisory (requested returned : Z) : string :=
  match (returned ?= requested)%Z with
  | Eq => success_message
  | Lt => short_message returned requested (requested - returned)
  | Gt => extra_message returned requested (returned - requested)
  end.

(** ** Sequences of requests *)

(** The six routes of the controller. *)
Inductive Route :=
  | RGenerate | RList | RGet | RDelete | RUpdate | RCreate.

Definition dispatch (route : Route) : Env → Request → Store → Response * Store :=
  match route with
  | RGenerate => generateQuiz
  | RList => getQuizzes
  | RGet => getQuizById
  | RDelete => deleteQuiz
  | RUpdate => updateQuiz
  | RCreate => createManualQuiz
  end.

(** The store after serving the requests in order, each in its own
    environment. *)
Fixpoint serve (calls : list (Route * Env * Request)) (s : Store) : Store :=
  match calls with
  | [] => s
  | (route, env, req) :: calls => serve calls (dispatch route env req s).2
  end.

(** Every stored quiz has a non-empty owner. *)
Definition owned (s : Store) : Prop :=
  map_Forall (λ _ quiz, Quiz.adminId quiz ≠ "") s.

(** A request for the quiz stored under [id] made by [u]. *)
Definition quiz_request (id : string) (u : User.t) (b : Body) : Request :=
  mkRequest b id None (Some u).

Definition create_body : Body :=
  mkBody None None None (Some "T") (Some [q_maybe]) None None None.

(** The document createManualQuiz constructs for a request. *)
Definition new_quiz (env : Env) (req : Request) (s : Store) : Quiz.doc :=
  Quiz.mk (fresh (dom s)) (default "" (title (body req)))
    (default [] (questions (body req)))
    (or_default (timeLimit (body req)) 10) (default "" (adminId req))
    (default_weightage env) (default_weightageType env).

(** ** Well-formed questions and fences *)

(** A question on which none of the three repairs applies. *)
Definition well_formed (q : Question) : Prop :=
  (type q = "mcq" → answer q ∈ options q ∧ 4 ≤ length (options q)) ∧
  (type q = "true_false" → answer q ∈ options q ∧ JString "True" ∈ options q).

(** [pat] occurs somewhere in [s]. *)
Fixpoint occurs (pat s : string) : bool :=
  String.prefix pat s ||
  match s with
  | String _ s' => occurs pat s'
  | EmptyString => false
  end.

(** The text generateQuiz searches for braces. *)
Definition cleaned (text : string) : string :=
  trim (remove_all "```" (remove_all "```json" text)).

#[global] Arguments cleaned : simpl never.

(** A provider that answers without any JSON. *)
Definition prose_env : Env :=
  mkEnv (Some "key") (λ _, inr "  Sorry, I cannot help with that.  ")
        sample_parse (λ _, None) None None sample_find.

(** A provider whose text holds a span the sample parser rejects, and one
    whose object has no questions. *)
Definition garbled_env : Env :=
  mkEnv (Some "key") (λ _, inr "```json {quiz ``` }")
        sample_parse (λ _, None) None None sample_find.

Definition hollow_env : Env :=
  mkEnv (Some "key") (λ _, inr "{quiz}")
        (λ _, inr (AiJson.mk (Some "Empty") None)) (λ _, None) None None sample_find.


(** ** The quiz tab (QuizTab.jsx): the number-of-questions field

    The field's state is the empty string or a number. *)

Inductive CountField :=
  | Blank
  | Count (n : Z).

#[global] Instance CountField_eq_dec : EqDecision CountField.
Proof. solve_decision. Defined.

Definition field_value (numberOfQuestions : CountField) : JsValue :=
  match numberOfQuestions with
  | Blank => JString ""
  | Count n => JNumber n
  end.

(** The field's onChange handler, given [e.target.value]. *)
Definition count_onChange (value : string) (numberOfQuestions : CountField) :
    CountField :=
  if bool_decide (value = "") then Blank
  else
    match parseInt_string value with
    | Some num => Count (bounded 1 50 num)
    | None => numberOfQuestions
    end.

(** The field's onBlur handler, given [e.target.value]. *)
Definition count_onBlur (value : string) (numberOfQuestions : CountField) :
    CountField :=
  if bool_decide (value = "") || bool_decide (value = "0") then Count 5
  else numberOfQuestions.

(** [Math.max(1, Math.min(50, parseInt(numberOfQuestions) || 5))] in
    handleGenerateQuiz. *)
Definition validQuestionCount (numberOfQuestions : CountField) : Z :=
  bounded 1 50 (or_number (parseInt (field_value numberOfQuestions)) 5).

(** handleGenerateQuiz up to the fetch: nothing is sent when the trimmed
    prompt is empty; otherwise the field is set to the valid count when it
    differs, and the body [{ prompt, quizType, numberOfQuestions }] is
    posted. *)
Definition handleGenerateQuiz (prompt quizType : string)
    (numberOfQuestions : CountField) : option Body * CountField :=
  if negb (truthy (trim prompt)) then (None, numberOfQuestions)
  else
    let validQuestionCount := validQuestionCount numberOfQuestions in
    (Some (mkBody (Some prompt) (Some quizType) (Some (JNumber validQuestionCount))
             None None None None None),
     if bool_decide (numberOfQuestions = Count validQuestionCount)
     then numberOfQuestions else Count validQuestionCount).

Inductive FieldEvent :=
  | Change (value : string)
  | Blur (value : string)
  | Generate (prompt quizType : string).

Definition field_step (numberOfQuestions : CountField) (e : FieldEvent) :
    CountField :=
  match e with
  | Change value => count_onChange value numberOfQuestions
  | Blur value => count_onBlur value numberOfQuestions
  | Generate prompt quizType => (handleGenerateQuiz prompt quizType numberOfQuestions).2
  end.

(** The field after a run of events, from its initial state 5. *)
Definition field_after (events : list FieldEvent) : CountField :=
  foldl field_step (Count 5) events.

Definition field_ok (numberOfQuestions : CountField) : Prop :=
  match numberOfQuestions with
  | Blank => True
  | Count n => (1 ≤ n ≤ 50)%Z
  end.

(** ** The edit form (EditQuizModal.jsx)

    A question of the form carries, besides the four properties of a
    question, the image of the question and the images of its options;
    either may be missing on a quiz that was loaded. *)

Module Form.
Record question := mk {
  text : string;
  type : string;
  options : list string;
  answer : string;
  questionImage : option string;
  optionImages : option (list string)
}.
End Form.

(** The properties the form edits through handleQuestionChange. *)
Inductive Field := FText | FType | FAnswer.

Definition newQuestion : Form.question :=
  Form.mk "" "mcq" [""; ""; ""; ""] "" (Some "") (Some [""; ""; ""; ""]).

Definition handleAddQuestion (questions : list Form.question) : list Form.question :=
  questions ++ [newQuestion].

(** [questions.filter((_, i) => i !== index)]. *)
Definition handleDeleteQuestion (index : nat) (questions : list Form.question) :
    list Form.question :=
  snd <$> filter (λ p, p.1 ≠ index) (imap pair questions).

(** The rows swap places; a move off either end changes nothing.  The
    handlers below are called with the index of a rendered row; [None]
    stands for the results JavaScript gives beyond the rows: an array with a
    hole or an incomplete question, or a thrown TypeError. *)
Definition handleMoveQuestion (index : nat) (direction : string)
    (questions : list Form.question) : option (list Form.question) :=
  let targetIndex :=
    if bool_decide (direction = "up") then (Z.of_nat index - 1)%Z
    else (Z.of_nat index + 1)%Z in
  if bool_decide (targetIndex < 0)%Z ||
     bool_decide (targetIndex >= Z.of_nat (length questions))%Z
  then Some questions
  else
    match questions !! index, questions !! Z.to_nat targetIndex with
    | Some q, Some t =>
        Some (<[Z.to_nat targetIndex := q]> (<[index := t]> questions))
    | _, _ => None
    end.

(** [{ ...q, [field]: value }] followed by the adjustment of the options
    when the type changes. *)
Definition change_field (field : Field) (value : string) (q : Form.question) :
    Form.question :=
  match field with
  | FText => Form.mk value (Form.type q) (Form.options q) (Form.answer q)
               (Form.questionImage q) (Form.optionImages q)
  | FAnswer => Form.mk (Form.text q) (Form.type q) (Form.options q) value
                 (Form.questionImage q) (Form.optionImages q)
  | FType =>
      if bool_decide (value = "mcq") then
        Form.mk (Form.text q) value [""; ""; ""; ""] (Form.answer q)
          (Form.questionImage q) (Some [""; ""; ""; ""])
      else if bool_decide (value = "true_false") then
        Form.mk (Form.text q) value ["True"; "False"]
          (if negb (includes ["True"; "False"] (Form.answer q)) then ""
           else Form.answer q)
          (Form.questionImage q) (Some [""; ""])
      else if bool_decide (value = "short_answer") then
        Form.mk (Form.text q) value [] (Form.answer q)
          (Form.questionImage q) (Some [])
      else
        Form.mk (Form.text q) value (Form.options q) (Form.answer q)
          (Form.questionImage q) (Form.optionImages q)
  end.

Definition handleQuestionChange (index : nat) (field : Field) (value : string)
    (questions : list Form.question) : option (list Form.question) :=
  match questions !! index with
  | Some q => Some (<[index := change_field field value q]> questions)
  | None => None
  end.

(** [newQuestions[qIndex].options[optIndex] = value]; writing at the length
    of the options appends. *)
Definition handleOptionChange (qIndex optIndex : nat) (value : string)
    (questions : list Form.question) : option (list Form.question) :=
  match questions !! qIndex with
  | Some q =>
      let opts := Form.options q in
      if bool_decide (optIndex < length opts) then
        Some (<[qIndex := Form.mk (Form.text q) (Form.type q)
                            (<[optIndex := value]> opts) (Form.answer q)
                            (Form.questionImage q) (Form.optionImages q)]> questions)
      else if bool_decide (optIndex = length opts) then
        Some (<[qIndex := Form.mk (Form.text q) (Form.type q)
                            (opts ++ [value]) (Form.answer q)
                            (Form.questionImage q) (Form.optionImages q)]> questions)
      else None
  | None => None
  end.

(** The double quote character, as a string. *)
Definition dquote : string := String "034"%char "".

(** [!s.trim()]. *)
Definition blank (s : string) : bool := negb (truthy (trim s)).

(** The checks validateQuiz makes on one question, with the message it sets
    for the question numbered [i + 1]. *)
Definition question_error (i : nat) (q : Form.question) : option string :=
  let label := "Question " +:+ pretty (i + 1) +:+ ": " in
  if blank (Form.text q) then Some (label +:+ "Question text is required")
  else if negb (truthy (Form.answer q)) || blank (Form.answer q) then
    Some (label +:+ "Answer is required")
  else if bool_decide (Form.type q = "mcq") &&
          existsb blank (Form.options q) then
    Some (label +:+ "All MCQ options must be filled")
  else if bool_decide (Form.type q = "mcq") &&
          negb (includes (Form.options q) (Form.answer q)) then
    Some (label +:+ "Answer must match one of the options exactly")
  else if bool_decide (Form.type q = "true_false") &&
          negb (includes ["True"; "False"] (Form.answer q)) then
    Some (label +:+ "True/False answer must be " +:+ dquote +:+ "True" +:+
          dquote +:+ " or " +:+ dquote +:+ "False" +:+ dquote)
  else None.

(** The loop of validateQuiz: the first question with an error decides. *)
Fixpoint questions_error (i : nat) (questions : list Form.question) :
    option string :=
  match questions with
  | [] => None
  | q :: questions =>
      match question_error i q with
      | Some m => Some m
      | None => questions_error (S i) questions
      end
  end.

(** validateQuiz: [None] when it returns true, otherwise the error it sets.
    The weightage state is compared as a number; the model takes the
    integer it coerces to, [None] standing for NaN, on which both
    comparisons are false. *)
Definition validateQuiz (title : string) (questions : list Form.question)
    (weightage : option Z) (weightageType : string) : option string :=
  let below (bound : Z) :=
    match weightage with Some w => bool_decide (w < bound)%Z | None => false end in
  let above (bound : Z) :=
    match weightage with Some w => bool_decide (w > bound)%Z | None => false end in
  if blank title then Some "Quiz title is required"
  else if bool_decide (length questions = 0) then
    Some "At least one question is required"
  else if bool_decide (weightageType = "percentage") && (below 0%Z || above 100%Z) then
    Some "Weightage percentage must be between 0 and 100."
  else if bool_decide (weightageType = "marks") && below 0%Z then
    Some "Weightage marks must be zero or a positive number."
  else questions_error 0 questions.

Inductive ImageField :=
  | QuestionImage
  | OptionImage (optIndex : option nat).

(** handleRemoveImage: the image is replaced by the empty string. *)
Definition handleRemoveImage (qIndex : nat) (field : ImageField)
    (questions : list Form.question) : option (list Form.question) :=
  match field with
  | OptionImage None => Some questions
  | QuestionImage =>
      match questions !! qIndex with
      | Some q =>
          Some (<[qIndex := Form.mk (Form.text q) (Form.type q) (Form.options q)
                              (Form.answer q) (Some "") (Form.optionImages q)]>
                  questions)
      | None => None
      end
  | OptionImage (Some optIndex) =>
      match questions !! qIndex with
      | Some q =>
          match Form.optionImages q with
          | Some images =>
              if bool_decide (optIndex < length images) then
                Some (<[qIndex := Form.mk (Form.text q) (Form.type q)
                                    (Form.options q) (Form.answer q)
                                    (Form.questionImage q)
                                    (Some (<[optIndex := ""]> images))]> questions)
              else if bool_decide (optIndex = length images) then
                Some (<[qIndex := Form.mk (Form.text q) (Form.type q)
                                    (Form.options q) (Form.answer q)
                                    (Form.questionImage q)
                                    (Some (images ++ [""]))]> questions)
              else None
          | None => None
          end
      | None => None
      end
  end.

(** What the controller reads of a question of the form, whose options and
    answer are strings; the images travel with the question and are not
    read by the controller. *)
Definition to_question (q : Form.question) : Question :=
  mkQuestion (Form.text q) (Form.type q) (JString <$> Form.options q)
    (JString (Form.answer q)).

(** The request handleSave sends: a POST to /quiz/manual for a quiz without
    identifier, a PUT to /quiz/:id otherwise. *)
Inductive SaveRequest :=
  | PostManual (b : Body)
  | PutQuiz (id : string) (b : Body).

(** handleSave up to the fetch: nothing is sent unless validateQuiz passes;
    the body is [{ title, timeLimit: 10, questions, weightage, weightageType }]. *)
Definition handleSave (quiz_id : option string) (title : string)
    (questions : list Form.question) (weightage : option Z)
    (weightageType : string) : option SaveRequest :=
  match validateQuiz title questions weightage weightageType with
  | Some _ => None
  | None =>
      let b := mkBody None None None (Some title) (Some (to_question <$> questions))
                 (Some 10%Z) weightage (Some weightageType) in
      match quiz_id with
      | Some id => if truthy id then Some (PutQuiz id b) else Some (PostManual b)
      | None => Some (PostManual b)
      end
  end.

(** Sample form questions. *)
Definition fq_mcq : Form.question :=
  Form.mk "Capital of France?" "mcq" ["Paris"; "Rome"; "Oslo"; "Bern"] "Paris"
    (Some "") (Some [""; ""; ""; ""]).

Definition fq_tf : Form.question :=
  Form.mk "Is water wet?" "true_false" ["True"; "False"] "True" None None.

Definition fq_short : Form.question :=
  Form.mk "Name a noble gas." "short_answer" [] "Neon" None None.

(** What validateQuiz asks of a question and of the form, as propositions. *)
Definition row_valid (q : Form.question) : Prop :=
  trim (Form.text q) ≠ "" ∧ trim (Form.answer q) ≠ "" ∧
  (Form.type q = "mcq" →
     Forall (λ o, trim o ≠ "") (Form.options q) ∧
     Form.answer q ∈ Form.options q) ∧
  (Form.type q = "true_false" → Form.answer q ∈ ["True"; "False"]).

Definition form_valid (title : string) (questions : list Form.question)
    (weightage : option Z) (weightageType : string) : Prop :=
  trim title ≠ "" ∧ questions ≠ [] ∧
  (weightageType = "percentage" → ∀ w, weightage = Some w → (0 ≤ w ≤ 100)%Z) ∧
  (weightageType = "marks" → ∀ w, weightage = Some w → (0 ≤ w)%Z) ∧
  Forall row_valid questions.

(** * Properties *)

(** ** The repair pass *)

Section RepairPass.

Implicit Types (q : Question) (opts : list JsValue).

Lemma includes_true `{EqDecision A} (arr : list A) (x : A) :
  includes arr x = true ↔ x ∈ arr.
Proof. unfold includes. apply bool_decide_eq_true. Qed.

Lemma includes_false `{EqDecision A} (arr : list A) (x : A) :
  includes arr x = false ↔ x ∉ arr.
Proof. unfold includes. apply bool_decide_eq_false. Qed.

(** The falsy values. *)
Lemma ToBoolean_false (v : JsValue) :
  ToBoolean v = false ↔
  v = JString "" ∨ v = JNumber 0 ∨ v = JNull ∨ v = JBoolean false.
Proof.
  split.
  - destruct v as [n|neg s j|neg|s| |b|a f]; simpl; try done.
    + intros H. apply negb_false_iff, bool_decide_eq_true in H. subst. auto.
    + unfold truthy. intros H. apply negb_false_iff, bool_decide_eq_true in H.
      subst. auto.
    + auto.
    + intros ->. auto.
  - by intros [->|[->|[->| ->]]].
Qed.

(** The loop never runs out of fuel when given four iterations, and only
    appends. *)
Lemma push_options_length fuel opts :
  4 ≤ fuel + length opts →
  length (push_options fuel opts) = 4 `max` length opts.
Proof.
  revert opts. induction fuel as [|fuel IH]; intros opts Hf;
    unfold push_options; fold push_options.
  - destruct (Nat.ltb_spec (length opts) 4); lia.
  - destruct (Nat.ltb_spec (length opts) 4) as [Hlt|Hge]; [|lia].
    rewrite IH; rewrite length_app; simpl; lia.
Qed.

Lemma push_options_prefix fuel opts : opts `prefix_of` push_options fuel opts.
Proof.
  revert opts. induction fuel as [|fuel IH]; intros opts;
    unfold push_options; fold push_options.
  - by destruct (length opts <? 4).
  - destruct (length opts <? 4); [|done].
    etrans; [|apply IH]. by apply prefix_app_r.
Qed.

Lemma push_options_long fuel opts :
  4 ≤ length opts → push_options fuel opts = opts.
Proof.
  intros H. destruct fuel; unfold push_options;
    destruct (Nat.ltb_spec (length opts) 4); done || lia.
Qed.

Lemma push_options_empty : 
  push_options 4 [] = JString <$> ["Option 1"; "Option 2"; "Option 3"; "Option 4"].
Proof. reflexivity. Qed.

Lemma validateQuestion_type q : type (validateQuestion q) = type q.
Proof.
  unfold validateQuestion, ensure_true_false, ensure_mcq_options, check_answer.
  repeat (case_match; simpl); done.
Qed.

Lemma validateQuestion_text q : text (validateQuestion q) = text q.
Proof.
  unfold validateQuestion, ensure_true_false, ensure_mcq_options, check_answer.
  repeat (case_match; simpl); done.
Qed.

Lemma Question_eq q1 q2 :
  text q1 = text q2 → type q1 = type q2 → options q1 = options q2 →
  answer q1 = answer q2 → q1 = q2.
Proof. destruct q1, q2; simpl; congruence. Qed.

Lemma check_answer_fields q :
  text (check_answer q) = text q ∧ type (check_answer q) = type q ∧
  options (check_answer q) = options q ∧
  answer (check_answer q) =
    if (is_type "mcq" q || is_type "true_false" q) && negb (includes (options q) (answer q))
    then first_option_or_default (options q) else answer q.
Proof. unfold check_answer, is_type. repeat (case_match; simpl); done. Qed.

Lemma ensure_mcq_options_fields q :
  text (ensure_mcq_options q) = text q ∧ type (ensure_mcq_options q) = type q ∧
  answer (ensure_mcq_options q) = answer q ∧
  options (ensure_mcq_options q) =
    if is_type "mcq" q then push_options 4 (options q) else options q.
Proof.
  unfold ensure_mcq_options, is_type.
  destruct (bool_decide (type q = "mcq")); simpl; [|done].
  destruct (Nat.ltb_spec (length (options q)) 4); simpl; [done|].
  by rewrite push_options_long.
Qed.

Lemma ensure_true_false_fields q :
  text (ensure_true_false q) = text q ∧ type (ensure_true_false q) = type q ∧
  options (ensure_true_false q) =
    (if is_type "true_false" q && negb (includes (options q) (JString "True"))
     then [JString "True"; JString "False"] else options q) ∧
  answer (ensure_true_false q) =
    if is_type "true_false" q && negb (includes (options q) (JString "True")) &&
       negb (includes [JString "True"; JString "False"] (answer q))
    then JString "True" else answer q.
Proof. unfold ensure_true_false, is_type. repeat (case_match; simpl); done. Qed.

Lemma is_type_mcq q : type q = "mcq" → is_type "mcq" q = true ∧ is_type "true_false" q = false.
Proof.
  intros Ht. unfold is_type. rewrite Ht. done.
Qed.

Lemma is_type_true_false q :
  type q = "true_false" → is_type "mcq" q = false ∧ is_type "true_false" q = true.
Proof. intros Ht. unfold is_type. rewrite Ht. done. Qed.

Lemma validateQuestion_mcq q :
  type q = "mcq" →
  validateQuestion q =
    {| text := text q; type := type q;
       options := push_options 4 (options q);
       answer := if includes (options q) (answer q) then answer q
                 else first_option_or_default (options q) |}.
Proof.
  intros Ht. destruct (is_type_mcq q Ht) as [Hm Htf].
  destruct (check_answer_fields q) as (Hc1 & Hc2 & Hc3 & Hc4).
  destruct (ensure_mcq_options_fields (check_answer q)) as (Hm1 & Hm2 & Hm3 & Hm4).
  destruct (ensure_true_false_fields (ensure_mcq_options (check_answer q)))
    as (Ht1 & Ht2 & Ht3 & Ht4).
  unfold is_type in *. rewrite ?Hm2, ?Hc2 in *. rewrite Hm, Htf in *. simpl in *.
  apply Question_eq; unfold validateQuestion; simpl; try congruence.
  rewrite Ht4, Hm3, Hc4. by destruct (includes (options q) (answer q)).
Qed.

Lemma validateQuestion_true_false q :
  type q = "true_false" →
  validateQuestion q =
    let a1 := if includes (options q) (answer q) then answer q
              else first_option_or_default (options q) in
    {| text := text q; type := type q;
       options := if includes (options q) (JString "True") then options q
                  else [JString "True"; JString "False"];
       answer := if includes (options q) (JString "True") then a1
                 else if includes [JString "True"; JString "False"] a1 then a1
                      else JString "True" |}.
Proof.
  intros Ht. destruct (is_type_true_false q Ht) as [Hm Htf].
  destruct (check_answer_fields q) as (Hc1 & Hc2 & Hc3 & Hc4).
  destruct (ensure_mcq_options_fields (check_answer q)) as (Hm1 & Hm2 & Hm3 & Hm4).
  destruct (ensure_true_false_fields (ensure_mcq_options (check_answer q)))
    as (Ht1 & Ht2 & Ht3 & Ht4).
  unfold is_type in *. rewrite ?Hm2, ?Hc2 in *. rewrite Hm, Htf in *. simpl in *.
  rewrite Hm4, Hc3 in Ht3, Ht4. rewrite Hm3, Hc4 in Ht4.
  apply Question_eq; unfold validateQuestion; simpl; try congruence.
  - rewrite Ht3. by destruct (includes (options q) (JString "True")).
  - rewrite Ht4.
    destruct (includes (options q) (JString "True")),
      (includes (options q) (answer q));
      simpl; try done; by destruct (includes [JString "True"; JString "False"] _).
Qed.

Lemma validateQuestion_other q :
  type q ≠ "mcq" → type q ≠ "true_false" → validateQuestion q = q.
Proof.
  intros H1 H2.
  assert (Hc : check_answer q = q).
  { unfold check_answer. by rewrite !bool_decide_eq_false_2 by done. }
  assert (Hm : ensure_mcq_options q = q).
  { unfold ensure_mcq_options. by rewrite bool_decide_eq_false_2 by done. }
  assert (Ht : ensure_true_false q = q).
  { unfold ensure_true_false. by rewrite bool_decide_eq_false_2 by done. }
  unfold validateQuestion. by rewrite Hc, Hm, Ht.
Qed.

Lemma first_option_or_default_cases opts :
  first_option_or_default opts ∈ opts ∨
  first_option_or_default opts = JString "No answer provided" ∧
    (opts = [] ∨ ∃ o, head opts = Some o ∧ ToBoolean o = false).
Proof.
  destruct opts as [|o opts]; simpl; [by right; auto|].
  destruct (ToBoolean o) eqn:Ho.
  - left. apply list_elem_of_here.
  - right. eauto.
Qed.

Lemma first_option_or_default_falsy opts o :
  head opts = Some o → ToBoolean o = false →
  first_option_or_default opts = JString "No answer provided".
Proof.
  destruct opts as [|o' opts]; simpl; [done|]. intros [= ->] Ho. by rewrite Ho.
Qed.

Lemma prefix_head opts1 opts2 x :
  opts1 `prefix_of` opts2 → head opts1 = Some x → head opts2 = Some x.
Proof. intros [k ->]. by destruct opts1. Qed.

(** C1 (amended).  Every question of type mcq in the output of the repair
    pass has at least four options, exactly four when the candidate had at
    most four (the pass pads and never truncates), and its answer is one of
    its options or the literal "No answer provided"; the literal is only
    used when the candidate had no options or its first option was falsy:
    the empty string, 0, null or false. *)
Theorem mcq_after_repair (questions : list Question) (i : nat) q' :
  validatedQuestions questions !! i = Some q' →
  type q' = "mcq" →
  ∃ q, questions !! i = Some q ∧
    length (options q') = 4 `max` length (options q) ∧
    (answer q' ∈ options q' ∨
     answer q' = JString "No answer provided" ∧
       (options q = [] ∨
        ∃ o, head (options q) = Some o ∧
             (o = JString "" ∨ o = JNumber 0 ∨ o = JNull ∨ o = JBoolean false))).
Proof.
  unfold validatedQuestions. rewrite list_lookup_fmap.
  destruct (questions !! i) as [q|] eqn:Hq; simpl; [|done].
  intros [= <-] Ht. rewrite validateQuestion_type in Ht.
  exists q. split; [done|]. rewrite validateQuestion_mcq by done. simpl.
  split; [apply push_options_length; lia|].
  destruct (includes (options q) (answer q)) eqn:Hin.
  - left. apply includes_true in Hin.
    eapply elem_of_prefix; [done|]. apply push_options_prefix.
  - destruct (first_option_or_default_cases (options q))
      as [Hfo|[Hfo [Hn|(o & Ho & Hf)]]].
    + left. eapply elem_of_prefix; [done|]. apply push_options_prefix.
    + right. auto.
    + right. split; [done|]. right. exists o. split; [done|].
      by apply ToBoolean_false.
Qed.

Lemma mcq_after_repair_witness :
  validatedQuestions [q_short_mcq] !! 0 = Some (validateQuestion q_short_mcq) ∧
  type (validateQuestion q_short_mcq) = "mcq" ∧
  ∃ q, [q_short_mcq] !! 0 = Some q ∧
    length (options (validateQuestion q_short_mcq)) = 4 `max` length (options q) ∧
    (answer (validateQuestion q_short_mcq) ∈ options (validateQuestion q_short_mcq) ∨
     answer (validateQuestion q_short_mcq) = JString "No answer provided" ∧
       (options q = [] ∨
        ∃ o, head (options q) = Some o ∧
             (o = JString "" ∨ o = JNumber 0 ∨ o = JNull ∨ o = JBoolean false))).
Proof.
  split; [reflexivity|]. split; [reflexivity|].
  apply (mcq_after_repair [q_short_mcq] 0 (validateQuestion q_short_mcq));
    reflexivity.
Defined.

(** C1 as stated fails: an mcq question with five options keeps all five,
    and an mcq question without options is given the answer
    "No answer provided", which is none of its four placeholder options. *)
Lemma mcq_exactly_four_fails :
  validatedQuestions [q_five_options; q_empty_mcq] =
    [q_five_options;
     {| text := "Q"; type := "mcq";
        options := JString <$> ["Option 1"; "Option 2"; "Option 3"; "Option 4"];
        answer := JString "No answer provided" |}] ∧
  ¬ (∀ q', q' ∈ validatedQuestions [q_five_options; q_empty_mcq] →
           type q' = "mcq" → length (options q') = 4 ∧ answer q' ∈ options q').
Proof.
  split; [reflexivity|]. intros H.
  destruct (H q_five_options) as [Hlen _]; [|reflexivity|discriminate Hlen].
  apply list_elem_of_here.
Qed.

(** The pass on a question whose first option is the number 0: the answer,
    the string "0", is none of the options, and the literal replaces it. *)
Example mcq_falsy_first_option :
  validateQuestion
    {| text := "Q"; type := "mcq";
       options := [JNumber 0; JNumber 1; JNumber 5; JNumber 10];
       answer := JString "0" |} =
    {| text := "Q"; type := "mcq";
       options := [JNumber 0; JNumber 1; JNumber 5; JNumber 10];
       answer := JString "No answer provided" |}.
Proof. reflexivity. Qed.

(** C2 (amended).  Every question of type true_false in the output of the
    repair pass has "True" among its options.  When the candidate's options
    did not contain "True", the options are exactly ["True","False"] and the
    answer is "True" or "False".  When they did, the options are left as
    they were and the answer is one of them or "No answer provided". *)
Theorem true_false_after_repair (questions : list Question) (i : nat) q' :
  validatedQuestions questions !! i = Some q' →
  type q' = "true_false" →
  ∃ q, questions !! i = Some q ∧
    JString "True" ∈ options q' ∧
    (JString "True" ∉ options q →
       options q' = [JString "True"; JString "False"] ∧
       answer q' ∈ [JString "True"; JString "False"]) ∧
    (JString "True" ∈ options q →
       options q' = options q ∧
       (answer q' ∈ options q' ∨ answer q' = JString "No answer provided")).
Proof.
  unfold validatedQuestions. rewrite list_lookup_fmap.
  destruct (questions !! i) as [q|] eqn:Hq; simpl; [|done].
  intros [= <-] Ht. rewrite validateQuestion_type in Ht.
  exists q. split; [done|]. rewrite validateQuestion_true_false by done. simpl.
  destruct (includes (options q) (JString "True")) eqn:HT.
  - apply includes_true in HT. split; [done|]. split; [done|].
    intros _. split; [done|].
    destruct (includes (options q) (answer q)) eqn:Hin.
    + left. by apply includes_true.
    + destruct (first_option_or_default_cases (options q)) as [?|[? _]]; auto.
  - apply includes_false in HT. split; [set_solver|]. split; [|done].
    intros _. split; [done|].
    case_match eqn:Hin; [by apply includes_true in Hin|set_solver].
Qed.

Lemma true_false_after_repair_witness :
  validatedQuestions [q_yes_no] !! 0 = Some (validateQuestion q_yes_no) ∧
  type (validateQuestion q_yes_no) = "true_false" ∧
  ∃ q, [q_yes_no] !! 0 = Some q ∧
    JString "True" ∈ options (validateQuestion q_yes_no) ∧
    (JString "True" ∉ options q →
       options (validateQuestion q_yes_no) = [JString "True"; JString "False"] ∧
       answer (validateQuestion q_yes_no) ∈ [JString "True"; JString "False"]) ∧
    (JString "True" ∈ options q →
       options (validateQuestion q_yes_no) = options q ∧
       (answer (validateQuestion q_yes_no) ∈ options (validateQuestion q_yes_no) ∨
        answer (validateQuestion q_yes_no) = JString "No answer provided")).
Proof.
  split; [reflexivity|]. split; [reflexivity|].
  apply (true_false_after_repair [q_yes_no] 0 (validateQuestion q_yes_no));
    reflexivity.
Defined.

(** C2 as stated fails: a true_false question whose options are
    ["True","Maybe"] with answer "Maybe" passes through unchanged. *)
Lemma true_false_exact_options_fails :
  validatedQuestions [q_maybe] = [q_maybe] ∧
  ¬ (∀ q', q' ∈ validatedQuestions [q_maybe] → type q' = "true_false" →
           options q' = [JString "True"; JString "False"] ∧
           answer q' ∈ [JString "True"; JString "False"]).
Proof.
  split; [reflexivity|]. intros H.
  destruct (H q_maybe) as [Hopts _]; [|reflexivity|discriminate Hopts].
  apply list_elem_of_here.
Qed.

Lemma validateQuestion_idempotent q :
  (type q = "mcq" → options q ≠ []) →
  validateQuestion (validateQuestion q) = validateQuestion q.
Proof.
  intros Hne.
  destruct (decide (type q = "mcq")) as [Hm|Hm];
    [|destruct (decide (type q = "true_false")) as [Htf|Htf]].
  - specialize (Hne Hm).
    rewrite (validateQuestion_mcq (validateQuestion q))
      by (by rewrite validateQuestion_type).
    rewrite (validateQuestion_mcq q) by done. simpl.
    pose proof (push_options_prefix 4 (options q)) as Hpre.
    pose proof (push_options_length 4 (options q) ltac:(lia)) as Hlen.
    rewrite (push_options_long 4 (push_options 4 (options q))) by lia.
    f_equal.
    destruct (includes (options q) (answer q)) eqn:Hin.
    + apply includes_true in Hin.
      rewrite (proj2 (includes_true _ _)); [done|]. by eapply elem_of_prefix.
    + destruct (first_option_or_default_cases (options q))
        as [Hfo|[Hfo [?|(o & Hh & Ho)]]]; [|done|].
      * rewrite (proj2 (includes_true _ _)); [done|]. by eapply elem_of_prefix.
      * case_match; [done|]. rewrite Hfo.
        apply (first_option_or_default_falsy _ o); [|done].
        by eapply prefix_head.
  - rewrite (validateQuestion_true_false (validateQuestion q))
      by (by rewrite validateQuestion_type).
    rewrite (validateQuestion_true_false q) by done. simpl.
    destruct (includes (options q) (JString "True")) eqn:HT.
    + rewrite HT. f_equal.
      destruct (includes (options q) (answer q)) eqn:Hin; [by rewrite Hin|].
      by case_match.
    + assert (includes [JString "True"; JString "False"] (JString "True") = true)
        as HTT by done.
      rewrite HTT. f_equal.
      set (a1 := if includes (options q) (answer q) then answer q
                 else first_option_or_default (options q)).
      destruct (includes [JString "True"; JString "False"] a1) eqn:Ha1;
        [by rewrite Ha1|].
      by rewrite HTT.
  - rewrite !validateQuestion_other; by rewrite ?validateQuestion_other.
Qed.

(** C3 (amended).  The repair pass is idempotent on every candidate in which
    no mcq question has an empty options list. *)
Theorem repair_idempotent (questions : list Question) :
  Forall (λ q, type q = "mcq" → options q ≠ []) questions →
  validatedQuestions (validatedQuestions questions) = validatedQuestions questions.
Proof.
  unfold validatedQuestions. induction 1 as [|q qs Hq _ IH]; simpl; [done|].
  rewrite IH. f_equal. by apply validateQuestion_idempotent.
Qed.

Lemma repair_idempotent_witness :
  Forall (λ q, type q = "mcq" → options q ≠ [])
    [q_short_mcq; q_five_options; q_maybe; q_yes_no] ∧
  validatedQuestions
    (validatedQuestions [q_short_mcq; q_five_options; q_maybe; q_yes_no]) =
  validatedQuestions [q_short_mcq; q_five_options; q_maybe; q_yes_no].
Proof.
  assert (Forall (λ q, type q = "mcq" → options q ≠ [])
            [q_short_mcq; q_five_options; q_maybe; q_yes_no]) as H.
  { repeat constructor; simpl; discriminate. }
  split; [exact H|]. exact (repair_idempotent _ H).
Defined.

(** C3 as stated fails: for an mcq question without options the first pass
    sets the answer to "No answer provided" and pads the options; the
    second pass then finds that answer missing from the options and
    replaces it by "Option 1". *)
Lemma repair_not_idempotent :
  answer <$> validatedQuestions [q_empty_mcq] = [JString "No answer provided"] ∧
  answer <$> validatedQuestions (validatedQuestions [q_empty_mcq]) =
    [JString "Option 1"] ∧
  validatedQuestions (validatedQuestions [q_empty_mcq]) ≠
    validatedQuestions [q_empty_mcq].
Proof. split; [reflexivity|]. split; [reflexivity|]. vm_compute. discriminate. Qed.

End RepairPass.

(** ** Strings *)

Section Strings.

Lemma string_take_drop n s : string_take n s +:+ string_drop n s = s.
Proof.
  revert s. induction n as [|n IH]; intros [|c s]; simpl; try done.
  unfold String.app. simpl. f_equal. apply IH.
Qed.

Lemma length_string_take n s : String.length (string_take n s) = n `min` String.length s.
Proof. revert s. induction n as [|n IH]; intros [|c s]; simpl; auto. Qed.

Lemma length_string_drop n s : String.length (string_drop n s) = String.length s - n.
Proof. revert s. induction n as [|n IH]; intros [|c s]; simpl; auto. Qed.

Lemma string_take_all n s : String.length s ≤ n → string_take n s = s.
Proof.
  revert s. induction n as [|n IH]; intros [|c s]; simpl; try done; try lia.
  intros H. f_equal. apply IH. lia.
Qed.

Lemma length_app_string s t :
  String.length (s +:+ t) = String.length s + String.length t.
Proof. induction s as [|c s IH]; [done|]. simpl. by rewrite <- IH. Qed.

Lemma app_string_cons c s t : String c s +:+ t = String c (s +:+ t).
Proof. reflexivity. Qed.

Lemma app_string_nil t : "" +:+ t = t.
Proof. reflexivity. Qed.

End Strings.

(** ** parseInt on the decimal form of a number *)

Section ParseInt.

Lemma pretty_N_char_decimal (d : N) : (d < 10)%N → decimal_char (pretty_N_char d).
Proof.
  intros Hd. unfold decimal_char.
  assert (d = 0 ∨ d = 1 ∨ d = 2 ∨ d = 3 ∨ d = 4 ∨ d = 5 ∨ d = 6 ∨ d = 7 ∨
          d = 8 ∨ d = 9)%N as Hcases by lia.
  repeat destruct Hcases as [->|Hcases]; try subst d; vm_compute; split; discriminate.
Qed.

Lemma digit_value_pretty_N_char (d : N) :
  (d < 10)%N → digit_value 10 (pretty_N_char d) = Some d.
Proof.
  intros Hd.
  assert (d = 0 ∨ d = 1 ∨ d = 2 ∨ d = 3 ∨ d = 4 ∨ d = 5 ∨ d = 6 ∨ d = 7 ∨
          d = 8 ∨ d = 9)%N as Hcases by lia.
  repeat destruct Hcases as [->|Hcases]; try subst d; reflexivity.
Qed.

Lemma digit_value_decimal (c : ascii) :
  decimal_char c → digit_value 10 c = Some (N_of_ascii c - 48)%N.
Proof.
  unfold decimal_char, digit_value. intros [H1 H2].
  rewrite (proj2 (N.leb_le _ _) H1), (proj2 (N.leb_le _ _) H2). simpl.
  rewrite (proj2 (N.ltb_lt _ _)); [done|lia].
Qed.

Lemma pretty_N_go_all_decimal (x : N) (s : string) :
  all_decimal s → all_decimal (pretty_N_go x s).
Proof.
  revert s. induction (N.lt_wf_0 x) as [x _ IH]; intros s Hs.
  destruct (decide (x = 0)%N) as [->|Hx]; [by rewrite pretty_N_go_0|].
  rewrite pretty_N_go_step by lia. apply IH.
  - apply N.div_lt; lia.
  - split; [|done]. apply pretty_N_char_decimal. by apply N.mod_lt.
Qed.

Lemma pretty_N_go_nonempty (x : N) (s : string) :
  (0 < x)%N → pretty_N_go x s ≠ "".
Proof.
  revert s. induction (N.lt_wf_0 x) as [x _ IH]; intros s Hx.
  rewrite pretty_N_go_step by done.
  destruct (decide (x `div` 10 = 0)%N) as [->|Hd]; [by rewrite pretty_N_go_0|].
  apply IH; [apply N.div_lt; lia|]. by apply N.neq_0_lt_0.
Qed.

(** Reading back the digits that [pretty] wrote in front of [s]. *)
Lemma parse_digits_pretty_N_go (x : N) (s : string) :
  ∃ k : N, ∀ acc,
    parse_digits 10 acc (pretty_N_go x s) = parse_digits 10 (acc * 10 ^ k + x) s.
Proof.
  revert s. induction (N.lt_wf_0 x) as [x _ IH]; intros s.
  destruct (decide (x = 0)%N) as [->|Hx].
  - exists 0%N. intros acc. rewrite pretty_N_go_0. f_equal. lia.
  - destruct (IH (x `div` 10)%N (N.div_lt x 10 ltac:(lia) eq_refl)
                (String (pretty_N_char (x `mod` 10)) s)) as [k Hk].
    exists (k + 1)%N. intros acc. rewrite pretty_N_go_step by lia.
    rewrite Hk. simpl. rewrite digit_value_pretty_N_char by (by apply N.mod_lt).
    f_equal. rewrite N.pow_add_r, N.pow_1_r.
    pose proof (N.div_mod x 10 ltac:(done)) as Hdm.
    set (p := (10 ^ k)%N) in *. set (d := (x `div` 10)%N) in *.
    set (m := (x `mod` 10)%N) in *. clearbody p d m. lia.
Qed.

(** The first digit that [pretty] writes is not 0. *)
Lemma pretty_N_go_head (x : N) (s : string) :
  (0 < x)%N →
  ∃ c r h, pretty_N_go x s = String c r ∧ decimal_char c ∧
           digit_value 10 c = Some h ∧ (1 ≤ h)%N.
Proof.
  revert s. induction (N.lt_wf_0 x) as [x _ IH]; intros s Hx.
  rewrite pretty_N_go_step by done.
  destruct (decide (x `div` 10 = 0)%N) as [Hd|Hd].
  - rewrite Hd, pretty_N_go_0.
    assert (x `mod` 10 = x)%N as -> by (apply N.mod_small; apply N.div_small_iff in Hd; lia).
    assert (x < 10)%N by (apply N.div_small_iff in Hd; lia).
    exists (pretty_N_char x), s, x. split; [done|].
    split; [by apply pretty_N_char_decimal|].
    split; [by apply digit_value_pretty_N_char|lia].
  - apply IH; [apply N.div_lt; lia|]. by apply N.neq_0_lt_0.
Qed.

(** The digits in front of a character that is no digit. *)
Lemma parse_digits_app (d r : string) (acc : N) :
  all_decimal d →
  parse_digits 10 acc (d +:+ r) = parse_digits 10 (parse_digits 10 acc d) r.
Proof.
  revert acc. induction d as [|c d IH]; intros acc; [done|].
  intros [Hc Hd]. rewrite app_string_cons. cbn [parse_digits].
  rewrite digit_value_decimal by done. by apply IH.
Qed.

Lemma parse_digits_acc (d : string) (acc : N) :
  all_decimal d →
  parse_digits 10 acc d =
    (acc * 10 ^ N.of_nat (String.length d) + parse_digits 10 0 d)%N.
Proof.
  revert acc. induction d as [|c d IH]; intros acc.
  { intros _. cbn [parse_digits String.length N.of_nat]. rewrite N.pow_0_r. lia. }
  intros [Hc Hd]. cbn [parse_digits String.length].
  rewrite digit_value_decimal by done.
  rewrite (IH (acc * 10 + _)%N), (IH (0 * 10 + _)%N) by done.
  rewrite Nat2N.inj_succ, N.pow_succ_r by lia.
  set (p := (10 ^ _)%N). set (v := parse_digits 10 0 d).
  set (x := (N_of_ascii c - 48)%N). clearbody p v x. lia.
Qed.

Lemma parse_digits_lt (d : string) :
  all_decimal d → (parse_digits 10 0 d < 10 ^ N.of_nat (String.length d))%N.
Proof.
  induction d as [|c d IH].
  { intros _. cbn [parse_digits String.length N.of_nat]. rewrite N.pow_0_r. lia. }
  intros [Hc Hd]. cbn [parse_digits String.length].
  rewrite digit_value_decimal by done.
  rewrite parse_digits_acc by done.
  rewrite Nat2N.inj_succ, N.pow_succ_r by lia.
  specialize (IH Hd). unfold decimal_char in Hc.
  set (p := (10 ^ _)%N) in *. set (v := parse_digits 10 0 d) in *.
  set (x := (N_of_ascii c - 48)%N). assert (x ≤ 9)%N by lia.
  clearbody p v x. nia.
Qed.

Lemma all_decimal_app (d r : string) :
  all_decimal (d +:+ r) ↔ all_decimal d ∧ all_decimal r.
Proof.
  induction d as [|c d IH]; [simpl; tauto|].
  rewrite app_string_cons. simpl. tauto.
Qed.

Lemma all_decimal_take (m : nat) (d : string) :
  all_decimal d → all_decimal (string_take m d).
Proof.
  intros H. rewrite <- (string_take_drop m d) in H. by apply all_decimal_app in H as [? _].
Qed.

Lemma all_decimal_drop (m : nat) (d : string) :
  all_decimal d → all_decimal (string_drop m d).
Proof.
  intros H. rewrite <- (string_take_drop m d) in H. by apply all_decimal_app in H as [_ ?].
Qed.

(** The first [m] of the digits of a number spell its quotient by the power
    of ten of the other digits. *)
Lemma parse_digits_take (m : nat) (d : string) :
  all_decimal d → m ≤ String.length d →
  parse_digits 10 0 (string_take m d) =
    (parse_digits 10 0 d `div` 10 ^ N.of_nat (String.length d - m))%N.
Proof.
  intros Hd Hm.
  pose proof (all_decimal_take m d Hd) as Ht.
  pose proof (all_decimal_drop m d Hd) as Hr.
  pose proof (parse_digits_lt _ Hr) as Hlt.
  rewrite length_string_drop in Hlt.
  assert (parse_digits 10 0 d =
          parse_digits 10 0 (string_take m d) * 10 ^ N.of_nat (String.length d - m) +
          parse_digits 10 0 (string_drop m d))%N as ->.
  { rewrite <- (string_take_drop m d) at 1.
    rewrite parse_digits_app, parse_digits_acc by done.
    by rewrite length_string_drop. }
  set (p := (10 ^ _)%N) in *.
  apply (N.div_unique _ _ _ (parse_digits 10 0 (string_drop m d))); [done|lia].
Qed.

Lemma parse_digits_stop (acc : N) (c : ascii) (r : string) :
  digit_value 10 c = None → parse_digits 10 acc (String c r) = acc.
Proof. intros H. simpl. by rewrite H. Qed.

Lemma parse_magnitude_digit (c : ascii) (r : string) :
  decimal_char c →
  (∀ r', r ≠ String "x" r') → (∀ r', r ≠ String "X" r') →
  parse_magnitude (String c r) = Some (parse_digits 10 0 (String c r)).
Proof.
  intros Hc Hx HX.
  assert (parse_magnitude (String c r) =
          if starts_with_digit 10 (String c r)
          then Some (parse_digits 10 0 (String c r)) else None) as ->.
  { unfold parse_magnitude.
    destruct c as [[] [] [] [] [] [] [] []]; try reflexivity.
    destruct r as [|c' r]; [reflexivity|].
    destruct c' as [[] [] [] [] [] [] [] []]; try reflexivity; exfalso.
    - by apply (Hx r).
    - by apply (HX r). }
  simpl. rewrite digit_value_decimal by done.
  rewrite bool_decide_eq_true_2; [done|eauto].
Qed.

Lemma parse_magnitude_decimal (s : string) :
  all_decimal s → s ≠ "" → parse_magnitude s = Some (parse_digits 10 0 s).
Proof.
  destruct s as [|c s]; [done|]. intros [Hc Hs] _.
  apply parse_magnitude_digit; [done|..]; intros r' ->; destruct Hs as [Hc' _];
    vm_compute in Hc'; destruct Hc' as [H1 H2]; by (destruct H1 || destruct H2).
Qed.

Lemma decimal_char_plain (c : ascii) :
  decimal_char c → is_whitespace c = false ∧ c ≠ "-"%char ∧ c ≠ "+"%char.
Proof.
  intros Hc. split; [|split].
  - unfold is_whitespace. apply bool_decide_eq_false.
    unfold decimal_char in Hc. rewrite !elem_of_cons, elem_of_nil. lia.
  - intros ->. vm_compute in Hc. destruct Hc as [H _]. by apply H.
  - intros ->. vm_compute in Hc. destruct Hc as [H _]. by apply H.
Qed.

(** A string that begins with a digit is read without sign. *)
Lemma parse_integer_digit (c : ascii) (r : string) :
  decimal_char c →
  parse_integer (String c r) = Z.of_N <$> parse_magnitude (String c r).
Proof.
  intros Hc. unfold parse_integer.
  destruct (decimal_char_plain c Hc) as (Hw & Hm & Hp).
  cbn [skip_whitespace]. rewrite Hw.
  assert ((let '(sign, s2) :=
             match String c r with
             | String "-" r => ((-1)%Z, r)
             | String "+" r => (1%Z, r)
             | _ => (1%Z, String c r)
             end in (λ v, sign * Z.of_N v)%Z <$> parse_magnitude s2) =
          (λ v, 1 * Z.of_N v)%Z <$> parse_magnitude (String c r)) as ->.
  { destruct c as [[] [] [] [] [] [] [] []]; try reflexivity; done. }
  destruct (parse_magnitude (String c r)); simpl; [|done]. f_equal. lia.
Qed.

Lemma parse_integer_decimal (s : string) :
  all_decimal s → s ≠ "" → parse_integer s = Some (Z.of_N (parse_digits 10 0 s)).
Proof.
  intros Hs Hne. destruct s as [|c s]; [done|].
  rewrite parse_integer_digit by apply Hs.
  by rewrite parse_magnitude_decimal.
Qed.

Lemma parse_integer_minus (s : string) :
  parse_integer (String "-" s) = (λ v, -1 * Z.of_N v)%Z <$> parse_magnitude s.
Proof. reflexivity. Qed.

(** The sign [ToString] writes in front of the digits. *)
Lemma parse_integer_signed (negative : bool) (c : ascii) (r : string) :
  decimal_char c →
  (∀ r', r ≠ String "x" r') → (∀ r', r ≠ String "X" r') →
  parse_integer (sign_of negative +:+ String c r) =
    Some ((if negative then -1 else 1) * Z.of_N (parse_digits 10 0 (String c r)))%Z.
Proof.
  intros Hc Hx HX. destruct negative; simpl sign_of.
  - change ("-" +:+ String c r) with (String "-" (String c r)).
    rewrite parse_integer_minus, parse_magnitude_digit by done. done.
  - rewrite app_string_nil, parse_integer_digit, parse_magnitude_digit by done.
    simpl. f_equal. lia.
Qed.

Lemma parse_pretty_positive (p : positive) :
  all_decimal (pretty (N.pos p)) ∧ pretty (N.pos p) ≠ "" ∧
  parse_digits 10 0 (pretty (N.pos p)) = N.pos p.
Proof.
  unfold pretty, pretty_N. rewrite decide_False by done.
  split; [by apply pretty_N_go_all_decimal|].
  split; [by apply pretty_N_go_nonempty|].
  destruct (parse_digits_pretty_N_go (N.pos p) "") as [k Hk].
  rewrite Hk. simpl. lia.
Qed.

(** The digits of a positive integer: the first is not 0, and there are as
    many as the powers of ten say. *)
Lemma pretty_positive_head (p : positive) :
  ∃ c r h, pretty (N.pos p) = String c r ∧ decimal_char c ∧ all_decimal r ∧
           digit_value 10 c = Some h ∧ (1 ≤ h ≤ 9)%N ∧
           N.pos p = (h * 10 ^ N.of_nat (String.length r) + parse_digits 10 0 r)%N ∧
           (parse_digits 10 0 r < 10 ^ N.of_nat (String.length r))%N.
Proof.
  destruct (parse_pretty_positive p) as (Hd & _ & Hv).
  assert (∃ c r h, pretty (N.pos p) = String c r ∧ decimal_char c ∧
                   digit_value 10 c = Some h ∧ (1 ≤ h)%N) as (c & r & h & Hp & Hc & Hh & H1).
  { unfold pretty, pretty_N. rewrite decide_False by done.
    by apply pretty_N_go_head. }
  rewrite Hp in Hd, Hv. destruct Hd as [_ Hr].
  exists c, r, h. split; [done|]. split; [done|]. split; [done|]. split; [done|].
  cbn [parse_digits] in Hv. rewrite Hh in Hv.
  rewrite parse_digits_acc in Hv by done.
  pose proof (parse_digits_lt r Hr).
  split; [|split; [lia|done]].
  rewrite digit_value_decimal in Hh by done. unfold decimal_char in Hc.
  simplify_eq. lia.
Qed.

Lemma length_pretty_positive (p : positive) :
  (10 ^ (Z.of_nat (String.length (pretty (N.pos p))) - 1) ≤ Z.pos p <
   10 ^ Z.of_nat (String.length (pretty (N.pos p))))%Z.
Proof.
  destruct (pretty_positive_head p) as (c & r & h & Hp & Hc & Hr & Hh & H1 & Hv & Hlt).
  rewrite Hp. cbn [String.length].
  replace (Z.of_nat (S (String.length r)) - 1)%Z with (Z.of_nat (String.length r)) by lia.
  rewrite Nat2Z.inj_succ, Z.pow_succ_r by lia.
  assert (Z.pos p = Z.of_N (N.pos p)) as -> by done. rewrite Hv.
  rewrite N2Z.inj_add, N2Z.inj_mul, N2Z.inj_pow, nat_N_Z.
  apply N2Z.inj_lt in Hlt. rewrite N2Z.inj_pow, nat_N_Z in Hlt.
  change (Z.of_N 10) with 10%Z in *.
  set (P := (10 ^ Z.of_nat (String.length r))%Z) in *.
  assert (0 < P)%Z by (apply Z.pow_pos_nonneg; lia).
  nia.
Qed.

End ParseInt.

(** ** What parseInt reads of a printed Number *)

Section PrintedNumbers.

Lemma app_string_nil_r s : s +:+ "" = s.
Proof. induction s as [|c s IH]; [done|]. rewrite app_string_cons. by f_equal. Qed.

Lemma sign_of_cons (negative : bool) (c : ascii) (r : string) :
  sign_of negative +:+ String c r =
    if negative then String "-" (String c r) else String c r.
Proof. by destruct negative. Qed.

(** Digits followed by the end of the string or by a character that is
    neither a digit nor an x: parseInt reads the digits. *)
Lemma parse_integer_digits (negative : bool) (d rest : string) :
  all_decimal d → d ≠ "" →
  (rest = "" ∨ ∃ c r, rest = String c r ∧ digit_value 10 c = None ∧
                      c ≠ "x"%char ∧ c ≠ "X"%char) →
  parse_integer (sign_of negative +:+ d +:+ rest) =
    Some ((if negative then -1 else 1) * Z.of_N (parse_digits 10 0 d))%Z.
Proof.
  intros Hd Hne Hrest. destruct d as [|c d]; [done|]. destruct Hd as [Hc Hd].
  rewrite app_string_cons.
  assert (parse_digits 10 0 (String c (d +:+ rest)) = parse_digits 10 0 (String c d))
    as Hv.
  { rewrite <- app_string_cons, parse_digits_app by done.
    destruct Hrest as [->|(c' & r' & -> & Hn & _)]; [done|].
    by apply parse_digits_stop. }
  rewrite parse_integer_signed; [by rewrite Hv|done|..].
  - intros r' Hr. destruct d as [|c' d].
    + rewrite app_string_nil in Hr.
      destruct Hrest as [->|(c' & r'' & -> & _ & Hx & _)]; [done|]. congruence.
    + rewrite app_string_cons in Hr. destruct Hd as [Hc' _].
      injection Hr as -> _. vm_compute in Hc'. destruct Hc' as [_ H]. by apply H.
  - intros r' Hr. destruct d as [|c' d].
    + rewrite app_string_nil in Hr.
      destruct Hrest as [->|(c' & r'' & -> & _ & _ & Hx)]; [done|]. congruence.
    + rewrite app_string_cons in Hr. destruct Hd as [Hc' _].
      injection Hr as -> _. vm_compute in Hc'. destruct Hc' as [_ H]. by apply H.
Qed.

Lemma parse_integer_pretty (n : Z) : parse_integer (pretty n) = Some n.
Proof.
  destruct n as [|p|p].
  - reflexivity.
  - destruct (parse_pretty_positive p) as (Hd & Hne & Hv).
    change (pretty (Z.pos p)) with (pretty (N.pos p)).
    rewrite parse_integer_decimal by done. by rewrite Hv.
  - destruct (parse_pretty_positive p) as (Hd & Hne & Hv).
    change (pretty (Z.neg p)) with (String "-" (pretty (N.pos p))).
    rewrite parse_integer_minus, parse_magnitude_decimal by done.
    simpl. rewrite Hv. f_equal.
Qed.

(** [parseInt] of a Number printed in plain decimal reads it back. *)
Lemma parseInt_JNumber (n : Z) :
  (Z.abs n < 10 ^ 21)%Z → parseInt (JNumber n) = Some (nearest_Number n).
Proof.
  intros Hn. unfold parseInt, parseInt_string, ToString.
  rewrite bool_decide_eq_true_2 by done. by rewrite parse_integer_pretty.
Qed.

(** Of a Number in exponent notation parseInt reads the first digit. *)
Lemma strip_zeros_head (c : ascii) (r : string) :
  c ≠ "0"%char → ∃ r', strip_zeros (String c r) = String c r'.
Proof.
  intros Hc. cbn [strip_zeros]. destruct (strip_zeros r); [|eauto].
  rewrite bool_decide_eq_false_2 by done. eauto.
Qed.

Lemma parse_integer_exponent_form (negative : bool) (c : ascii) (r : string)
    (e : Z) (h : N) :
  decimal_char c → digit_value 10 c = Some h →
  parse_integer (sign_of negative +:+ exponent_form (String c r) e) =
    Some ((if negative then -1 else 1) * Z.of_N h)%Z.
Proof.
  intros Hc Hh.
  assert (∃ c' r', exponent_form (String c r) e = String c "" +:+ String c' r' ∧
                   digit_value 10 c' = None ∧ c' ≠ "x"%char ∧ c' ≠ "X"%char)
    as (c' & r' & -> & Hn & Hx & HX).
  { unfold exponent_form. destruct r as [|c0 r0].
    - exists "e"%char. eexists. split; [reflexivity|done].
    - exists "."%char. eexists. split; [reflexivity|done]. }
  rewrite parse_integer_digits; [|done|done|right; eauto 10].
  cbn [parse_digits]. by rewrite Hh.
Qed.

(** Two ways of naming the first digit of an integer agree. *)
Lemma leading_digit_unique (x h L d k : Z) :
  (0 ≤ L)%Z → (1 ≤ h ≤ 9)%Z → (1 ≤ d ≤ 9)%Z →
  (h * 10 ^ L ≤ x < (h + 1) * 10 ^ L)%Z →
  (d * 10 ^ k ≤ x < (d + 1) * 10 ^ k)%Z →
  h = d.
Proof.
  intros HL Hh Hd Hx Hk.
  assert (0 ≤ k)%Z as Hk0.
  { destruct (decide (0 ≤ k)%Z); [done|]. rewrite Z.pow_neg_r in Hk by lia. lia. }
  assert (0 < 10 ^ L)%Z by (apply Z.pow_pos_nonneg; lia).
  assert (0 < 10 ^ k)%Z by (apply Z.pow_pos_nonneg; lia).
  assert (L = k) as ->.
  { assert (10 ^ L < 10 ^ (k + 1))%Z as H1.
    { rewrite Z.pow_add_r, Z.pow_1_r by lia. nia. }
    assert (10 ^ k < 10 ^ (L + 1))%Z as H2.
    { rewrite Z.pow_add_r, Z.pow_1_r by lia. nia. }
    apply Z.pow_lt_mono_r_iff in H1; [|lia..].
    apply Z.pow_lt_mono_r_iff in H2; [|lia..]. lia. }
  nia.
Qed.

Lemma pretty_positive_leading (p : positive) (d k : Z) :
  (1 ≤ d ≤ 9)%Z → (d * 10 ^ k ≤ Z.pos p < (d + 1) * 10 ^ k)%Z →
  ∃ c r, pretty (N.pos p) = String c r ∧ decimal_char c ∧ c ≠ "0"%char ∧
         digit_value 10 c = Some (Z.to_N d).
Proof.
  intros Hd Hk.
  destruct (pretty_positive_head p) as (c & r & h & Hp & Hc & Hr & Hh & H1 & Hv & Hlt).
  exists c, r. split; [done|]. split; [done|].
  assert (Z.of_N h = d) as <-.
  { apply (leading_digit_unique (Z.pos p) _ (Z.of_nat (String.length r)) _ k);
      [lia|lia|done| |done].
    assert (Z.pos p = Z.of_N (N.pos p)) as -> by done. rewrite Hv.
    rewrite N2Z.inj_add, N2Z.inj_mul, N2Z.inj_pow, nat_N_Z.
    apply N2Z.inj_lt in Hlt. rewrite N2Z.inj_pow, nat_N_Z in Hlt.
    change (Z.of_N 10) with 10%Z in *. lia. }
  rewrite N2Z.id. split; [|done].
  intros ->. vm_compute in Hh. simplify_eq. lia.
Qed.

Lemma parseInt_exponent (m d k : Z) :
  (10 ^ 21 ≤ Z.abs m)%Z → (1 ≤ d ≤ 9)%Z →
  (d * 10 ^ k ≤ Z.abs m < (d + 1) * 10 ^ k)%Z →
  parseInt (JNumber m) = Some (Finite (if bool_decide (m < 0)%Z then - d else d)).
Proof.
  intros Hm Hd Hk. unfold parseInt, parseInt_string, ToString.
  rewrite bool_decide_eq_false_2 by lia.
  destruct (Z.abs m) as [|p|p] eqn:Hp; [lia| |lia].
  destruct (pretty_positive_leading p d k Hd Hk) as (c & r & Hpp & Hc & Hc0 & Hh).
  change (pretty (Z.pos p)) with (pretty (N.pos p)). rewrite Hpp.
  destruct (strip_zeros_head c r Hc0) as [r' ->].
  rewrite (parse_integer_exponent_form _ _ _ _ _ Hc Hh). simpl.
  rewrite Z2N.id by lia. f_equal.
  case_bool_decide; unfold nearest_Number;
    (rewrite bool_decide_eq_true_2; [f_equal; lia|]);
    assert (d = 1 ∨ d = 2 ∨ d = 3 ∨ d = 4 ∨ d = 5 ∨ d = 6 ∨ d = 7 ∨ d = 8 ∨ d = 9)%Z
      as Hcases by lia;
    repeat destruct Hcases as [->|Hcases]; try subst d; done.
Qed.

Example ToString_samples :
  ToString <$> [JNumber 0; JNumber (-42); JNumber (10 ^ 21 - 1); JNumber (10 ^ 21);
                JNumber (-1180591620717411300000);
                JFraction false 5 1; JFraction true 725 2; JFraction false 1 6;
                JFraction false 1 7; JFraction true 15 8; JInfinity true;
                JNull; JBoolean true; JObject 1 "7,8"]
  = ["0"; "-42"; "999999999999999999999"; "1e+21"; "-1.1805916207174113e+21";
     "0.5"; "-7.25"; "0.000001"; "1e-7"; "-1.5e-7"; "-Infinity";
     "null"; "true"; "7,8"].
Proof. reflexivity. Qed.

End PrintedNumbers.

(** ** The Number nearest to an integer *)

Section Nearest.

(** An integer of at most 53 binary digits is a Number. *)
Lemma nearest_Number_small (z : Z) :
  (Z.abs z < 2 ^ 53)%Z → nearest_Number z = Finite z.
Proof.
  intros Hz. unfold nearest_Number. rewrite bool_decide_eq_true_2; [done|].
  destruct (decide (Z.abs z = 0%Z)) as [Heq|Hne]; [by rewrite Heq|].
  assert (Z.log2 (Z.abs z) < 53)%Z; [|lia].
  apply Z.log2_lt_pow2; lia.
Qed.

(** Rounding a larger integer keeps its sign and gives 2^53 at least. *)
Lemma nearest_Number_large (z : Z) :
  (2 ^ 53 ≤ Z.abs z)%Z →
  match nearest_Number z with
  | Finite m => (2 ^ 53 ≤ Z.abs m)%Z ∧ (0 < m ↔ 0 < z)%Z
  | Infinite negative => negative = bool_decide (z < 0)%Z
  end.
Proof.
  intros Hz. unfold nearest_Number. cbv zeta.
  set (a := Z.abs z) in *. set (e := (Z.log2 a - 52)%Z).
  assert (53 ≤ Z.log2 a)%Z as Hlog by (apply Z.log2_le_pow2; lia).
  rewrite bool_decide_eq_false_2 by lia.
  set (q := (a `div` 2 ^ e)%Z). set (r := (a `mod` 2 ^ e)%Z).
  set (q' := if (_ || _) then (q + 1)%Z else q).
  case_bool_decide as Hinf; [done|].
  assert (0 < 2 ^ e)%Z as He by (apply Z.pow_pos_nonneg; lia).
  assert (2 ^ 52 ≤ q)%Z as Hq.
  { apply Z.div_le_lower_bound; [done|].
    rewrite Z.mul_comm, <- Z.pow_add_r by lia.
    replace (52 + e)%Z with (Z.log2 a) by lia.
    apply Z.log2_spec. lia. }
  assert (q ≤ q')%Z as Hq' by (unfold q'; case_match; lia).
  assert (2 ^ 53 ≤ q' * 2 ^ e)%Z as Hm.
  { assert (2 ≤ 2 ^ e)%Z.
    { change 2%Z with (2 ^ 1)%Z at 1. apply Z.pow_le_mono_r; lia. }
    change (2 ^ 53)%Z with (2 ^ 52 * 2)%Z. nia. }
  set (m := (q' * 2 ^ e)%Z) in *. clearbody m. unfold a in Hz.
  split; [|lia]. lia.
Qed.

(** [Math.max(1, Math.min(50, x || 5))] does not see the rounding. *)
Lemma bounded_nearest_Number (z : Z) :
  bounded 1 50 (or_number (Some (nearest_Number z)) 5) =
    if bool_decide (z = 0%Z) then 5%Z else clamp 1 50 z.
Proof.
  destruct (decide (Z.abs z < 2 ^ 53)%Z) as [Hs|Hl].
  - rewrite nearest_Number_small by done. unfold or_number, bounded, clamp.
    by case_bool_decide.
  - pose proof (nearest_Number_large z ltac:(lia)) as H.
    rewrite bool_decide_eq_false_2 by lia.
    destruct (nearest_Number z) as [m|negative]; unfold or_number, bounded, clamp.
    + rewrite bool_decide_eq_false_2 by lia. simpl. lia.
    + subst negative. case_bool_decide; lia.
Qed.

Example parseInt_string_samples :
  parseInt_string <$> ["12abc"; " -7.9"; "0x1F"; "-0"; "abc"; "";
                       "9007199254740993"; "9007199254740995"]
  = [Some (Finite 12); Some (Finite (-7)); Some (Finite 31); Some (Finite 0);
     None; None; Some (Finite 9007199254740992); Some (Finite 9007199254740996)].
Proof. reflexivity. Qed.

Lemma bounded_range (lo hi : Z) (x : Integral) :
  (lo ≤ hi)%Z → (lo ≤ bounded lo hi x ≤ hi)%Z.
Proof. intros H. destruct x as [n|[]]; simpl; lia. Qed.

Lemma nearest_Number_0 (z : Z) : nearest_Number z = Finite 0 ↔ z = 0%Z.
Proof.
  split; [|by intros ->].
  destruct (decide (Z.abs z < 2 ^ 53)%Z) as [Hs|Hl].
  - rewrite nearest_Number_small by done. by intros [= ->].
  - pose proof (nearest_Number_large z ltac:(lia)) as H. intros Hz.
    rewrite Hz in H. simpl in H. lia.
Qed.

End Nearest.

(** ** Fractions *)

Section Fractions.

(** Where the point of a fraction is, by the size of the fraction. *)
Lemma fraction_point (s : positive) (j : nat) :
  let n := (Z.of_nat (String.length (pretty (N.pos s))) - Z.of_nat j)%Z in
  ((10 ^ Z.of_nat j ≤ Z.pos s * 10 ^ 6)%Z → (-6 < n)%Z) ∧
  ((Z.pos s < 10 ^ (21 + Z.of_nat j))%Z → (n ≤ 21)%Z) ∧
  ((Z.pos s * 10 ^ 6 < 10 ^ Z.of_nat j)%Z → (n ≤ -6)%Z) ∧
  ((10 ^ (21 + Z.of_nat j) ≤ Z.pos s)%Z → (21 < n)%Z).
Proof.
  intros n. subst n. pose proof (length_pretty_positive s) as [Hlo Hhi].
  set (k := Z.of_nat (String.length (pretty (N.pos s)))) in *.
  assert (1 ≤ k)%Z as Hk.
  { destruct (decide (1 ≤ k)%Z); [done|].
    assert (k = 0)%Z as Hk0 by lia. rewrite Hk0 in Hhi. simpl in Hhi. lia. }
  set (J := Z.of_nat j). assert (0 ≤ J)%Z by lia. clearbody k J.
  repeat split; intros H1.
  - destruct (decide (-6 < k - J)%Z); [done|]. exfalso.
    assert (10 ^ (k + 6) ≤ 10 ^ J)%Z by (apply Z.pow_le_mono_r; lia).
    rewrite Z.pow_add_r in * by lia. lia.
  - destruct (decide (k - J ≤ 21)%Z); [done|]. exfalso.
    assert (10 ^ (21 + J) ≤ 10 ^ (k - 1))%Z by (apply Z.pow_le_mono_r; lia). lia.
  - destruct (decide (k - J ≤ -6)%Z); [done|]. exfalso.
    assert (10 ^ J ≤ 10 ^ (k - 1 + 6))%Z by (apply Z.pow_le_mono_r; lia).
    rewrite Z.pow_add_r in * by lia. lia.
  - destruct (decide (21 < k - J)%Z); [done|]. exfalso.
    assert (10 ^ k ≤ 10 ^ (21 + J))%Z by (apply Z.pow_le_mono_r; lia). lia.
Qed.

Lemma all_decimal_zeros (n : nat) : all_decimal (zeros n).
Proof. induction n; simpl; [done|]. split; [|done]. vm_compute. split; discriminate. Qed.

(** Of a fraction printed in plain decimal parseInt reads the integer
    part. *)
Lemma parse_integer_fraction_plain (negative : bool) (s : positive) (j : nat) :
  (-6 < Z.of_nat (String.length (pretty (N.pos s))) - Z.of_nat j ≤ 21)%Z →
  parse_integer (ToString (JFraction negative s j)) =
    Some ((if negative then -1 else 1) * (Z.pos s `div` 10 ^ Z.of_nat j))%Z.
Proof.
  intros Hn. cbn [ToString].
  destruct (parse_pretty_positive s) as (Hd & Hne & Hv).
  pose proof (length_pretty_positive s) as [Hlo Hhi].
  set (d := pretty (N.pos s)) in *. set (k := String.length d) in *.
  unfold Number_toString. fold k.
  case_bool_decide as H1; [|case_bool_decide as H2; [|case_bool_decide as H3; [|lia]]].
  - assert (j = 0) as -> by lia.
    assert (Z.to_nat (Z.of_nat k - Z.of_nat 0 - Z.of_nat k) = 0) as -> by lia.
    cbn [zeros].
    rewrite (parse_integer_digits negative d ""); [|done|done|by left].
    rewrite Hv. change (Z.of_nat 0) with 0%Z. by rewrite Z.pow_0_r, Z.div_1_r.
  - set (n := Z.to_nat (Z.of_nat k - Z.of_nat j)).
    assert (0 < n ≤ k) as Hnk by lia.
    rewrite (parse_integer_digits negative).
    + rewrite parse_digits_take by (done || fold k; lia). fold k. rewrite Hv.
      rewrite N2Z.inj_div, N2Z.inj_pow, nat_N_Z.
      replace (Z.of_nat (k - n))%Z with (Z.of_nat j) by lia.
      done.
    + by apply all_decimal_take.
    + intros Ht. apply (f_equal String.length) in Ht.
      rewrite length_string_take in Ht. fold k in Ht. simpl in Ht. lia.
    + right. exists "."%char. eexists. split; [reflexivity|done].
  - set (z := zeros _).
    change ("0." +:+ z +:+ d) with ("0" +:+ String "." (z +:+ d)).
    rewrite (parse_integer_digits negative "0"); [|done|done|right; eauto 10].
    rewrite Z.div_small; [by destruct negative|].
    split; [lia|]. eapply Z.lt_le_trans; [apply Hhi|].
    apply Z.pow_le_mono_r; lia.
Qed.

(** Of a fraction printed in exponent notation it reads the first digit. *)
Lemma parse_integer_fraction_exponent (negative : bool) (s : positive) (j : nat)
    (d k : Z) :
  ¬ (-6 < Z.of_nat (String.length (pretty (N.pos s))) - Z.of_nat j ≤ 21)%Z →
  (1 ≤ d ≤ 9)%Z → (d * 10 ^ k ≤ Z.pos s < (d + 1) * 10 ^ k)%Z →
  parse_integer (ToString (JFraction negative s j)) =
    Some ((if negative then -1 else 1) * d)%Z.
Proof.
  intros Hn Hd Hk. cbn [ToString].
  destruct (pretty_positive_leading s d k Hd Hk) as (c & r & Hpp & Hc & Hc0 & Hh).
  unfold Number_toString.
  rewrite !bool_decide_eq_false_2 by lia. rewrite Hpp.
  rewrite (parse_integer_exponent_form _ _ _ _ _ Hc Hh).
  by rewrite Z2N.id by lia.
Qed.

End Fractions.

(** ** The effective question count *)

Section QuestionCount.

Lemma questionCount_parse_integer (v : JsValue) :
  questionCount (Some v) =
    match parse_integer (ToString v) with
    | Some k => if bool_decide (k = 0%Z) then 5%Z else clamp 1 50 k
    | None => 5%Z
    end.
Proof.
  unfold questionCount, parseInt, parseInt_string. simpl.
  destruct (parse_integer (ToString v)) as [k|]; simpl; [|done].
  apply bounded_nearest_Number.
Qed.

Lemma questionCount_JNumber (n : Z) :
  (Z.abs n < 10 ^ 21)%Z →
  questionCount (Some (JNumber n)) =
    if bool_decide (n = 0)%Z then 5%Z else clamp 1 50 n.
Proof.
  intros Hn. rewrite questionCount_parse_integer. unfold ToString.
  rewrite bool_decide_eq_true_2 by done. by rewrite parse_integer_pretty.
Qed.

Lemma questionCount_JString (s : string) :
  questionCount (Some (JString s)) =
    match parse_integer s with
    | Some k => if bool_decide (k = 0)%Z then 5%Z else clamp 1 50 k
    | None => 5%Z
    end.
Proof. apply questionCount_parse_integer. Qed.

(** Whatever is sent, the count handed to the provider lies in [1,50]. *)
Lemma questionCount_range (v : option JsValue) :
  (1 ≤ questionCount v ≤ 50)%Z.
Proof. unfold questionCount. by apply bounded_range. Qed.

(** C4 (amended).  For an integer input other than 0 and of magnitude below
    10^21 the effective count is the input clamped to [1,50], and a number
    with a fraction, of magnitude from 10^-6 on and below 10^21, counts as
    its integer part.  For the input 0, for a fraction whose integer part
    is 0, for a missing input, for null, for a boolean and for a string in
    which parseInt finds no integer, the effective count is 5.  For a
    string in which parseInt finds an integer, that integer takes the place
    of the input. *)
Theorem questionCount_effective (n : Z) :
  (Z.abs n < 10 ^ 21)%Z → n ≠ 0%Z →
  questionCount (Some (JNumber n)) = clamp 1 50 n ∧
  questionCount (Some (JNumber 0)) = 5%Z ∧
  questionCount None = 5%Z ∧
  questionCount (Some JNull) = 5%Z ∧
  (∀ b, questionCount (Some (JBoolean b)) = 5%Z) ∧
  (∀ s, parse_integer s = None → questionCount (Some (JString s)) = 5%Z) ∧
  (∀ s, parse_integer s = Some 0%Z → questionCount (Some (JString s)) = 5%Z) ∧
  (∀ s k, parse_integer s = Some k → k ≠ 0%Z →
          questionCount (Some (JString s)) = clamp 1 50 k) ∧
  (∀ negative s j,
     (10 ^ Z.of_nat j ≤ Z.pos s * 10 ^ 6)%Z → (Z.pos s < 10 ^ (21 + Z.of_nat j))%Z →
     questionCount (Some (JFraction negative s j)) =
       if bool_decide (Z.pos s `div` 10 ^ Z.of_nat j = 0)%Z then 5%Z
       else clamp 1 50 ((if negative then -1 else 1) *
                        (Z.pos s `div` 10 ^ Z.of_nat j))).
Proof.
  intros Hb Hn. split_and!.
  - rewrite questionCount_JNumber by done. by rewrite bool_decide_eq_false_2.
  - reflexivity.
  - reflexivity.
  - reflexivity.
  - by intros [].
  - intros s Hs. by rewrite questionCount_JString, Hs.
  - intros s Hs. by rewrite questionCount_JString, Hs.
  - intros s k Hs Hk. rewrite questionCount_JString, Hs.
    by rewrite bool_decide_eq_false_2.
  - intros negative s j H1 H2. rewrite questionCount_parse_integer.
    destruct (fraction_point s j) as (Hp1 & Hp2 & _).
    rewrite parse_integer_fraction_plain by (split; auto).
    set (i := (Z.pos s `div` 10 ^ Z.of_nat j)%Z) in *. clearbody i.
    destruct negative; repeat case_bool_decide; done || lia.
Qed.

Lemma questionCount_effective_witness :
  (Z.abs 72 < 10 ^ 21)%Z ∧ 72%Z ≠ 0%Z ∧
  questionCount (Some (JNumber 72)) = clamp 1 50 72 ∧
  questionCount (Some (JNumber 0)) = 5%Z ∧
  questionCount None = 5%Z ∧
  questionCount (Some JNull) = 5%Z ∧
  (∀ b, questionCount (Some (JBoolean b)) = 5%Z) ∧
  (∀ s, parse_integer s = None → questionCount (Some (JString s)) = 5%Z) ∧
  (∀ s, parse_integer s = Some 0%Z → questionCount (Some (JString s)) = 5%Z) ∧
  (∀ s k, parse_integer s = Some k → k ≠ 0%Z →
          questionCount (Some (JString s)) = clamp 1 50 k) ∧
  (∀ negative s j,
     (10 ^ Z.of_nat j ≤ Z.pos s * 10 ^ 6)%Z → (Z.pos s < 10 ^ (21 + Z.of_nat j))%Z →
     questionCount (Some (JFraction negative s j)) =
       if bool_decide (Z.pos s `div` 10 ^ Z.of_nat j = 0)%Z then 5%Z
       else clamp 1 50 ((if negative then -1 else 1) *
                        (Z.pos s `div` 10 ^ Z.of_nat j))).
Proof.
  split; [reflexivity|]. split; [discriminate|].
  apply (questionCount_effective 72); [reflexivity|discriminate].
Defined.

(** C4 as stated fails at the input 0: clamping 0 to [1,50] gives 1, the
    controller uses 5.  It fails at 10^21 as well, which is clamped to 50
    and for which the controller uses 1. *)
Lemma questionCount_zero_not_clamped :
  questionCount (Some (JNumber 0)) = 5%Z ∧ clamp 1 50 0 = 1%Z ∧
  questionCount (Some (JNumber 0)) ≠ clamp 1 50 0 ∧
  questionCount (Some (JNumber (10 ^ 21))) = 1%Z ∧ clamp 1 50 (10 ^ 21) = 50%Z.
Proof.
  split; [reflexivity|]. split; [reflexivity|]. split; [vm_compute; discriminate|].
  split; reflexivity.
Qed.

Example questionCount_samples :
  questionCount <$> [Some (JNumber (-3)); Some (JNumber 1); Some (JNumber 50);
                     Some (JNumber 51); Some (JString "abc"); Some (JString "12abc");
                     Some (JString " 7 "); Some (JString "");
                     Some (JFraction false 79 1); Some (JFraction false 5 1);
                     Some (JFraction true 79 1); Some (JFraction false 3 7);
                     Some (JNumber (3 * 10 ^ 21)); Some (JObject 1 "12,13")]
  = [1; 1; 50; 50; 5; 12; 7; 5; 7; 5; 1; 3; 3; 12]%Z.
Proof. reflexivity. Qed.

End QuestionCount.

(** ** The handlers *)

Section Handlers.

Implicit Types (env : Env) (req : Request) (s : Store).

Ltac unfold_monad :=
  unfold handler, attempt, toString, throw, Quiz_findById,
    Quiz_findByIdAndDelete, Quiz_new, Quiz_save, Quiz_find,
    mbind, M_bind, mret, M_ret in *.

Lemma read_only_ret {A} (a : A) : read_only (mret a).
Proof. done. Qed.

Lemma read_only_throw {A} (e : Exception) : read_only (@throw A e).
Proof. done. Qed.

Lemma read_only_bind {A B} (m : M A) (f : A → M B) :
  read_only m → (∀ a, read_only (f a)) → read_only (m ≫= f).
Proof.
  intros Hm Hf s. unfold mbind, M_bind. specialize (Hm s).
  destruct (m s) as [[e|a] s1]; simpl in *; subst; [done|]. apply Hf.
Qed.

Lemma read_only_attempt {A} (m : M A) : read_only m → read_only (attempt m).
Proof.
  intros Hm s. unfold attempt. specialize (Hm s). by destruct (m s).
Qed.

Lemma read_only_findById id : read_only (Quiz_findById id).
Proof. done. Qed.

Lemma read_only_find env a l : read_only (Quiz_find env a l).
Proof. done. Qed.

Lemma read_only_toString x : read_only (toString x).
Proof. by destruct x. Qed.

Lemma read_only_handler (m : M Response) msg s :
  read_only m → (handler m msg s).2 = s.
Proof. intros Hm. unfold handler. specialize (Hm s). by destruct (m s) as [[?|?] ?]. Qed.

Create HintDb read_only.
#[local] Hint Resolve read_only_ret read_only_throw read_only_attempt
  read_only_findById read_only_find read_only_toString : read_only.

Ltac solve_read_only :=
  repeat first
    [ progress eauto with read_only
    | apply read_only_bind; [|intros]
    | case_match ].

Lemma generateQuiz_store env req s : (generateQuiz env req s).2 = s.
Proof.
  unfold generateQuiz. apply read_only_handler. cbv zeta. solve_read_only.
Qed.

Lemma getQuizzes_store env req s : (getQuizzes env req s).2 = s.
Proof. unfold getQuizzes. apply read_only_handler. solve_read_only. Qed.

Lemma getQuizById_store env req s : (getQuizById env req s).2 = s.
Proof. unfold getQuizById. apply read_only_handler. solve_read_only. Qed.


(** What a successful generation returns. *)
Lemma generateQuiz_200 env req s :
  status (generateQuiz env req s).1 = 200%Z →
  ∃ jsonText aiJson qs,
    JSON_parse env jsonText = inr aiJson ∧
    AiJson.questions aiJson = Some qs ∧
    (generateQuiz env req s).1 =
      mkResponse 200 true
        (Some (responseMessage (questionCount (numberOfQuestions (body req)))
                 (Z.of_nat (length qs))))
        None None
        (Some (PreviewData (AiJson.title aiJson) (validatedQuestions qs) 10))
        (Some true).
Proof.
  unfold generateQuiz. unfold_monad. cbv zeta.
  repeat (case_match; simplify_eq/=); try done.
  intros _. eexists _, _, _. split; [eassumption|]. split; [eassumption|].
  unfold validatedQuestions. by rewrite length_map.
Qed.


Lemma responseMessage_advisory (requested returned : Z) :
  responseMessage requested returned = advisory requested returned.
Proof.
  unfold responseMessage, advisory.
  destruct (Z.compare_spec returned requested);
    repeat case_bool_decide; try lia; done.
Qed.

(** C5.  On a successful generation the message is chosen from the requested
    count and the number of questions returned: the success message when
    they are equal, the "N short" message with N the shortfall when fewer
    were returned, and the "N extra" message with N the excess when more
    were returned. *)
Theorem advisory_message_selection env req s :
  status (generateQuiz env req s).1 = 200%Z →
  ∃ title qs,
    data (generateQuiz env req s).1 = Some (PreviewData title qs 10) ∧
    message (generateQuiz env req s).1 =
      Some (match (Z.of_nat (length qs) ?=
                   questionCount (numberOfQuestions (body req)))%Z with
            | Eq => success_message
            | Lt => short_message (Z.of_nat (length qs))
                      (questionCount (numberOfQuestions (body req)))
                      (questionCount (numberOfQuestions (body req)) -
                       Z.of_nat (length qs))
            | Gt => extra_message (Z.of_nat (length qs))
                      (questionCount (numberOfQuestions (body req)))
                      (Z.of_nat (length qs) -
                       questionCount (numberOfQuestions (body req)))
            end).
Proof.
  intros H200. destruct (generateQuiz_200 env req s H200)
    as (jsonText & aiJson & qs & _ & _ & ->).
  eexists _, _. split; [reflexivity|]. simpl.
  rewrite responseMessage_advisory. unfold advisory, validatedQuestions.
  by rewrite length_map.
Qed.

Lemma advisory_message_selection_witness :
  status (generateQuiz sample_env (generate_request 5) ∅).1 = 200%Z ∧
  ∃ title qs,
    data (generateQuiz sample_env (generate_request 5) ∅).1 =
      Some (PreviewData title qs 10) ∧
    message (generateQuiz sample_env (generate_request 5) ∅).1 =
      Some (match (Z.of_nat (length qs) ?=
                   questionCount (numberOfQuestions (body (generate_request 5))))%Z with
            | Eq => success_message
            | Lt => short_message (Z.of_nat (length qs))
                      (questionCount (numberOfQuestions (body (generate_request 5))))
                      (questionCount (numberOfQuestions (body (generate_request 5))) -
                       Z.of_nat (length qs))
            | Gt => extra_message (Z.of_nat (length qs))
                      (questionCount (numberOfQuestions (body (generate_request 5))))
                      (Z.of_nat (length qs) -
                       questionCount (numberOfQuestions (body (generate_request 5))))
            end).
Proof.
  split; [reflexivity|].
  apply (advisory_message_selection sample_env (generate_request 5) ∅).
  reflexivity.
Defined.

(** The three cases on the sample provider, which returns three questions. *)
Example advisory_samples :
  message (generateQuiz sample_env (generate_request 3) ∅).1 =
    Some "Quiz generated successfully. Review and save when ready." ∧
  message (generateQuiz sample_env (generate_request 5) ∅).1 =
    Some "AI generated 3 questions (requested 5). 2 questions short. You can add more questions manually or regenerate." ∧
  message (generateQuiz sample_env (generate_request 1) ∅).1 =
    Some "AI generated 3 questions (requested 1). 2 extra questions. You can remove extras if needed." ∧
  responseMessage 5 5 = success_message ∧
  responseMessage 5 3 = "AI generated 3 questions (requested 5). 2 questions short. You can add more questions manually or regenerate." ∧
  responseMessage 5 7 = "AI generated 7 questions (requested 5). 2 extra questions. You can remove extras if needed.".
Proof. repeat split; reflexivity. Qed.


(** *** Outcomes of the handlers that write *)

Lemma deleteQuiz_cases env req s :
  (deleteQuiz env req s).2 = s ∨
  (deleteQuiz env req s).2 = delete (params_id req) s.
Proof.
  unfold deleteQuiz. unfold_monad.
  repeat (case_match; simplify_eq/=); auto.
Qed.

Lemma updateQuiz_cases env req s :
  (updateQuiz env req s).2 = s ∨
  ∃ quiz, s !! params_id req = Some quiz ∧
    (updateQuiz env req s).2 =
      <[Quiz._id quiz := apply_patch (body req) quiz]> s.
Proof.
  unfold updateQuiz. unfold_monad.
  repeat (case_match; simplify_eq/=); eauto.
  right. eexists. split; [done|]. f_equal.
  unfold apply_patch. by repeat case_match.
Qed.

Lemma createManualQuiz_cases env req s :
  ((createManualQuiz env req s).2 = s ∧
   status (createManualQuiz env req s).1 ≠ 201%Z) ∨
  ∃ quiz,
    createManualQuiz env req s =
      (mkResponse 201 true (Some "Quiz created successfully") None None
         (Some (QuizData quiz)) None,
       <[Quiz._id quiz := quiz]> s) ∧
    Quiz._id quiz = fresh (dom s) ∧
    Quiz.adminId quiz = default "" (adminId req).
Proof.
  unfold createManualQuiz. unfold_monad. cbv zeta.
  repeat (case_match; simplify_eq/=); eauto.
  right.
  exists (Quiz.mk (fresh (dom s)) (default "" (title (body req)))
            (default [] (questions (body req)))
            (or_default (timeLimit (body req)) 10) (default "" (adminId req))
            (default_weightage env) (default_weightageType env)).
  split; [reflexivity|]. split; reflexivity.
Qed.

Lemma fresh_not_stored s : s !! fresh (dom s) = None.
Proof. apply not_elem_of_dom, is_fresh. Qed.

(** The identifier invariant is kept by every handler. *)
Lemma handlers_preserve_store_ok env req s :
  store_ok s →
  store_ok (generateQuiz env req s).2 ∧ store_ok (getQuizzes env req s).2 ∧
  store_ok (getQuizById env req s).2 ∧ store_ok (deleteQuiz env req s).2 ∧
  store_ok (updateQuiz env req s).2 ∧ store_ok (createManualQuiz env req s).2.
Proof.
  intros Hok.
  rewrite generateQuiz_store, getQuizzes_store, getQuizById_store.
  repeat split; try done.
  - destruct (deleteQuiz_cases env req s) as [->| ->]; [done|].
    by apply map_Forall_delete.
  - destruct (updateQuiz_cases env req s) as [->|(quiz & Hq & ->)]; [done|].
    apply map_Forall_insert_2; [|done].
    unfold apply_patch. by repeat case_match.
  - destruct (createManualQuiz_cases env req s) as [[-> _]|(quiz & -> & _)];
      [done|].
    by apply map_Forall_insert_2.
Qed.

(** C6.  generateQuiz leaves the store as it found it, and its successful
    response carries the repaired questions of the parsed candidate with
    preview set.  getQuizzes and getQuizById leave the store unchanged too,
    deleteQuiz and updateQuiz add no identifier, and createManualQuiz
    either leaves the store unchanged or answers 201 and stores the new
    quiz under an identifier that was not in use. *)
Theorem generate_is_preview_only env req s :
  store_ok s →
  (generateQuiz env req s).2 = s ∧
  (status (generateQuiz env req s).1 = 200%Z →
     preview (generateQuiz env req s).1 = Some true ∧
     ∃ jsonText aiJson qs,
       JSON_parse env jsonText = inr aiJson ∧
       AiJson.questions aiJson = Some qs ∧
       data (generateQuiz env req s).1 =
         Some (PreviewData (AiJson.title aiJson) (validatedQuestions qs) 10)) ∧
  (getQuizzes env req s).2 = s ∧
  (getQuizById env req s).2 = s ∧
  dom (deleteQuiz env req s).2 ⊆ dom s ∧
  dom (updateQuiz env req s).2 = dom s ∧
  (((createManualQuiz env req s).2 = s ∧
    status (createManualQuiz env req s).1 ≠ 201%Z) ∨
   ∃ quiz,
     s !! Quiz._id quiz = None ∧
     createManualQuiz env req s =
       (mkResponse 201 true (Some "Quiz created successfully") None None
          (Some (QuizData quiz)) None,
        <[Quiz._id quiz := quiz]> s)).
Proof.
  intros Hok. split; [apply generateQuiz_store|]. split.
  { intros H200. destruct (generateQuiz_200 env req s H200)
      as (jsonText & aiJson & qs & Hp & Hq & ->).
    split; [done|]. by exists jsonText, aiJson, qs. }
  split; [apply getQuizzes_store|]. split; [apply getQuizById_store|].
  split; [|split].
  - destruct (deleteQuiz_cases env req s) as [->| ->]; [done|].
    apply subseteq_dom, delete_subseteq.
  - destruct (updateQuiz_cases env req s) as [->|(quiz & Hq & ->)]; [done|].
    rewrite (Hok _ _ Hq). by apply dom_insert_lookup_L.
  - destruct (createManualQuiz_cases env req s) as [?|(quiz & Hc & Hid & _)];
      [by left|].
    right. exists quiz. split; [|done]. rewrite Hid. apply fresh_not_stored.
Qed.

Lemma store_ok_sample : store_ok sample_store.
Proof. unfold store_ok, sample_store. by apply map_Forall_singleton. Qed.


Lemma generate_is_preview_only_witness :
  store_ok sample_store ∧
  (generateQuiz sample_env (generate_request 3) sample_store).2 = sample_store ∧
  (generateQuiz sample_env (generate_request 3) sample_store).1 =
    mkResponse 200 true (Some success_message) None None
      (Some (PreviewData (Some "Geography")
               (validatedQuestions [q_short_mcq; q_yes_no; q_empty_mcq]) 10))
      (Some true).
Proof.
  split; [exact store_ok_sample|].
  split; [|reflexivity].
  exact (proj1 (generate_is_preview_only sample_env (generate_request 3)
                  sample_store store_ok_sample)).
Defined.

(** No failure response of generateQuiz carries quiz data. *)
Lemma generateQuiz_failure_no_data env req s :
  success (generateQuiz env req s).1 = false →
  data (generateQuiz env req s).1 = None ∧ preview (generateQuiz env req s).1 = None.
Proof.
  unfold generateQuiz. unfold_monad. cbv zeta.
  repeat (case_match; simplify_eq/=); done.
Qed.

(** C7.  When the provider call fails, generateQuiz answers 500 with
    success false, the provider's error message as the cause and no quiz
    data; and no failure response of generateQuiz ever carries quiz data. *)
Theorem provider_failure_is_reported env req s cause :
  truthy_opt (prompt (body req)) = true →
  truthy_opt (adminId req) = true →
  truthy_opt (GEMINI_API_KEY env) = true →
  generateContent env
    (fullPrompt (default "" (prompt (body req))) (quizType (body req))
       (questionCount (numberOfQuestions (body req)))) = inl cause →
  generateQuiz env req s =
    (mkResponse 500 false
       (Some "Failed to connect to AI service. Please check your API key and try again.")
       (Some cause) None None None, s) ∧
  (∀ env' req' s', success (generateQuiz env' req' s').1 = false →
                   data (generateQuiz env' req' s').1 = None).
Proof.
  intros Hp Ha Hk Hg. split.
  - unfold generateQuiz. unfold_monad. cbv zeta.
    rewrite Hp, Ha, Hk. simpl. by rewrite Hg.
  - intros env' req' s' Hf. by apply generateQuiz_failure_no_data.
Qed.

Lemma provider_failure_is_reported_witness :
  truthy_opt (prompt (body (generate_request 5))) = true ∧
  truthy_opt (adminId (generate_request 5)) = true ∧
  truthy_opt (GEMINI_API_KEY failing_env) = true ∧
  generateContent failing_env
    (fullPrompt (default "" (prompt (body (generate_request 5))))
       (quizType (body (generate_request 5)))
       (questionCount (numberOfQuestions (body (generate_request 5))))) =
    inl "fetch failed" ∧
  generateQuiz failing_env (generate_request 5) sample_store =
    (mkResponse 500 false
       (Some "Failed to connect to AI service. Please check your API key and try again.")
       (Some "fetch failed") None None None, sample_store) ∧
  (∀ env' req' s', success (generateQuiz env' req' s').1 = false →
                   data (generateQuiz env' req' s').1 = None).
Proof.
  split; [reflexivity|]. split; [reflexivity|]. split; [reflexivity|].
  split; [reflexivity|].
  apply (provider_failure_is_reported failing_env (generate_request 5)
           sample_store "fetch failed"); reflexivity.
Defined.

(** C8.  For a stored quiz and a requester whose identity differs from the
    quiz's owner, getQuizById, updateQuiz and deleteQuiz each answer 403
    whatever the rest of the request holds, and leave the store unchanged. *)
Theorem not_owner_is_forbidden env req s quiz requester :
  s !! params_id req = Some quiz →
  adminId req = Some requester →
  requester ≠ Quiz.adminId quiz →
  getQuizById env req s = (failure 403 "Not authorized to view this quiz", s) ∧
  updateQuiz env req s = (failure 403 "Not authorized to edit this quiz", s) ∧
  deleteQuiz env req s = (failure 403 "Not authorized to delete this quiz", s).
Proof.
  intros Hq Ha Hne.
  unfold getQuizById, updateQuiz, deleteQuiz. unfold_monad.
  rewrite Hq, Ha. simpl.
  rewrite bool_decide_eq_false_2 by congruence. done.
Qed.

Lemma not_owner_is_forbidden_witness :
  sample_store !! params_id (update_request admin2 form_body) = Some stored_quiz ∧
  adminId (update_request admin2 form_body) = Some "admin2" ∧
  "admin2" ≠ Quiz.adminId stored_quiz ∧
  getQuizById sample_env (update_request admin2 form_body) sample_store =
    (failure 403 "Not authorized to view this quiz", sample_store) ∧
  updateQuiz sample_env (update_request admin2 form_body) sample_store =
    (failure 403 "Not authorized to edit this quiz", sample_store) ∧
  deleteQuiz sample_env (update_request admin2 form_body) sample_store =
    (failure 403 "Not authorized to delete this quiz", sample_store).
Proof.
  split; [reflexivity|]. split; [reflexivity|]. split; [discriminate|].
  apply (not_owner_is_forbidden sample_env (update_request admin2 form_body)
           sample_store stored_quiz "admin2"); [reflexivity|reflexivity|discriminate].
Defined.

(** A request without any identity is not answered 403 but 500: the
    comparison dereferences the missing identity. *)
Example no_identity_is_server_error :
  (getQuizById sample_env (mkRequest empty_body "q1" None None) sample_store).1
  = mkResponse 500 false (Some "Failed to fetch quiz")
      (Some "Cannot read properties of undefined (reading 'toString')")
      None None None.
Proof. reflexivity. Qed.


Lemma apply_patch_fields (b : Body) (quiz : Quiz.doc) :
  Quiz.title (apply_patch b quiz) = default (Quiz.title quiz) (title b) ∧
  Quiz.questions (apply_patch b quiz) = default (Quiz.questions quiz) (questions b) ∧
  Quiz.timeLimit (apply_patch b quiz) = default (Quiz.timeLimit quiz) (timeLimit b) ∧
  Quiz._id (apply_patch b quiz) = Quiz._id quiz ∧
  Quiz.adminId (apply_patch b quiz) = Quiz.adminId quiz ∧
  Quiz.weightage (apply_patch b quiz) = Quiz.weightage quiz ∧
  Quiz.weightageType (apply_patch b quiz) = Quiz.weightageType quiz.
Proof.
  unfold apply_patch.
  destruct (title b), (questions b), (timeLimit b); done.
Qed.

(** C9 (amended).  For a stored quiz and an update by its owner whose
    patched document the schema accepts, updateQuiz answers 200 and stores
    the patched quiz: each of title, questions and timeLimit takes the
    value given in the patch when the patch has one and keeps its prior
    value otherwise; the identifier, the owner, the weightage and the
    weightage type keep their prior values whatever the patch holds; every
    other stored quiz is untouched. *)
Theorem update_applies_patch env req s quiz :
  store_ok s →
  s !! params_id req = Some quiz →
  adminId req = Some (Quiz.adminId quiz) →
  validate env (apply_patch (body req) quiz) = None →
  ∃ quiz',
    updateQuiz env req s =
      (mkResponse 200 true (Some "Quiz updated successfully") None None
         (Some (QuizData quiz')) None,
       <[params_id req := quiz']> s) ∧
    Quiz.title quiz' = default (Quiz.title quiz) (title (body req)) ∧
    Quiz.questions quiz' = default (Quiz.questions quiz) (questions (body req)) ∧
    Quiz.timeLimit quiz' = default (Quiz.timeLimit quiz) (timeLimit (body req)) ∧
    Quiz._id quiz' = Quiz._id quiz ∧
    Quiz.adminId quiz' = Quiz.adminId quiz ∧
    Quiz.weightage quiz' = Quiz.weightage quiz ∧
    Quiz.weightageType quiz' = Quiz.weightageType quiz ∧
    (∀ k, k ≠ params_id req → (updateQuiz env req s).2 !! k = s !! k).
Proof.
  intros Hok Hq Ha Hv. exists (apply_patch (body req) quiz).
  destruct (apply_patch_fields (body req) quiz) as (H1 & H2 & H3 & H4 & H5 & H6 & H7).
  assert (updateQuiz env req s =
            (mkResponse 200 true (Some "Quiz updated successfully") None None
               (Some (QuizData (apply_patch (body req) quiz))) None,
             <[params_id req := apply_patch (body req) quiz]> s)) as Hrun.
  { unfold updateQuiz. unfold_monad. rewrite Hq, Ha. simpl.
    rewrite bool_decide_eq_true_2 by done. simpl. rewrite Hv.
    by rewrite H4, (Hok _ _ Hq). }
  rewrite Hrun. repeat split; try done.
  intros k Hk. simpl. by rewrite lookup_insert_ne.
Qed.

Lemma update_applies_patch_witness :
  store_ok sample_store ∧
  sample_store !! params_id (update_request admin1 form_body) = Some stored_quiz ∧
  adminId (update_request admin1 form_body) = Some (Quiz.adminId stored_quiz) ∧
  validate sample_env (apply_patch (body (update_request admin1 form_body)) stored_quiz)
    = None ∧
  (updateQuiz sample_env (update_request admin1 form_body) sample_store).2 !! "q1" =
    Some (Quiz.mk "q1" "Capital cities" [q_maybe] 10 "admin1" (Some 20%Z)
            (Some "percentage")) ∧
  ∃ quiz',
    updateQuiz sample_env (update_request admin1 form_body) sample_store =
      (mkResponse 200 true (Some "Quiz updated successfully") None None
         (Some (QuizData quiz')) None,
       <[params_id (update_request admin1 form_body) := quiz']> sample_store).
Proof.
  split; [exact store_ok_sample|]. split; [reflexivity|]. split; [reflexivity|].
  split; [reflexivity|]. split; [reflexivity|].
  destruct (update_applies_patch sample_env (update_request admin1 form_body)
              sample_store stored_quiz store_ok_sample eq_refl eq_refl eq_refl)
    as (quiz' & Hrun & _).
  by exists quiz'.
Defined.

(** C9 as stated fails: the body the edit form sends holds a weightage of 50
    and the weightage type marks; the owner's update answers 200 and the
    stored quiz keeps its weightage of 20 and its type percentage. *)
Lemma update_ignores_weightage :
  weightage form_body = Some 50%Z ∧ weightageType form_body = Some "marks" ∧
  status (updateQuiz sample_env (update_request admin1 form_body) sample_store).1
    = 200%Z ∧
  (updateQuiz sample_env (update_request admin1 form_body) sample_store).2 !! "q1" =
    Some (Quiz.mk "q1" "Capital cities" [q_maybe] 10 "admin1" (Some 20%Z)
            (Some "percentage")).
Proof. repeat split; reflexivity. Qed.

(** When the schema rejects the patched document, nothing is stored. *)
Lemma update_rejected env req s quiz m :
  s !! params_id req = Some quiz →
  adminId req = Some (Quiz.adminId quiz) →
  validate env (apply_patch (body req) quiz) = Some m →
  updateQuiz env req s =
    (mkResponse 500 false (Some "Failed to update quiz") (Some m) None None None, s).
Proof.
  intros Hq Ha Hv. unfold updateQuiz. unfold_monad. rewrite Hq, Ha. simpl.
  rewrite bool_decide_eq_true_2 by done. simpl. by rewrite Hv.
Qed.

(** C10.  In generateQuiz and in createManualQuiz the check of the required
    fields comes first: a request without a prompt, or without a title or
    a non-empty list of questions, is answered 400 whether or not it
    carries an identity, so a request that lacks both is answered 400 and
    not 401. *)
Theorem missing_fields_before_auth env req s :
  truthy_opt (adminId req) = false →
  (prompt (body req) = None ∨ prompt (body req) = Some "" →
   generateQuiz env req s = (failure 400 "Prompt is required", s)) ∧
  (title (body req) = None ∨ title (body req) = Some "" ∨
   questions (body req) = None ∨ questions (body req) = Some [] →
   createManualQuiz env req s =
     (failure 400 "Title and at least one question are required", s)).
Proof.
  intros _. split.
  - intros Hp. unfold generateQuiz. unfold_monad. cbv zeta.
    by destruct Hp as [-> | ->].
  - intros Hm. unfold createManualQuiz. unfold_monad. cbv zeta.
    assert (missing_fields (body req) = true) as ->; [|done].
    unfold missing_fields.
    destruct Hm as [-> | [-> | [-> | ->]]]; simpl; try done;
      by rewrite orb_true_r.
Qed.

Lemma missing_fields_before_auth_witness :
  truthy_opt (adminId anonymous_request) = false ∧
  generateQuiz sample_env anonymous_request sample_store =
    (failure 400 "Prompt is required", sample_store) ∧
  createManualQuiz sample_env anonymous_request sample_store =
    (failure 400 "Title and at least one question are required", sample_store).
Proof.
  split; [reflexivity|].
  destruct (missing_fields_before_auth sample_env anonymous_request sample_store
              eq_refl) as [Hg Hc].
  split; [apply Hg; by left|apply Hc; by left].
Defined.

(** With the fields present and no identity the answer is 401. *)
Example no_identity_is_unauthenticated :
  status (generateQuiz sample_env
            (mkRequest (body (generate_request 5)) "" None None) sample_store).1
    = 401%Z ∧
  status (createManualQuiz sample_env
            (mkRequest form_body "" None None) sample_store).1 = 401%Z.
Proof. split; reflexivity. Qed.

(** A manual quiz is stored under a new identifier with the default time
    limit of 10 when none is given. *)
Example create_sample :
  ∃ quiz,
    createManualQuiz sample_env
      (mkRequest (mkBody None None None (Some "T") (Some [q_maybe]) None None None)
         "" None (Some admin2)) sample_store =
      (mkResponse 201 true (Some "Quiz created successfully") None None
         (Some (QuizData quiz)) None,
       <[Quiz._id quiz := quiz]> sample_store) ∧
    sample_store !! Quiz._id quiz = None ∧
    Quiz.timeLimit quiz = 10%Z ∧ Quiz.adminId quiz = "admin2".
Proof.
  exists (Quiz.mk (fresh (dom sample_store)) "T" [q_maybe] 10 "admin2" None None).
  repeat split; vm_compute; reflexivity.
Qed.

End Handlers.

(** * Further properties of the controller *)

Section Routes.

Implicit Types (env : Env) (req : Request) (s : Store).

Ltac run_monad :=
  unfold handler, attempt, toString, throw, Quiz_findById,
    Quiz_findByIdAndDelete, Quiz_new, Quiz_save, Quiz_find,
    mbind, M_bind, mret, M_ret in *.

Lemma lookup_none_404 env req s :
  s !! params_id req = None →
  (getQuizById env req s).1 = failure 404 "Quiz not found" ∧
  (updateQuiz env req s).1 = failure 404 "Quiz not found" ∧
  (deleteQuiz env req s).1 = failure 404 "Quiz not found".
Proof.
  intros Hq. unfold getQuizById, updateQuiz, deleteQuiz. run_monad.
  by rewrite Hq.
Qed.

(** X1.  When no quiz is stored under the requested identifier, getQuizById,
    updateQuiz and deleteQuiz answer 404 and leave the store unchanged,
    whoever asks and whatever the body holds: the lookup comes before the
    ownership check. *)
Theorem missing_quiz_is_not_found env req s :
  s !! params_id req = None →
  getQuizById env req s = (failure 404 "Quiz not found", s) ∧
  updateQuiz env req s = (failure 404 "Quiz not found", s) ∧
  deleteQuiz env req s = (failure 404 "Quiz not found", s).
Proof.
  intros Hq. unfold getQuizById, updateQuiz, deleteQuiz. run_monad.
  by rewrite Hq.
Qed.

Lemma missing_quiz_is_not_found_witness :
  sample_store !! params_id (mkRequest form_body "q2" None None) = None ∧
  getQuizById sample_env (mkRequest form_body "q2" None None) sample_store =
    (failure 404 "Quiz not found", sample_store) ∧
  updateQuiz sample_env (mkRequest form_body "q2" None None) sample_store =
    (failure 404 "Quiz not found", sample_store) ∧
  deleteQuiz sample_env (mkRequest form_body "q2" None None) sample_store =
    (failure 404 "Quiz not found", sample_store).
Proof.
  split; [reflexivity|].
  apply (missing_quiz_is_not_found sample_env
           (mkRequest form_body "q2" None None) sample_store).
  reflexivity.
Defined.

Lemma getQuizById_owner env req s quiz :
  s !! params_id req = Some quiz →
  adminId req = Some (Quiz.adminId quiz) →
  getQuizById env req s =
    (mkResponse 200 true None None None (Some (QuizData quiz)) None, s).
Proof.
  intros Hq Ha. unfold getQuizById. run_monad. rewrite Hq, Ha. simpl.
  by rewrite bool_decide_eq_true_2.
Qed.

Lemma getQuizById_other env req s quiz a :
  s !! params_id req = Some quiz →
  adminId req = Some a → a ≠ Quiz.adminId quiz →
  getQuizById env req s = (failure 403 "Not authorized to view this quiz", s).
Proof.
  intros Hq Ha Hne. unfold getQuizById. run_monad. rewrite Hq, Ha. simpl.
  by rewrite bool_decide_eq_false_2 by congruence.
Qed.

Lemma deleteQuiz_owner env req s quiz :
  s !! params_id req = Some quiz →
  adminId req = Some (Quiz.adminId quiz) →
  deleteQuiz env req s =
    (mkResponse 200 true (Some "Quiz deleted successfully") None None None None,
     delete (params_id req) s).
Proof.
  intros Hq Ha. unfold deleteQuiz. run_monad. rewrite Hq, Ha. simpl.
  by rewrite bool_decide_eq_true_2.
Qed.

(** X2.  A delete by the owner answers 200 and removes exactly the requested
    quiz: every other quiz stays as it was, and any later getQuizById,
    updateQuiz or deleteQuiz for that identifier answers 404. *)
Theorem owner_delete_removes_quiz env req s quiz :
  s !! params_id req = Some quiz →
  adminId req = Some (Quiz.adminId quiz) →
  deleteQuiz env req s =
    (mkResponse 200 true (Some "Quiz deleted successfully") None None None None,
     delete (params_id req) s) ∧
  (∀ k, k ≠ params_id req → (deleteQuiz env req s).2 !! k = s !! k) ∧
  (∀ env' req', params_id req' = params_id req →
     (getQuizById env' req' (deleteQuiz env req s).2).1 = failure 404 "Quiz not found" ∧
     (updateQuiz env' req' (deleteQuiz env req s).2).1 = failure 404 "Quiz not found" ∧
     (deleteQuiz env' req' (deleteQuiz env req s).2).1 = failure 404 "Quiz not found").
Proof.
  intros Hq Ha. rewrite (deleteQuiz_owner env req s quiz Hq Ha). simpl.
  split; [done|]. split.
  - intros k Hk. by rewrite lookup_delete_ne.
  - intros env' req' Hid.
    apply lookup_none_404. rewrite Hid. apply lookup_delete_eq.
Qed.


Lemma owner_delete_removes_quiz_witness :
  sample_store !! params_id (quiz_request "q1" admin1 empty_body) = Some stored_quiz ∧
  adminId (quiz_request "q1" admin1 empty_body) = Some (Quiz.adminId stored_quiz) ∧
  deleteQuiz sample_env (quiz_request "q1" admin1 empty_body) sample_store =
    (mkResponse 200 true (Some "Quiz deleted successfully") None None None None,
     delete "q1" sample_store).
Proof.
  split; [reflexivity|]. split; [reflexivity|].
  exact (proj1 (owner_delete_removes_quiz sample_env
                  (quiz_request "q1" admin1 empty_body) sample_store stored_quiz
                  eq_refl eq_refl)).
Defined.

Lemma createManualQuiz_accepted env req s t qs a :
  title (body req) = Some t → t ≠ "" →
  questions (body req) = Some qs → qs ≠ [] →
  adminId req = Some a → a ≠ "" →
  validate env (new_quiz env req s) = None →
  createManualQuiz env req s =
    (mkResponse 201 true (Some "Quiz created successfully") None None
       (Some (QuizData (new_quiz env req s))) None,
     <[fresh (dom s) := new_quiz env req s]> s).
Proof.
  intros Ht Hne Hq Hqs Ha Hane Hv.
  assert (missing_fields (body req) = false) as Hm.
  { unfold missing_fields. rewrite Ht, Hq. simpl. unfold truthy.
    rewrite bool_decide_eq_false_2 by done. simpl.
    apply bool_decide_eq_false. by destruct qs. }
  assert (truthy_opt (adminId req) = true) as Hta.
  { rewrite Ha. simpl. unfold truthy. by rewrite bool_decide_eq_false_2. }
  unfold createManualQuiz, new_quiz in *. run_monad. cbv zeta.
  rewrite Hm, Hta. simpl. by rewrite Hv.
Qed.

(** X3.  A manual create with a non-empty title, at least one question and
    an identity, whose document the schema accepts, answers 201 and stores
    the quiz under an identifier that was not in use, with the given title
    and questions, the requester as owner and the time limit of the body,
    or 10 when the body has none or has 0.  Every quiz stored before is
    still stored unchanged. *)
Theorem create_stores_new_quiz env req s t qs a :
  title (body req) = Some t → t ≠ "" →
  questions (body req) = Some qs → qs ≠ [] →
  adminId req = Some a → a ≠ "" →
  validate env (new_quiz env req s) = None →
  ∃ quiz,
    createManualQuiz env req s =
      (mkResponse 201 true (Some "Quiz created successfully") None None
         (Some (QuizData quiz)) None,
       <[Quiz._id quiz := quiz]> s) ∧
    s !! Quiz._id quiz = None ∧
    Quiz.title quiz = t ∧ Quiz.questions quiz = qs ∧ Quiz.adminId quiz = a ∧
    (timeLimit (body req) = None ∨ timeLimit (body req) = Some 0%Z →
       Quiz.timeLimit quiz = 10%Z) ∧
    (∀ n, timeLimit (body req) = Some n → n ≠ 0%Z → Quiz.timeLimit quiz = n) ∧
    (∀ k old, s !! k = Some old → (createManualQuiz env req s).2 !! k = Some old).
Proof.
  intros Ht Hne Hq Hqs Ha Hane Hv. exists (new_quiz env req s).
  rewrite (createManualQuiz_accepted env req s t qs a) by done.
  split; [done|]. split; [apply fresh_not_stored|].
  unfold new_quiz. simpl. rewrite Ht, Hq, Ha. simpl.
  repeat split; try done.
  - by intros [-> | ->].
  - intros n -> Hn. simpl. by rewrite bool_decide_eq_false_2.
  - intros k old Hk. rewrite lookup_insert_ne; [done|].
    intros <-. by rewrite fresh_not_stored in Hk.
Qed.

Lemma create_stores_new_quiz_witness :
  title (body (quiz_request "" admin2 create_body)) = Some "T" ∧
  questions (body (quiz_request "" admin2 create_body)) = Some [q_maybe] ∧
  adminId (quiz_request "" admin2 create_body) = Some "admin2" ∧
  validate sample_env
    (new_quiz sample_env (quiz_request "" admin2 create_body) sample_store) = None ∧
  ∃ quiz,
    createManualQuiz sample_env (quiz_request "" admin2 create_body) sample_store =
      (mkResponse 201 true (Some "Quiz created successfully") None None
         (Some (QuizData quiz)) None,
       <[Quiz._id quiz := quiz]> sample_store) ∧
    sample_store !! Quiz._id quiz = None ∧ Quiz.timeLimit quiz = 10%Z.
Proof.
  split; [reflexivity|]. split; [reflexivity|]. split; [reflexivity|].
  split; [reflexivity|].
  destruct (create_stores_new_quiz sample_env (quiz_request "" admin2 create_body)
              sample_store "T" [q_maybe] "admin2")
    as (quiz & Hrun & Hnew & _ & _ & _ & Hten & _); try done.
  exists quiz. split; [done|]. split; [done|]. apply Hten. by left.
Defined.

(** X4.  What createManualQuiz stored can be read back and taken out again:
    after an accepted create, getQuizById for the new identifier by the same
    requester answers 200 with the created quiz, a different requester is
    answered 403, and a deleteQuiz by the same requester brings the store
    back to exactly what it was before the create. *)
Theorem create_then_get_then_delete env req s t qs a env' req' :
  title (body req) = Some t → t ≠ "" →
  questions (body req) = Some qs → qs ≠ [] →
  adminId req = Some a → a ≠ "" →
  validate env (new_quiz env req s) = None →
  params_id req' = fresh (dom s) →
  (adminId req' = Some a →
     getQuizById env' req' (createManualQuiz env req s).2 =
       (mkResponse 200 true None None None
          (Some (QuizData (new_quiz env req s))) None,
        (createManualQuiz env req s).2) ∧
     deleteQuiz env' req' (createManualQuiz env req s).2 =
       (mkResponse 200 true (Some "Quiz deleted successfully") None None None None,
        s)) ∧
  (∀ a', adminId req' = Some a' → a' ≠ a →
     (getQuizById env' req' (createManualQuiz env req s).2).1 =
       failure 403 "Not authorized to view this quiz").
Proof.
  intros Ht Hne Hq Hqs Ha Hane Hv Hid.
  rewrite (createManualQuiz_accepted env req s t qs a) by done. simpl.
  assert (Quiz.adminId (new_quiz env req s) = a) as Hown.
  { unfold new_quiz. simpl. by rewrite Ha. }
  assert ((<[fresh (dom s) := new_quiz env req s]> s) !! params_id req' =
          Some (new_quiz env req s)) as Hlook.
  { rewrite Hid. apply lookup_insert_eq. }
  split.
  - intros Ha'. split.
    + apply getQuizById_owner; [done|]. by rewrite Hown.
    + rewrite (deleteQuiz_owner env' req' _ (new_quiz env req s)); [|done|].
      * f_equal. rewrite Hid. apply delete_insert_id, fresh_not_stored.
      * by rewrite Hown.
  - intros a' Ha' Hne'.
    rewrite (getQuizById_other env' req' _ (new_quiz env req s) a'); try done.
    by rewrite Hown.
Qed.


Lemma create_then_get_then_delete_witness :
  title (body (quiz_request "" admin2 create_body)) = Some "T" ∧
  questions (body (quiz_request "" admin2 create_body)) = Some [q_maybe] ∧
  adminId (quiz_request "" admin2 create_body) = Some "admin2" ∧
  validate sample_env
    (new_quiz sample_env (quiz_request "" admin2 create_body) sample_store) = None ∧
  params_id (quiz_request (fresh (dom sample_store)) admin2 empty_body) =
    fresh (dom sample_store) ∧
  deleteQuiz failing_env (quiz_request (fresh (dom sample_store)) admin2 empty_body)
    (createManualQuiz sample_env (quiz_request "" admin2 create_body) sample_store).2 =
    (mkResponse 200 true (Some "Quiz deleted successfully") None None None None,
     sample_store).
Proof.
  split; [reflexivity|]. split; [reflexivity|]. split; [reflexivity|].
  split; [reflexivity|]. split; [reflexivity|].
  destruct (create_then_get_then_delete sample_env
              (quiz_request "" admin2 create_body) sample_store "T" [q_maybe]
              "admin2" failing_env
              (quiz_request (fresh (dom sample_store)) admin2 empty_body))
    as [Hown _]; [done..|].
  by apply Hown.
Defined.

Lemma updateQuiz_owner env req s quiz :
  s !! params_id req = Some quiz →
  adminId req = Some (Quiz.adminId quiz) →
  validate env (apply_patch (body req) quiz) = None →
  updateQuiz env req s =
    (mkResponse 200 true (Some "Quiz updated successfully") None None
       (Some (QuizData (apply_patch (body req) quiz))) None,
     <[Quiz._id quiz := apply_patch (body req) quiz]> s).
Proof.
  intros Hq Ha Hv. unfold updateQuiz. run_monad. rewrite Hq, Ha. simpl.
  rewrite bool_decide_eq_true_2 by done. simpl. rewrite Hv.
  by destruct (apply_patch_fields (body req) quiz) as (_ & _ & _ & -> & _).
Qed.

Lemma apply_patch_idempotent (b : Body) (quiz : Quiz.doc) :
  apply_patch b (apply_patch b quiz) = apply_patch b quiz.
Proof.
  unfold apply_patch. destruct quiz.
  by destruct (title b), (questions b), (timeLimit b).
Qed.

Lemma apply_patch_empty (b : Body) (quiz : Quiz.doc) :
  title b = None → questions b = None → timeLimit b = None →
  apply_patch b quiz = quiz.
Proof. unfold apply_patch. by intros -> -> ->. Qed.

(** X5.  An accepted update by the owner can be read back and repeated: a
    getQuizById by the owner afterwards answers 200 with the patched quiz,
    and sending the same update a second time gives the same response and
    leaves the store as the first update left it. *)
Theorem update_then_get_and_repeat env req s quiz env' req' :
  store_ok s →
  s !! params_id req = Some quiz →
  adminId req = Some (Quiz.adminId quiz) →
  validate env (apply_patch (body req) quiz) = None →
  params_id req' = params_id req →
  adminId req' = adminId req →
  getQuizById env' req' (updateQuiz env req s).2 =
    (mkResponse 200 true None None None
       (Some (QuizData (apply_patch (body req) quiz))) None,
     (updateQuiz env req s).2) ∧
  updateQuiz env req (updateQuiz env req s).2 = updateQuiz env req s.
Proof.
  intros Hok Hq Ha Hv Hid Ha'.
  destruct (apply_patch_fields (body req) quiz) as (_ & _ & _ & Hi & Ho & _).
  rewrite (updateQuiz_owner env req s quiz) by done. simpl.
  rewrite (Hok _ _ Hq).
  assert ((<[params_id req := apply_patch (body req) quiz]> s) !! params_id req =
          Some (apply_patch (body req) quiz)) as Hlook by apply lookup_insert_eq.
  split.
  - apply getQuizById_owner; [by rewrite Hid|]. by rewrite Ha', Ha, Ho.
  - rewrite (updateQuiz_owner env req _ (apply_patch (body req) quiz));
      rewrite ?apply_patch_idempotent, ?Hi, ?Ho; try done.
    by rewrite (Hok _ _ Hq), insert_insert_eq.
Qed.

Lemma update_then_get_and_repeat_witness :
  store_ok sample_store ∧
  sample_store !! params_id (update_request admin1 form_body) = Some stored_quiz ∧
  adminId (update_request admin1 form_body) = Some (Quiz.adminId stored_quiz) ∧
  validate sample_env
    (apply_patch (body (update_request admin1 form_body)) stored_quiz) = None ∧
  updateQuiz sample_env (update_request admin1 form_body)
    (updateQuiz sample_env (update_request admin1 form_body) sample_store).2 =
  updateQuiz sample_env (update_request admin1 form_body) sample_store.
Proof.
  split; [exact store_ok_sample|]. split; [reflexivity|]. split; [reflexivity|].
  split; [reflexivity|].
  exact (proj2 (update_then_get_and_repeat sample_env
                  (update_request admin1 form_body) sample_store stored_quiz
                  sample_env (update_request admin1 form_body)
                  store_ok_sample eq_refl eq_refl eq_refl eq_refl eq_refl)).
Defined.

(** X6.  An update by the owner whose body names none of title, questions
    and timeLimit leaves the store exactly as it was, whatever else the
    body holds: the quiz is saved as it was.  The answer is 200 with the
    quiz as it was when the schema accepts the stored quiz, and 500
    "Failed to update quiz" with the schema's message when it does not. *)
Theorem update_without_fields_changes_nothing env req s quiz :
  store_ok s →
  s !! params_id req = Some quiz →
  adminId req = Some (Quiz.adminId quiz) →
  title (body req) = None → questions (body req) = None →
  timeLimit (body req) = None →
  (updateQuiz env req s).2 = s ∧
  (validate env quiz = None →
     (updateQuiz env req s).1 =
       mkResponse 200 true (Some "Quiz updated successfully") None None
         (Some (QuizData quiz)) None) ∧
  (∀ m, validate env quiz = Some m →
     (updateQuiz env req s).1 =
       mkResponse 500 false (Some "Failed to update quiz") (Some m) None None None).
Proof.
  intros Hok Hq Ha Ht Hqs Htl.
  pose proof (apply_patch_empty (body req) quiz Ht Hqs Htl) as Hp.
  destruct (validate env quiz) as [m|] eqn:Hv.
  - rewrite (update_rejected env req s quiz m) by (by rewrite ?Hp).
    split; [done|]. split; [done|]. by intros ? [= <-].
  - rewrite (updateQuiz_owner env req s quiz) by (by rewrite ?Hp).
    rewrite Hp, (Hok _ _ Hq). simpl. split; [by rewrite insert_id|]. done.
Qed.

Lemma update_without_fields_changes_nothing_witness :
  store_ok sample_store ∧
  sample_store !! params_id
    (update_request admin1 (mkBody (Some "p") None None None None None (Some 50%Z) None))
    = Some stored_quiz ∧
  (updateQuiz sample_env
     (update_request admin1 (mkBody (Some "p") None None None None None (Some 50%Z) None))
     sample_store).2 = sample_store ∧
  (validate sample_env stored_quiz = None →
     (updateQuiz sample_env
        (update_request admin1
           (mkBody (Some "p") None None None None None (Some 50%Z) None))
        sample_store).1 =
       mkResponse 200 true (Some "Quiz updated successfully") None None
         (Some (QuizData stored_quiz)) None) ∧
  (∀ m, validate sample_env stored_quiz = Some m →
     (updateQuiz sample_env
        (update_request admin1
           (mkBody (Some "p") None None None None None (Some 50%Z) None))
        sample_store).1 =
       mkResponse 500 false (Some "Failed to update quiz") (Some m) None None None).
Proof.
  split; [exact store_ok_sample|]. split; [reflexivity|].
  apply (update_without_fields_changes_nothing sample_env
           (update_request admin1
              (mkBody (Some "p") None None None None None (Some 50%Z) None))
           sample_store stored_quiz store_ok_sample); reflexivity.
Defined.


Lemma createManualQuiz_store env req s :
  (createManualQuiz env req s).2 = s ∨
  (truthy_opt (adminId req) = true ∧
   (createManualQuiz env req s).2 = <[fresh (dom s) := new_quiz env req s]> s).
Proof.
  unfold createManualQuiz, new_quiz. run_monad. cbv zeta.
  repeat (case_match; simplify_eq/=); auto.
  right. split; [|done]. by destruct (truthy_opt (adminId req)).
Qed.

Lemma dispatch_keeps_invariants route env req s :
  store_ok s → owned s →
  store_ok (dispatch route env req s).2 ∧ owned (dispatch route env req s).2.
Proof.
  intros Hok Hown. destruct route; simpl.
  - by rewrite generateQuiz_store.
  - by rewrite getQuizzes_store.
  - by rewrite getQuizById_store.
  - destruct (deleteQuiz_cases env req s) as [->| ->]; [done|].
    split; by apply map_Forall_delete.
  - destruct (updateQuiz_cases env req s) as [->|(quiz & Hq & ->)]; [done|].
    destruct (apply_patch_fields (body req) quiz) as (_ & _ & _ & Hi & Ho & _).
    split; (apply map_Forall_insert_2; [|done]); [done|].
    rewrite Ho. by apply (Hown _ _ Hq).
  - destruct (createManualQuiz_store env req s) as [->|[Ha ->]]; [done|].
    split; (apply map_Forall_insert_2; [|done]); [done|].
    unfold new_quiz. simpl. destruct (adminId req) as [a|]; [|done].
    simpl in *. unfold truthy in Ha. by case_bool_decide.
Qed.

Lemma serve_keeps_invariants calls s :
  store_ok s → owned s → store_ok (serve calls s) ∧ owned (serve calls s).
Proof.
  revert s. induction calls as [|[[route env] req] calls IH]; intros s Hok Hown;
    simpl; [done|].
  destruct (dispatch_keeps_invariants route env req s Hok Hown). by apply IH.
Qed.

(** X7.  Whatever requests are served, in whatever order and environment,
    starting from the empty store: every stored quiz is kept under its own
    identifier and has a non-empty owner. *)
Theorem served_store_is_well_formed (calls : list (Route * Env * Request)) :
  store_ok (serve calls ∅) ∧ owned (serve calls ∅).
Proof.
  apply serve_keeps_invariants; unfold store_ok, owned; apply map_Forall_empty.
Qed.

(** X8.  Every response of every route is coherent: its status is one of
    200, 201, 400, 401, 403, 404 and 500, its success flag is true exactly
    when the status is 200 or 201, and a response with success false has a
    message and carries neither data nor the preview flag. *)
Theorem responses_are_coherent route env req s :
  status (dispatch route env req s).1 ∈ [200; 201; 400; 401; 403; 404; 500]%Z ∧
  (success (dispatch route env req s).1 = true ↔
     status (dispatch route env req s).1 = 200%Z ∨
     status (dispatch route env req s).1 = 201%Z) ∧
  (success (dispatch route env req s).1 = false →
     is_Some (message (dispatch route env req s).1) ∧
     data (dispatch route env req s).1 = None ∧
     preview (dispatch route env req s).1 = None).
Proof.
  destruct route; simpl;
    unfold generateQuiz, getQuizzes, getQuizById, deleteQuiz, updateQuiz,
      createManualQuiz; run_monad; cbv zeta;
    repeat (case_match; simplify_eq/=);
    (split; [rewrite !elem_of_cons; lia|]);
    (split; [split; [intros ?; first [done | by left | by right]
                    |intros [?|?]; done]|]);
    intros ?; first [done | repeat split; eauto].
Qed.

End Routes.

(** ** The repair pass, further *)

Section RepairMore.

Implicit Types (q : Question) (questions : list Question).

(** X9.  The repair pass keeps the number and order of the questions and the
    text and type of each; it never removes or reorders the options of an
    mcq question (the candidate's options are a prefix of the output's),
    and it returns a question of any other type than mcq and true_false
    exactly as it was. *)
Theorem repair_preserves_questions questions :
  length (validatedQuestions questions) = length questions ∧
  Forall2 (λ q q',
      text q' = text q ∧ type q' = type q ∧
      (type q = "mcq" → options q `prefix_of` options q') ∧
      (type q ≠ "mcq" → type q ≠ "true_false" → q' = q))
    questions (validatedQuestions questions).
Proof.
  unfold validatedQuestions. split; [apply length_map|].
  apply Forall2_fmap_r, Forall_Forall2_diag, Forall_forall. intros q _.
  split; [apply validateQuestion_text|]. split; [apply validateQuestion_type|].
  split.
  - intros Hm. rewrite validateQuestion_mcq by done. simpl.
    apply push_options_prefix.
  - apply validateQuestion_other.
Qed.

Lemma validateQuestion_well_formed q : well_formed q → validateQuestion q = q.
Proof.
  intros [Hm Ht].
  destruct (decide (type q = "mcq")) as [Em|Em];
    [|destruct (decide (type q = "true_false")) as [Et|Et]].
  - destruct (Hm Em) as [Hin Hlen]. rewrite validateQuestion_mcq by done.
    rewrite (proj2 (includes_true _ _) Hin), push_options_long by done.
    by destruct q.
  - destruct (Ht Et) as [Hin HT]. rewrite validateQuestion_true_false by done.
    simpl. rewrite (proj2 (includes_true _ _) Hin), (proj2 (includes_true _ _) HT).
    by destruct q.
  - by apply validateQuestion_other.
Qed.

(** X10.  A candidate whose questions are all well formed (an mcq with at
    least four options one of which is the answer, a true_false whose
    options contain "True" and the answer, or any other type) leaves the
    repair pass exactly as it entered. *)
Theorem repair_leaves_well_formed_unchanged questions :
  Forall well_formed questions → validatedQuestions questions = questions.
Proof.
  unfold validatedQuestions. induction 1 as [|q qs Hq _ IH]; simpl; [done|].
  by rewrite IH, validateQuestion_well_formed.
Qed.

Lemma repair_leaves_well_formed_unchanged_witness :
  Forall well_formed [q_five_options; q_maybe] ∧
  validatedQuestions [q_five_options; q_maybe] = [q_five_options; q_maybe].
Proof.
  assert (Forall well_formed [q_five_options; q_maybe]) as H.
  { repeat constructor; simpl; try discriminate; intros _; split;
      first [lia | repeat first [apply list_elem_of_here | apply list_elem_of_further]]. }
  split; [exact H|]. exact (repair_leaves_well_formed_unchanged _ H).
Defined.

(** X11.  A true_false question that arrives without options leaves the
    repair pass with the options ["True","False"] and the answer "True",
    whatever answer the candidate stated, "False" included: the answer is
    replaced by "No answer provided" before the options are restored. *)
Theorem true_false_without_options_answers_true q :
  type q = "true_false" → options q = [] →
  validateQuestion q =
    {| text := text q; type := "true_false";
       options := [JString "True"; JString "False"];
       answer := JString "True" |}.
Proof.
  intros Ht Ho. rewrite validateQuestion_true_false by done.
  rewrite Ho, Ht. reflexivity.
Qed.

Lemma true_false_without_options_answers_true_witness :
  type (mkQuestion "Is 2 odd?" "true_false" [] (JString "False")) = "true_false" ∧
  options (mkQuestion "Is 2 odd?" "true_false" [] (JString "False")) = [] ∧
  validateQuestion (mkQuestion "Is 2 odd?" "true_false" [] (JString "False")) =
    {| text := "Is 2 odd?"; type := "true_false";
       options := [JString "True"; JString "False"];
       answer := JString "True" |}.
Proof.
  split; [reflexivity|]. split; [reflexivity|].
  apply (true_false_without_options_answers_true
           (mkQuestion "Is 2 odd?" "true_false" [] (JString "False")));
    reflexivity.
Defined.

(** X12.  Whatever numberOfQuestions holds, the count written into the
    prompt lies between 1 and 50 and the sentence restating it is never
    empty: the last, empty case of the count message is never reached. *)
Theorem prompt_count_is_bounded (v : option JsValue) (prompt : string)
    (quizType : option string) :
  (1 ≤ count (fullPrompt prompt quizType (questionCount v)) ≤ 50)%Z ∧
  countMessage (fullPrompt prompt quizType (questionCount v)) ≠ "".
Proof.
  simpl. pose proof (questionCount_range v) as Hr. split; [done|].
  unfold count_message. repeat case_bool_decide; simpl; try discriminate; lia.
Qed.

End RepairMore.

(** ** Cleaning the provider's text and cutting the JSON span *)

Section Extraction.

Implicit Types (s t pat : string) (c : ascii).

Lemma prefix_string_take n s : String.prefix (string_take n s) s = true.
Proof.
  revert s. induction n as [|n IH]; intros [|c s]; simpl; try done.
  destruct (ascii_dec c c); [apply IH|done].
Qed.

Lemma length_substring a b s :
  String.length (substring a b s) = (a `max` b - a `min` b) `min` (String.length s - a `min` b).
Proof. unfold substring. by rewrite length_string_take, length_string_drop. Qed.

Lemma substring_0 n s : substring 0 n s = string_take n s.
Proof.
  unfold substring. rewrite Nat.min_0_l, Nat.max_0_l, Nat.sub_0_r.
  by destruct s.
Qed.

(** The excerpt [s.substring(0, 500)]. *)
Lemma excerpt_spec s :
  String.length (substring 0 500 s) ≤ 500 ∧
  String.prefix (substring 0 500 s) s = true ∧
  (String.length s ≤ 500 → substring 0 500 s = s).
Proof.
  rewrite substring_0.
  split; [rewrite length_string_take; lia|].
  split; [apply prefix_string_take|]. apply string_take_all.
Qed.

Lemma indexOf_drop c s i :
  indexOf c s = Some i → ∃ r, string_drop i s = String c r.
Proof.
  revert i. induction s as [|d s IH]; intros i; simpl; [done|].
  case_bool_decide as Hc.
  - intros [= <-]. subst. by eexists.
  - destruct (indexOf c s) as [k|]; simpl; [|done].
    intros [= <-]. by apply IH.
Qed.

Lemma indexOf_first c s i :
  indexOf c s = Some i → indexOf c (string_take i s) = None.
Proof.
  revert i. induction s as [|d s IH]; intros i; simpl; [done|].
  case_bool_decide as Hc.
  - by intros [= <-].
  - destruct (indexOf c s) as [k|] eqn:Hk; simpl; [|done].
    intros [= <-]. simpl. rewrite bool_decide_eq_false_2 by done.
    by rewrite (IH k).
Qed.

Lemma lastIndexOf_take c s j :
  lastIndexOf c s = Some j →
  ∃ r, string_take (S j) s = r +:+ String c "" ∧ String.length r = j.
Proof.
  revert j. induction s as [|d s IH]; intros j; simpl; [done|].
  destruct (lastIndexOf c s) as [k|].
  - intros [= <-]. destruct (IH k eq_refl) as (r & Hr & Hl).
    exists (String d r). split; [|simpl; lia].
    change (String d (string_take (S k) s) = String d (r +:+ String c "")).
    by rewrite Hr.
  - case_bool_decide as Hc; [|done]. intros [= <-]. subst.
    exists "". split; [|done]. by destruct s.
Qed.

Lemma lastIndexOf_last c s j :
  lastIndexOf c s = Some j → lastIndexOf c (string_drop (S j) s) = None.
Proof.
  revert j. induction s as [|d s IH]; intros j; simpl; [done|].
  destruct (lastIndexOf c s) as [k|] eqn:Hk.
  - intros [= <-]. by apply IH.
  - case_bool_decide; [|done]. by intros [= <-].
Qed.

Lemma lastIndexOf_lt c s j : lastIndexOf c s = Some j → j < String.length s.
Proof.
  revert j. induction s as [|d s IH]; intros j; simpl; [done|].
  destruct (lastIndexOf c s) as [k|].
  - intros [= <-]. specialize (IH k eq_refl). lia.
  - case_bool_decide; [|done]. intros [= <-]. lia.
Qed.

Lemma string_drop_0 s : string_drop 0 s = s.
Proof. by destruct s. Qed.

Lemma string_take_0 s : string_take 0 s = "".
Proof. by destruct s. Qed.

Lemma string_take_take_drop n i s :
  string_take n (string_drop i s) = string_drop i (string_take (i + n) s).
Proof.
  revert s. induction i as [|i IH]; intros s.
  - by rewrite !string_drop_0.
  - destruct s as [|c s]; [by destruct n|]. apply IH.
Qed.

Lemma string_drop_app i s t :
  i ≤ String.length s → string_drop i (s +:+ t) = string_drop i s +:+ t.
Proof.
  revert s. induction i as [|i IH]; intros s Hi.
  - by rewrite !string_drop_0.
  - destruct s as [|c s]; simpl in Hi; [lia|].
    change (string_drop i (s +:+ t) = string_drop i s +:+ t). apply IH. lia.
Qed.

Lemma indexOf_none_drop c s n : indexOf c s = None → indexOf c (string_drop n s) = None.
Proof.
  revert s. induction n as [|n IH]; intros s; [by rewrite string_drop_0|].
  destruct s as [|d s]; simpl; [done|].
  case_bool_decide; [done|]. destruct (indexOf c s) eqn:E; [done|].
  intros _. by apply IH.
Qed.

Lemma lastIndexOf_none c s : lastIndexOf c s = None ↔ indexOf c s = None.
Proof.
  induction s as [|d s IH]; simpl; [done|].
  destruct (lastIndexOf c s), (indexOf c s); case_bool_decide; simpl;
    try done; destruct IH as [H1 H2];
    first [by specialize (H1 eq_refl) | by specialize (H2 eq_refl)].
Qed.

Lemma indexOf_none_take c s n : indexOf c s = None → indexOf c (string_take n s) = None.
Proof.
  revert s. induction n as [|n IH]; intros s; [by rewrite string_take_0|].
  destruct s as [|d s]; simpl; [done|].
  case_bool_decide; [done|]. destruct (indexOf c s) eqn:E; [done|].
  intros _. by rewrite IH.
Qed.

(** X14.  The span cut between the first opening and the last closing brace:
    when the opening brace does not come after the closing one, the span
    begins with the opening brace, ends with the closing brace and runs from
    the one to the other; when it does come after (the arguments of
    substring are then swapped), the span is the text strictly between the
    two and holds no brace at all. *)
Theorem json_span_shape t i j :
  indexOf "{" t = Some i → lastIndexOf "}" t = Some j →
  (i ≤ j →
     (∃ r, substring i (j + 1) t = String "{" r) ∧
     (∃ r, substring i (j + 1) t = r +:+ "}") ∧
     String.length (substring i (j + 1) t) = j + 1 - i) ∧
  (j < i →
     indexOf "{" (substring i (j + 1) t) = None ∧
     indexOf "}" (substring i (j + 1) t) = None ∧
     String.length (substring i (j + 1) t) = i - (j + 1)).
Proof.
  intros Hi Hj. pose proof (lastIndexOf_lt _ _ _ Hj) as Hlen. split.
  - intros Hij. unfold substring.
    rewrite Nat.min_l, Nat.max_r by lia.
    destruct (indexOf_drop _ _ _ Hi) as [r0 Hr0].
    destruct (lastIndexOf_take _ _ _ Hj) as (r1 & Hr1 & Hl1).
    split; [|split].
    + rewrite Hr0. replace (j + 1 - i) with (S (j - i)) by lia.
      by eexists.
    + rewrite string_take_take_drop.
      replace (i + (j + 1 - i)) with (S j) by lia.
      rewrite Hr1, string_drop_app by lia. by eexists.
    + rewrite length_string_take, length_string_drop. lia.
  - intros Hji. unfold substring.
    rewrite Nat.min_r, Nat.max_l by lia. split; [|split].
    + rewrite string_take_take_drop.
      replace (j + 1 + (i - (j + 1))) with i by lia.
      apply indexOf_none_drop. by apply indexOf_first.
    + apply indexOf_none_take. apply lastIndexOf_none.
      replace (j + 1) with (S j) by lia. by apply lastIndexOf_last.
    + rewrite length_string_take, length_string_drop.
      assert (i < String.length t); [|lia].
      destruct (indexOf_drop _ _ _ Hi) as [r0 Hr0].
      pose proof (length_string_drop i t) as Hd. rewrite Hr0 in Hd.
      simpl in Hd. lia.
Qed.

Lemma json_span_shape_witness :
  indexOf "{" "ab{c}d}" = Some 2 ∧ lastIndexOf "}" "ab{c}d}" = Some 6 ∧
  (2 ≤ 6 →
     (∃ r, substring 2 (6 + 1) "ab{c}d}" = String "{" r) ∧
     (∃ r, substring 2 (6 + 1) "ab{c}d}" = r +:+ "}") ∧
     String.length (substring 2 (6 + 1) "ab{c}d}") = 6 + 1 - 2).
Proof.
  split; [reflexivity|]. split; [reflexivity|].
  exact (proj1 (json_span_shape "ab{c}d}" 2 6 eq_refl eq_refl)).
Defined.


Ltac run_monad :=
  unfold handler, attempt, toString, throw, mbind, M_bind, mret, M_ret in *.

(** X13.  When the provider's text, once cleaned, has no opening or no
    closing brace, generateQuiz answers 500 "AI response did not contain
    valid JSON" without consulting the parser; the excerpt it returns is a
    prefix of the cleaned text of at most 500 characters, and the whole
    cleaned text when that is no longer than 500. *)
Theorem text_without_braces_is_rejected (env : Env) (req : Request) (s : Store)
    (text : string) :
  truthy_opt (prompt (body req)) = true →
  truthy_opt (adminId req) = true →
  truthy_opt (GEMINI_API_KEY env) = true →
  generateContent env
    (fullPrompt (default "" (prompt (body req))) (quizType (body req))
       (questionCount (numberOfQuestions (body req)))) = inr text →
  indexOf "{" (cleaned text) = None ∨ lastIndexOf "}" (cleaned text) = None →
  ∃ excerpt,
    generateQuiz env req s =
      (mkResponse 500 false (Some "AI response did not contain valid JSON")
         None (Some excerpt) None None, s) ∧
    String.length excerpt ≤ 500 ∧
    String.prefix excerpt (cleaned text) = true ∧
    (String.length (cleaned text) ≤ 500 → excerpt = cleaned text).
Proof.
  intros Hp Ha Hk Hg Hb. exists (substring 0 500 (cleaned text)).
  split; [|apply excerpt_spec].
  unfold generateQuiz. run_monad. cbv zeta. rewrite Hp, Ha, Hk. simpl.
  rewrite Hg. simpl. fold (cleaned text).
  destruct Hb as [-> | ->]; [done|]. by destruct (indexOf "{" (cleaned text)).
Qed.


Lemma text_without_braces_is_rejected_witness :
  truthy_opt (prompt (body (generate_request 5))) = true ∧
  truthy_opt (adminId (generate_request 5)) = true ∧
  truthy_opt (GEMINI_API_KEY prose_env) = true ∧
  indexOf "{" (cleaned "  Sorry, I cannot help with that.  ") = None ∧
  ∃ excerpt,
    generateQuiz prose_env (generate_request 5) sample_store =
      (mkResponse 500 false (Some "AI response did not contain valid JSON")
         None (Some excerpt) None None, sample_store) ∧
    String.length excerpt ≤ 500 ∧
    String.prefix excerpt (cleaned "  Sorry, I cannot help with that.  ") = true ∧
    (String.length (cleaned "  Sorry, I cannot help with that.  ") ≤ 500 →
     excerpt = cleaned "  Sorry, I cannot help with that.  ").
Proof.
  split; [reflexivity|]. split; [reflexivity|]. split; [reflexivity|].
  split; [reflexivity|].
  apply (text_without_braces_is_rejected prose_env (generate_request 5)
           sample_store "  Sorry, I cannot help with that.  ");
    try reflexivity. by left.
Defined.

(** *** Fences *)

Lemma replace_go_skip pat k s :
  replace_go pat k s = replace_go pat 0 (string_drop k s).
Proof.
  revert k. induction s as [|c s IH]; intros [|k]; try done. simpl. apply IH.
Qed.

Lemma occurs_tail pat c s : occurs pat (String c s) = false → occurs pat s = false.
Proof. simpl. by intros [_ ?]%orb_false_elim. Qed.

Lemma occurs_head pat s : occurs pat s = false → String.prefix pat s = false.
Proof. destruct s; simpl; by intros [? _]%orb_false_elim. Qed.

Lemma occurs_skip_whitespace pat s :
  occurs pat s = false → occurs pat (skip_whitespace s) = false.
Proof.
  induction s as [|c s IH]; [done|]. intros H. cbn [skip_whitespace].
  destruct (is_whitespace c); [|done]. by eapply IH, occurs_tail.
Qed.

Lemma prefix_trim_end pat s :
  String.prefix pat (trim_end s) = true → String.prefix pat s = true.
Proof.
  revert pat. induction s as [|c s IH]; intros pat; [done|]. cbn [trim_end].
  destruct (is_whitespace c && bool_decide (trim_end s = "")).
  - by destruct pat.
  - destruct pat as [|a pat]; [done|]. simpl.
    destruct (ascii_dec a c); [apply IH|done].
Qed.

Lemma occurs_trim_end pat s :
  occurs pat s = false → occurs pat (trim_end s) = false.
Proof.
  induction s as [|c s IH]; [done|]. intros H.
  pose proof (occurs_head _ _ H) as Hh. pose proof (occurs_tail _ _ _ H) as Ht.
  cbn [trim_end]. destruct (is_whitespace c && bool_decide (trim_end s = "")) eqn:E.
  - destruct pat; [done|]. reflexivity.
  - cbn [occurs]. rewrite (IH Ht), orb_false_r.
    destruct (String.prefix pat (String c (trim_end s))) eqn:Hp; [|done].
    assert (String.prefix pat (trim_end (String c s)) = true) as Hp'.
    { cbn [trim_end]. by rewrite E. }
    apply prefix_trim_end in Hp'. congruence.
Qed.

Lemma remove_fence_fence s : remove_all "```" ("```" +:+ s) = remove_all "```" s.
Proof.
  unfold remove_all. by destruct s.
Qed.


Lemma prefix_nil s : String.prefix "" s = true.
Proof. by destruct s. Qed.

Lemma prefix_cons a pat b s :
  String.prefix (String a pat) (String b s) =
    if ascii_dec a b then String.prefix pat s else false.
Proof. reflexivity. Qed.

Lemma prefix_split pat s : String.prefix pat s = true → ∃ r, s = pat +:+ r.
Proof.
  revert s. induction pat as [|a pat IH]; intros s; [by exists s|].
  destruct s as [|b s]; [done|]. rewrite prefix_cons.
  destruct (ascii_dec a b) as [<-|]; [|done].
  intros [r ->]%IH. by exists r.
Qed.

Lemma remove_fence_cons c s :
  String.prefix "```" (String c s) = false →
  remove_all "```" (String c s) = String c (remove_all "```" s).
Proof. intros H. unfold remove_all. cbn [replace_go]. by rewrite H. Qed.

Lemma remove_fence_head1 s :
  String.prefix "`" s = false → String.prefix "`" (remove_all "```" s) = false.
Proof.
  destruct s as [|d t]; [done|]. rewrite prefix_cons.
  destruct (ascii_dec "`" d) as [<-|Hd]; [by rewrite prefix_nil|]. intros _.
  rewrite remove_fence_cons; rewrite prefix_cons; by destruct (ascii_dec "`" d).
Qed.

Lemma prefix_tick_tick s :
  String.prefix "`" s = false → String.prefix "``" s = false.
Proof.
  destruct s as [|d t]; [done|]. rewrite !prefix_cons.
  destruct (ascii_dec "`" d); [by rewrite prefix_nil|done].
Qed.

Lemma remove_fence_head2 s :
  String.prefix "``" s = false → String.prefix "``" (remove_all "```" s) = false.
Proof.
  destruct s as [|d t]; [done|]. rewrite prefix_cons.
  destruct (ascii_dec "`" d) as [<-|Hd].
  - intros Ht. rewrite remove_fence_cons.
    + rewrite prefix_cons. destruct (ascii_dec "`" "`"); [|done].
      by apply remove_fence_head1.
    + rewrite prefix_cons. destruct (ascii_dec "`" "`"); [|done].
      by apply prefix_tick_tick.
  - intros _. rewrite remove_fence_cons; rewrite prefix_cons;
      by destruct (ascii_dec "`" d).
Qed.

Lemma remove_fence_none n s :
  String.length s ≤ n → occurs "```" (remove_all "```" s) = false.
Proof.
  revert s. induction n as [|n IH]; intros [|c s] Hn; simpl in Hn;
    try done; try lia.
  destruct (String.prefix "```" (String c s)) eqn:Hp.
  - destruct (prefix_split _ _ Hp) as [r Hr]. rewrite Hr, remove_fence_fence.
    apply IH. apply (f_equal String.length) in Hr.
    rewrite length_app_string in Hr. simpl in Hr. lia.
  - rewrite remove_fence_cons by done. cbn [occurs].
    rewrite (IH s) by lia. rewrite orb_false_r.
    rewrite prefix_cons in *. destruct (ascii_dec "`" c); [|done].
    by apply remove_fence_head2.
Qed.

(** X15.  The cleaned text never holds a code fence: whatever the provider
    returned, no run of three backticks is left in the text that is
    searched for braces. *)
Theorem cleaned_text_has_no_fence (text : string) :
  occurs "```" (cleaned text) = false.
Proof.
  unfold cleaned, trim.
  apply occurs_trim_end, occurs_skip_whitespace.
  by apply (remove_fence_none (String.length (remove_all "```json" text))).
Qed.

Example cleaned_sample :
  cleaned "Here: ````json {quiz}``` ``` ok `` " = "Here: ` {quiz}  ok ``".
Proof. reflexivity. Qed.

End Extraction.

(** ** The number-of-questions field and the request it sends *)

Section CountFieldProps.

Lemma validQuestionCount_range f : (1 ≤ validQuestionCount f ≤ 50)%Z.
Proof. unfold validQuestionCount. by apply bounded_range. Qed.

Lemma validQuestionCount_ok f :
  field_ok f →
  validQuestionCount f = match f with Blank => 5%Z | Count n => n end.
Proof.
  destruct f as [|n]; [done|]. simpl. intros Hn.
  change (validQuestionCount (Count n)) with (questionCount (Some (JNumber n))).
  rewrite questionCount_JNumber by lia.
  rewrite bool_decide_eq_false_2 by lia. unfold clamp. lia.
Qed.

Lemma field_step_ok f e : field_ok f → field_ok (field_step f e).
Proof.
  intros Hf. destruct e as [value|value|prompt quizType]; simpl.
  - unfold count_onChange. case_bool_decide; [done|].
    destruct (parseInt_string value); simpl; [by apply bounded_range|done].
  - unfold count_onBlur. destruct (_ || _); simpl; [lia|done].
  - unfold handleGenerateQuiz. destruct (negb _); simpl; [done|].
    case_bool_decide; [done|]. apply validQuestionCount_range.
Qed.

Lemma foldl_field_step_ok f events :
  field_ok f → field_ok (foldl field_step f events).
Proof.
  revert f. induction events as [|e events IH]; intros f Hf; [done|].
  simpl. by apply IH, field_step_ok.
Qed.

(** X16.  Whatever is typed into the number-of-questions field and whenever
    it loses focus or a generation is started, the field holds the empty
    string or a number between 1 and 50; the count a generation then sends
    is the number shown, or 5 when the field is empty. *)
Theorem count_field_stays_valid (events : list FieldEvent) :
  field_ok (field_after events) ∧
  validQuestionCount (field_after events) =
    match field_after events with Blank => 5%Z | Count n => n end.
Proof.
  assert (field_ok (field_after events)) as Hok.
  { apply foldl_field_step_ok. simpl. lia. }
  split; [done|]. by apply validQuestionCount_ok.
Qed.

(** X17.  The quiz tab and the controller agree on the count: for every
    state the field can be in, a prompt that is not blank is sent with a count
    between 1 and 50, the controller does not answer 400, and the count the
    controller then uses is exactly the count that was sent. *)
Theorem client_count_is_server_count (p quizType : string) (f : CountField)
    (env : Env) (u : option User.t) (id : string) (limit : option string)
    (s : Store) :
  field_ok f →
  trim p ≠ "" →
  ∃ b,
    (handleGenerateQuiz p quizType f).1 = Some b ∧
    numberOfQuestions b = Some (JNumber (validQuestionCount f)) ∧
    (1 ≤ validQuestionCount f ≤ 50)%Z ∧
    questionCount (numberOfQuestions b) = validQuestionCount f ∧
    status (generateQuiz env (mkRequest b id limit u) s).1 ≠ 400%Z.
Proof.
  intros _ Hp. unfold handleGenerateQuiz, truthy.
  rewrite bool_decide_eq_false_2 by done. simpl. eexists. split; [done|]. simpl.
  pose proof (validQuestionCount_range f) as Hr.
  split; [done|]. split; [done|]. split.
  - rewrite questionCount_JNumber by lia. rewrite bool_decide_eq_false_2 by lia.
    unfold clamp. lia.
  - assert (truthy p = true) as Ht.
    { unfold truthy. rewrite bool_decide_eq_false_2; [done|].
      intros ->. by apply Hp. }
    unfold generateQuiz, handler, attempt, throw, mbind, M_bind, mret, M_ret.
    cbv zeta. simpl. rewrite Ht. simpl.
    repeat (case_match; simplify_eq/=); done.
Qed.

Lemma client_count_is_server_count_witness :
  field_ok Blank ∧ trim " Capitals " ≠ "" ∧
  ∃ b,
    (handleGenerateQuiz " Capitals " "mcq" Blank).1 = Some b ∧
    numberOfQuestions b = Some (JNumber (validQuestionCount Blank)) ∧
    (1 ≤ validQuestionCount Blank ≤ 50)%Z ∧
    questionCount (numberOfQuestions b) = validQuestionCount Blank ∧
    status (generateQuiz sample_env (mkRequest b "" None (Some admin1)) ∅).1 ≠ 400%Z.
Proof.
  split; [exact I|]. split; [discriminate|].
  apply (client_count_is_server_count " Capitals " "mcq" Blank sample_env
           (Some admin1) "" None ∅); [exact I|discriminate].
Defined.

(** X30.  A number that JavaScript prints in exponent notation, an integer
    of magnitude 10^21 or more or a fraction of magnitude below 10^-6, is
    read by parseInt up to the point or the e: the effective count is its
    first digit, or 1 when the number is negative, so that 10^21 gives 1
    where clamping gives 50.  An infinity gives 5, and an array or an
    object counts as the string ToString gives for it. *)
Theorem exponent_notation_counts_first_digit :
  (∀ m d k,
     (10 ^ 21 ≤ Z.abs m)%Z → (1 ≤ d ≤ 9)%Z →
     (d * 10 ^ k ≤ Z.abs m < (d + 1) * 10 ^ k)%Z →
     questionCount (Some (JNumber m)) = if bool_decide (m < 0)%Z then 1%Z else d) ∧
  (∀ negative s j d k,
     (Z.pos s * 10 ^ 6 < 10 ^ Z.of_nat j)%Z → (1 ≤ d ≤ 9)%Z →
     (d * 10 ^ k ≤ Z.pos s < (d + 1) * 10 ^ k)%Z →
     questionCount (Some (JFraction negative s j)) = if negative then 1%Z else d) ∧
  questionCount (Some (JNumber (10 ^ 21))) = 1%Z ∧
  (∀ negative, questionCount (Some (JInfinity negative)) = 5%Z) ∧
  (∀ address s,
     questionCount (Some (JObject address s)) = questionCount (Some (JString s))).
Proof.
  split_and!.
  - intros m d k Hm Hd Hk. unfold questionCount. simpl.
    rewrite (parseInt_exponent m d k) by done.
    unfold or_number, bounded. repeat case_bool_decide; lia.
  - intros negative s j d k H1 Hd Hk. rewrite questionCount_parse_integer.
    destruct (fraction_point s j) as (_ & _ & Hp3 & _).
    rewrite (parse_integer_fraction_exponent negative s j d k);
      [|specialize (Hp3 H1); lia|done|done].
    unfold clamp. destruct negative; repeat case_bool_decide; lia.
  - reflexivity.
  - by intros [].
  - intros address s. by rewrite !questionCount_parse_integer.
Qed.

End CountFieldProps.

(** ** The edit form *)

Section EditForm.

Implicit Types (q : Form.question) (questions : list Form.question).

Example form_samples :
  validateQuiz "Geography" [fq_mcq; fq_tf; fq_short] (Some 20%Z) "percentage" = None ∧
  validateQuiz "  " [fq_mcq] (Some 20%Z) "percentage" = Some "Quiz title is required" ∧
  validateQuiz "Geography" [fq_mcq; newQuestion] (Some 20%Z) "percentage" =
    Some "Question 2: Question text is required" ∧
  validateQuiz "Geography" [fq_mcq] (Some 101%Z) "percentage" =
    Some "Weightage percentage must be between 0 and 100." ∧
  validateQuiz "Geography" [fq_mcq] (Some 101%Z) "marks" = None ∧
  handleMoveQuestion 0 "down" [fq_mcq; fq_tf; fq_short] = Some [fq_tf; fq_mcq; fq_short] ∧
  handleMoveQuestion 0 "up" [fq_mcq; fq_tf; fq_short] = Some [fq_mcq; fq_tf; fq_short] ∧
  handleDeleteQuestion 1 [fq_mcq; fq_tf; fq_short] = [fq_mcq; fq_short].
Proof. repeat split; reflexivity. Qed.

Lemma filter_index_all (m k : nat) questions :
  k < m →
  snd <$> filter (λ p, p.1 ≠ k) (imap (λ i, pair (m + i)) questions) = questions.
Proof.
  revert m. induction questions as [|q qs IH]; intros m Hm; [done|].
  rewrite imap_cons. rewrite filter_cons_True by (simpl; lia).
  rewrite fmap_cons. simpl. f_equal.
  rewrite <- (IH (S m)) at 2 by lia. do 2 f_equal.
  apply imap_ext. intros i y _. simpl. f_equal. lia.
Qed.

Lemma delete_by_filter (k index : nat) questions :
  snd <$> filter (λ p, p.1 ≠ k + index) (imap (λ i, pair (k + i)) questions) =
  delete index questions.
Proof.
  revert k index. induction questions as [|q qs IH]; intros k index; [done|].
  rewrite imap_cons. destruct index as [|j].
  - rewrite filter_cons_False by (simpl; lia). simpl.
    rewrite <- (filter_index_all (S k) (k + 0) qs) at 2 by lia.
    do 2 f_equal. apply imap_ext. intros i y _. simpl. f_equal. lia.
  - rewrite filter_cons_True by (simpl; lia). rewrite fmap_cons. simpl. f_equal.
    rewrite <- (IH (S k) j). replace (k + S j) with (S k + j) by lia.
    do 2 f_equal. apply imap_ext. intros i y _. simpl. f_equal. lia.
Qed.

(** X18.  Deleting a row removes exactly the question at that index: the
    questions before it stay in place, the ones after it move up by one,
    and the count drops by one; an index beyond the rows changes nothing. *)
Theorem delete_question_removes_row (index : nat) questions :
  handleDeleteQuestion index questions = delete index questions ∧
  (∀ k, k < index → handleDeleteQuestion index questions !! k = questions !! k) ∧
  (∀ k, index ≤ k → handleDeleteQuestion index questions !! k = questions !! S k) ∧
  (index < length questions →
     S (length (handleDeleteQuestion index questions)) = length questions) ∧
  (length questions ≤ index → handleDeleteQuestion index questions = questions).
Proof.
  assert (handleDeleteQuestion index questions = delete index questions) as ->.
  { unfold handleDeleteQuestion. rewrite <- (delete_by_filter 0). by simpl. }
  split; [done|]. split; [|split; [|split]].
  - intros k Hk. by apply list_lookup_delete_lt.
  - intros k Hk. by apply list_lookup_delete_ge.
  - intros Hi. pose proof (length_delete questions index) as Hl.
    destruct (lookup_lt_is_Some_2 questions index Hi) as [x Hx].
    rewrite (Hl (ex_intro _ x Hx)). lia.
  - intros Hi. apply list_eq. intros k.
    destruct (decide (k < index)).
    + by apply list_lookup_delete_lt.
    + rewrite list_lookup_delete_ge by lia.
      rewrite !lookup_ge_None_2; [done|lia..].
Qed.

Lemma handleMoveQuestion_down (index : nat) questions a b :
  questions !! index = Some a → questions !! S index = Some b →
  handleMoveQuestion index "down" questions =
    Some (<[S index := a]> (<[index := b]> questions)).
Proof.
  intros Ha Hb. unfold handleMoveQuestion.
  pose proof (lookup_lt_Some _ _ _ Hb) as Hlen.
  assert (bool_decide ("down" = "up") = false) as -> by done.
  rewrite (bool_decide_eq_false_2 (_ < 0)%Z) by lia.
  rewrite (bool_decide_eq_false_2 (_ >= _)%Z) by lia.
  simpl. replace (Z.to_nat (Z.of_nat index + 1)) with (S index) by lia.
  by rewrite Ha, Hb.
Qed.

Lemma handleMoveQuestion_up (index : nat) questions a b :
  questions !! index = Some a → questions !! S index = Some b →
  handleMoveQuestion (S index) "up" questions =
    Some (<[S index := a]> (<[index := b]> questions)).
Proof.
  intros Ha Hb. unfold handleMoveQuestion.
  pose proof (lookup_lt_Some _ _ _ Hb) as Hlen.
  assert (bool_decide ("up" = "up") = true) as -> by done.
  rewrite (bool_decide_eq_false_2 (_ < 0)%Z) by lia.
  rewrite (bool_decide_eq_false_2 (_ >= _)%Z) by lia.
  simpl. replace (Z.to_nat (Z.of_nat (S index) - 1)) with index by lia.
  rewrite Ha, Hb. f_equal. apply list_insert_insert_ne. lia.
Qed.

Lemma swap_rows_back (index : nat) questions a b :
  questions !! index = Some a → questions !! S index = Some b →
  <[S index := b]> (<[index := a]> (<[S index := a]> (<[index := b]> questions)))
  = questions.
Proof.
  intros Ha Hb.
  rewrite (list_insert_insert_ne _ index (S index) a a) by lia.
  rewrite !list_insert_insert_eq.
  rewrite (list_insert_id _ index a) by done.
  by apply list_insert_id.
Qed.

(** X19.  Moving a rendered row never loses or duplicates a question: the
    result is a permutation of the questions.  Moving the first row up or
    the last row down changes nothing; any other move swaps the row with
    its neighbour, and moving the row back the other way restores the
    list. *)
Theorem move_question_swaps_rows (index : nat) (direction : string) questions :
  index < length questions →
  ∃ moved,
    handleMoveQuestion index direction questions = Some moved ∧
    moved ≡ₚ questions ∧
    (direction = "up" → index = 0 → moved = questions) ∧
    (direction ≠ "up" → S index = length questions → moved = questions) ∧
    (direction = "up" → 0 < index →
       moved !! (index - 1) = questions !! index ∧
       moved !! index = questions !! (index - 1) ∧
       handleMoveQuestion (index - 1) "down" moved = Some questions) ∧
    (direction ≠ "up" → S index < length questions →
       moved !! S index = questions !! index ∧
       moved !! index = questions !! S index ∧
       handleMoveQuestion (S index) "up" moved = Some questions).
Proof.
  intros Hi. destruct (lookup_lt_is_Some_2 questions index Hi) as [a Ha].
  destruct (decide (direction = "up")) as [->|Hd].
  - destruct index as [|j].
    + exists questions. split; [done|]. repeat split; try done; lia.
    + destruct (lookup_lt_is_Some_2 questions j ltac:(lia)) as [b Hb].
      rewrite (handleMoveQuestion_up j questions b a) by done.
      eexists. split; [done|]. split.
      { rewrite list_insert_insert_ne by lia. by apply Permutation_insert_swap. }
      split; [done|]. split; [done|]. split; [|done]. intros _ _.
      replace (S j - 1) with j by lia.
      assert (j < length questions) by lia.
      split; [|split].
      * rewrite list_lookup_insert_ne by lia.
        by rewrite list_lookup_insert_eq, Ha by done.
      * by rewrite list_lookup_insert_eq, Hb by (rewrite length_insert; lia).
      * rewrite (handleMoveQuestion_down j _ a b).
        -- f_equal. by apply swap_rows_back.
        -- rewrite list_lookup_insert_ne by lia. by apply list_lookup_insert_eq.
        -- apply list_lookup_insert_eq. rewrite length_insert. lia.
  - destruct (decide (S index < length questions)) as [Hlt|Hge].
    + destruct (lookup_lt_is_Some_2 questions (S index) Hlt) as [b Hb].
      assert (handleMoveQuestion index direction questions =
              Some (<[S index := a]> (<[index := b]> questions))) as ->.
      { rewrite <- (handleMoveQuestion_down index questions a b) by done.
        unfold handleMoveQuestion.
        rewrite (bool_decide_eq_false_2 (direction = "up")) by done.
        by assert (bool_decide ("down" = "up") = false) as -> by done. }
      eexists. split; [done|]. split; [by apply Permutation_insert_swap|].
      split; [done|]. split; [intros _ ?; lia|]. split; [done|]. intros _ _.
      split; [|split].
      * by rewrite list_lookup_insert_eq, Ha by (rewrite length_insert; lia).
      * rewrite list_lookup_insert_ne by lia.
        by rewrite list_lookup_insert_eq, Hb by lia.
      * rewrite (handleMoveQuestion_up index _ b a).
        -- f_equal. by apply swap_rows_back.
        -- rewrite list_lookup_insert_ne by lia. by apply list_lookup_insert_eq.
        -- apply list_lookup_insert_eq. rewrite length_insert. lia.
    + exists questions. split.
      { unfold handleMoveQuestion.
        rewrite (bool_decide_eq_false_2 (direction = "up")) by done.
        rewrite (bool_decide_eq_true_2 (_ >= _)%Z) by lia.
        by rewrite orb_true_r. }
      repeat split; try done; lia.
Qed.

Lemma move_question_swaps_rows_witness :
  1 < length [fq_mcq; fq_tf; fq_short] ∧
  handleMoveQuestion 1 "up" [fq_mcq; fq_tf; fq_short] =
    Some [fq_tf; fq_mcq; fq_short] ∧
  ∃ moved,
    handleMoveQuestion 1 "up" [fq_mcq; fq_tf; fq_short] = Some moved ∧
    moved ≡ₚ [fq_mcq; fq_tf; fq_short].
Proof.
  split; [simpl; lia|]. split; [reflexivity|].
  destruct (move_question_swaps_rows 1 "up" [fq_mcq; fq_tf; fq_short])
    as (moved & Hm & Hp & _); [simpl; lia|].
  by exists moved.
Defined.

Lemma blank_false s : blank s = false ↔ trim s ≠ "".
Proof.
  unfold blank, truthy. rewrite negb_involutive. apply bool_decide_eq_false.
Qed.

Lemma blank_true s : blank s = true ↔ trim s = "".
Proof.
  unfold blank, truthy. rewrite negb_involutive. apply bool_decide_eq_true.
Qed.

Lemma existsb_blank_false (opts : list string) :
  existsb blank opts = false ↔ Forall (λ o, trim o ≠ "") opts.
Proof.
  induction opts as [|o opts IH]; simpl; [by split; [constructor|]|].
  rewrite orb_false_iff, IH, blank_false. split.
  - intros [??]. by constructor.
  - by inversion 1.
Qed.

Lemma question_error_None (i : nat) q : question_error i q = None ↔ row_valid q.
Proof.
  unfold question_error, row_valid. cbv zeta.
  destruct (blank (Form.text q)) eqn:Ht.
  { apply blank_true in Ht. split; [done|]. by intros [? _]. }
  apply blank_false in Ht.
  destruct (blank (Form.answer q)) eqn:Ha.
  { rewrite orb_true_r. apply blank_true in Ha. split; [done|].
    by intros (_ & ? & _). }
  apply blank_false in Ha.
  assert (truthy (Form.answer q) = true) as ->.
  { unfold truthy. rewrite bool_decide_eq_false_2; [done|].
    intros Hq. rewrite Hq in Ha. by apply Ha. }
  simpl.
  destruct (bool_decide (Form.type q = "mcq")) eqn:Hm; simpl.
  - apply bool_decide_eq_true in Hm.
    assert (bool_decide (Form.type q = "true_false") = false) as ->.
    { apply bool_decide_eq_false. by rewrite Hm. }
    simpl. destruct (existsb blank (Form.options q)) eqn:He.
    { split; [done|]. intros (_ & _ & Hv & _).
      destruct (Hv Hm) as [Hf _]. apply existsb_blank_false in Hf. congruence. }
    apply existsb_blank_false in He.
    destruct (includes (Form.options q) (Form.answer q)) eqn:Hi; simpl.
    + apply includes_true in Hi. split; [|done]. intros _.
      repeat split; try done. intros Ht'. by rewrite Hm in Ht'.
    + apply includes_false in Hi. split; [done|]. intros (_ & _ & Hv & _).
      by destruct (Hv Hm).
  - apply bool_decide_eq_false in Hm.
    destruct (bool_decide (Form.type q = "true_false")) eqn:Hf; simpl.
    + destruct (includes ["True"; "False"] (Form.answer q)) eqn:Hi; simpl.
      * apply includes_true in Hi. split; [|done]. intros _. by repeat split.
      * apply includes_false in Hi. apply bool_decide_eq_true in Hf.
        split; [done|]. intros (_ & _ & _ & Hv). by specialize (Hv Hf).
    + apply bool_decide_eq_false in Hf. split; [|done]. intros _.
      by repeat split.
Qed.

Lemma questions_error_None (i : nat) questions :
  questions_error i questions = None ↔ Forall row_valid questions.
Proof.
  revert i. induction questions as [|q qs IH]; intros i; simpl.
  - by split; [constructor|].
  - destruct (question_error i q) eqn:E.
    + split; [done|]. inversion 1 as [|? ? Hq _]; subst.
      apply (question_error_None i) in Hq. congruence.
    + rewrite IH. apply question_error_None in E. split.
      * by constructor.
      * by inversion 1.
Qed.

(** X20.  validateQuiz lets a form through exactly when the trimmed title
    is not empty, there is at least one question, the weightage (when it is
    a number) lies in 0..100 for the type percentage and is not negative
    for the type marks, and every question has a text and an answer that
    are not blank, an mcq has no blank option and an answer that is one of
    its options, and a true_false has the answer "True" or "False". *)
Theorem validateQuiz_accepts_valid_forms (title : string) questions
    (weightage : option Z) (weightageType : string) :
  validateQuiz title questions weightage weightageType = None ↔
  form_valid title questions weightage weightageType.
Proof.
  unfold validateQuiz, form_valid. cbv zeta.
  destruct (blank title) eqn:Ht.
  { apply blank_true in Ht. split; [done|]. by intros [? _]. }
  apply blank_false in Ht.
  case_bool_decide as Hl.
  { split; [done|]. intros (_ & Hq & _). by destruct questions. }
  assert (questions ≠ []) as Hne by (by intros ->).
  pose proof (questions_error_None 0 questions) as HQ.
  destruct weightage as [w|]; simpl.
  - destruct (bool_decide (weightageType = "percentage")) eqn:Hp; simpl.
    + apply bool_decide_eq_true in Hp.
      assert (bool_decide (weightageType = "marks") = false) as Hk.
      { apply bool_decide_eq_false. by rewrite Hp. }
      rewrite Hk. simpl.
      destruct (bool_decide (w < 0)%Z || bool_decide (w > 100)%Z) eqn:Hb.
      * split; [done|]. intros (_ & _ & Hr & _). specialize (Hr Hp w eq_refl).
        apply orb_true_iff in Hb as [Hb|Hb]; apply bool_decide_eq_true in Hb; lia.
      * apply orb_false_iff in Hb as [H1 H2].
        apply bool_decide_eq_false in H1, H2.
        split; [|intros (_ & _ & _ & _ & ?); by apply HQ]. intros Hf%HQ.
        split_and!; try done.
        -- intros _ ? [= <-]. lia.
        -- intros Hm. by rewrite Hp in Hm.
    + apply bool_decide_eq_false in Hp.
      destruct (bool_decide (weightageType = "marks")) eqn:Hk; simpl.
      * apply bool_decide_eq_true in Hk. case_bool_decide as Hw.
        -- split; [done|]. intros (_ & _ & _ & Hr & _).
           specialize (Hr Hk w eq_refl). lia.
        -- split; [|intros (_ & _ & _ & _ & ?); by apply HQ]. intros Hf%HQ.
           split_and!; try done. intros _ ? [= <-]. lia.
      * apply bool_decide_eq_false in Hk.
        split; [|intros (_ & _ & _ & _ & ?); by apply HQ]. intros Hf%HQ.
        by split_and!.
  - rewrite ?orb_false_r, ?andb_false_r.
    destruct (bool_decide (weightageType = "percentage")),
      (bool_decide (weightageType = "marks")); simpl;
      (split; [|intros (_ & _ & _ & _ & ?); by apply HQ]); intros Hf%HQ;
      by split_and!.
Qed.

Lemma validateQuiz_None_rows (title : string) questions (weightage : option Z)
    (weightageType : string) :
  validateQuiz title questions weightage weightageType = None →
  trim title ≠ "" ∧ questions ≠ [] ∧ Forall row_valid questions.
Proof.
  unfold validateQuiz. cbv zeta.
  destruct (blank title) eqn:Ht; [done|]. apply blank_false in Ht.
  case_bool_decide as Hl; [done|].
  repeat (case_match; try done).
  all: intros HQ%questions_error_None; split_and!; try done; by intros ->.
Qed.

Lemma handleSave_None (quiz_id : option string) (title : string) questions
    (weightage : option Z) (weightageType : string) :
  ¬ Forall row_valid questions →
  handleSave quiz_id title questions weightage weightageType = None.
Proof.
  intros Hn. unfold handleSave.
  destruct (validateQuiz title questions weightage weightageType) eqn:E; [done|].
  by apply validateQuiz_None_rows in E as (_ & _ & ?).
Qed.

(** X21.  A form with a row that was just added, or a row that was just
    switched to the type mcq, cannot be saved: the new row has no text, the
    switched row has four blank options, and handleSave sends nothing
    until they are filled in. *)
Theorem unfinished_rows_block_saving (quiz_id : option string) (title : string)
    questions (weightage : option Z) (weightageType : string) :
  handleSave quiz_id title (handleAddQuestion questions) weightage weightageType
    = None ∧
  (∀ index changed,
     handleQuestionChange index FType "mcq" questions = Some changed →
     handleSave quiz_id title changed weightage weightageType = None).
Proof.
  split.
  - apply handleSave_None. unfold handleAddQuestion.
    rewrite Forall_app, Forall_singleton. intros [_ (Ht & _)]. by apply Ht.
  - intros index changed Hc. apply handleSave_None.
    unfold handleQuestionChange in Hc.
    destruct (questions !! index) as [q|] eqn:Hq; [|done].
    injection Hc as <-. intros Hall.
    assert (row_valid (change_field FType "mcq" q)) as (_ & _ & Hm & _).
    { eapply Forall_lookup_1; [exact Hall|].
      apply list_lookup_insert_eq. by eapply lookup_lt_Some. }
    destruct (Hm eq_refl) as [Hopts _]. simpl in Hopts.
    inversion Hopts as [|? ? Hblank _]. by apply Hblank.
Qed.

#[local] Instance JString_inj : Inj (=) (=) JString.
Proof. by intros s1 s2 [= ->]. Qed.







Lemma handleSave_Some (quiz_id : option string) (title : string) questions
    (weightage : option Z) (weightageType : string) (r : SaveRequest) :
  handleSave quiz_id title questions weightage weightageType = Some r →
  trim title ≠ "" ∧ questions ≠ [] ∧
  ∃ b, b = mkBody None None None (Some title) (Some (to_question <$> questions))
             (Some 10%Z) weightage (Some weightageType) ∧
       (r = PostManual b ∧ (quiz_id = None ∨ quiz_id = Some "") ∨
        ∃ id, r = PutQuiz id b ∧ quiz_id = Some id ∧ id ≠ "").
Proof.
  unfold handleSave.
  destruct (validateQuiz title questions weightage weightageType) eqn:E; [done|].
  apply validateQuiz_None_rows in E as (Ht & Hq & _). intros Hr.
  split; [done|]. split; [done|]. eexists. split; [done|].
  destruct quiz_id as [id|]; [|left; split; [congruence|by left]].
  unfold truthy in Hr. case_bool_decide; simplify_eq/=.
  - left. split; [done|]. by right.
  - right. by exists id.
Qed.

Lemma trim_nonempty s : trim s ≠ "" → s ≠ "".
Proof. intros H ->. by apply H. Qed.

(** X23.  A form that handleSave posts as a new quiz passes the controller's
    required-field check whoever sends it, and with an identity and a
    document the schema accepts it is created with the form's title, as
    many questions as the form has, the requester as owner and the time
    limit 10. *)
Theorem saved_new_quiz_is_created (quiz_id : option string) (title : string)
    questions (weightage : option Z) (weightageType : string) (b : Body)
    (env : Env) (id : string) (limit : option string) (u : option User.t)
    (s : Store) :
  handleSave quiz_id title questions weightage weightageType = Some (PostManual b) →
  status (createManualQuiz env (mkRequest b id limit u) s).1 ≠ 400%Z ∧
  (∀ a, adminId (mkRequest b id limit u) = Some a → a ≠ "" →
        validate env (new_quiz env (mkRequest b id limit u) s) = None →
        ∃ quiz,
          createManualQuiz env (mkRequest b id limit u) s =
            (mkResponse 201 true (Some "Quiz created successfully") None None
               (Some (QuizData quiz)) None,
             <[Quiz._id quiz := quiz]> s) ∧
          s !! Quiz._id quiz = None ∧
          Quiz.title quiz = title ∧
          Quiz.questions quiz = to_question <$> questions ∧
          Quiz.timeLimit quiz = 10%Z ∧ Quiz.adminId quiz = a).
Proof.
  intros Hs.
  destruct (handleSave_Some _ _ _ _ _ _ Hs) as (Ht & Hq & b' & -> & Hr).
  destruct Hr as [[[= ->] _]|(? & ? & _)]; [|done].
  apply trim_nonempty in Ht.
  assert (to_question <$> questions ≠ []) as Hq' by (by destruct questions).
  split.
  - unfold createManualQuiz, handler, mbind, M_bind, mret, M_ret,
      Quiz_new, Quiz_save. cbv zeta.
    assert (missing_fields (body (mkRequest
              (mkBody None None None (Some title) (Some (to_question <$> questions))
                 (Some 10%Z) weightage (Some weightageType)) id limit u)) = false)
      as ->.
    { unfold missing_fields. simpl. unfold truthy.
      rewrite bool_decide_eq_false_2 by done. simpl.
      apply bool_decide_eq_false. by destruct questions. }
    repeat (case_match; simplify_eq/=); done.
  - intros a Ha Hne Hv.
    set (req := mkRequest _ id limit u) in *. exists (new_quiz env req s).
    rewrite (createManualQuiz_accepted env req s title (to_question <$> questions) a)
      by done.
    split; [done|]. split; [apply fresh_not_stored|].
    unfold new_quiz. simpl. by rewrite Ha.
Qed.

Lemma saved_new_quiz_is_created_witness :
  handleSave None "Geography" [fq_mcq; fq_tf; fq_short] (Some 20%Z) "percentage" =
    Some (PostManual
            (mkBody None None None (Some "Geography")
               (Some (to_question <$> [fq_mcq; fq_tf; fq_short])) (Some 10%Z)
               (Some 20%Z) (Some "percentage"))) ∧
  status (createManualQuiz sample_env
            (mkRequest
               (mkBody None None None (Some "Geography")
                  (Some (to_question <$> [fq_mcq; fq_tf; fq_short])) (Some 10%Z)
                  (Some 20%Z) (Some "percentage")) "" None None)
            sample_store).1 ≠ 400%Z.
Proof.
  split; [reflexivity|].
  exact (proj1 (saved_new_quiz_is_created None "Geography" [fq_mcq; fq_tf; fq_short]
                  (Some 20%Z) "percentage" _ sample_env "" None None sample_store
                  eq_refl)).
Defined.

(** X24.  A form that handleSave sends as an edit always carries the time
    limit 10: when the owner's update is accepted, the stored quiz has the
    form's title and questions and the time limit 10, whatever its time
    limit was before, and keeps its owner and its weightage. *)
Theorem saved_edit_resets_time_limit (quiz_id : option string) (title : string)
    questions (weightage : option Z) (weightageType : string) (qid : string)
    (b : Body) (env : Env) (limit : option string) (u : option User.t)
    (s : Store) (quiz : Quiz.doc) :
  handleSave quiz_id title questions weightage weightageType = Some (PutQuiz qid b) →
  store_ok s →
  s !! qid = Some quiz →
  adminId (mkRequest b qid limit u) = Some (Quiz.adminId quiz) →
  validate env (apply_patch b quiz) = None →
  quiz_id = Some qid ∧
  ∃ quiz',
    (updateQuiz env (mkRequest b qid limit u) s).2 = <[qid := quiz']> s ∧
    status (updateQuiz env (mkRequest b qid limit u) s).1 = 200%Z ∧
    Quiz.title quiz' = title ∧
    Quiz.questions quiz' = to_question <$> questions ∧
    Quiz.timeLimit quiz' = 10%Z ∧
    Quiz.adminId quiz' = Quiz.adminId quiz ∧
    Quiz.weightage quiz' = Quiz.weightage quiz ∧
    Quiz.weightageType quiz' = Quiz.weightageType quiz.
Proof.
  intros Hs Hok Hq Ha Hv.
  destruct (handleSave_Some _ _ _ _ _ _ Hs) as (_ & _ & b' & Hb & Hr).
  destruct Hr as [[? _]|(id' & Hr & Hid & _)]; [done|].
  injection Hr as <- <-.
  split; [done|]. exists (apply_patch b quiz).
  rewrite (updateQuiz_owner env _ s quiz) by done. simpl.
  rewrite (Hok _ _ Hq). split; [done|]. split; [done|].
  destruct (apply_patch_fields b quiz) as (H1 & H2 & H3 & _ & H5 & H6 & H7).
  rewrite H1, H2, H3. by subst b.
Qed.

Lemma saved_edit_resets_time_limit_witness :
  handleSave (Some "q1") "Geography" [fq_tf] None "marks" =
    Some (PutQuiz "q1"
            (mkBody None None None (Some "Geography") (Some (to_question <$> [fq_tf]))
               (Some 10%Z) None (Some "marks"))) ∧
  store_ok (<["q1" := Quiz.set_timeLimit stored_quiz 45]> sample_store) ∧
  ∃ quiz',
    (updateQuiz sample_env
       (mkRequest
          (mkBody None None None (Some "Geography") (Some (to_question <$> [fq_tf]))
             (Some 10%Z) None (Some "marks")) "q1" None (Some admin1))
       (<["q1" := Quiz.set_timeLimit stored_quiz 45]> sample_store)).2 =
      <["q1" := quiz']> (<["q1" := Quiz.set_timeLimit stored_quiz 45]> sample_store) ∧
    Quiz.timeLimit quiz' = 10%Z.
Proof.
  assert (store_ok (<["q1" := Quiz.set_timeLimit stored_quiz 45]> sample_store))
    as Hok.
  { apply map_Forall_insert_2; [done|]. exact store_ok_sample. }
  split; [reflexivity|]. split; [exact Hok|].
  destruct (saved_edit_resets_time_limit (Some "q1") "Geography" [fq_tf] None
              "marks" "q1" _ sample_env None (Some admin1) _
              (Quiz.set_timeLimit stored_quiz 45) eq_refl Hok eq_refl eq_refl
              eq_refl)
    as (_ & quiz' & Hrun & _ & _ & _ & Hten & _).
  by exists quiz'.
Defined.

(** X25.  An edit to one row of the form (a changed text, type or answer, a
    changed option, a removed image) keeps the number of rows and leaves
    every other row exactly as it was; a changed option changes that option
    only and keeps the row's text, type and answer. *)
Theorem row_edits_touch_one_row (index : nat) questions edited :
  (∃ field value, handleQuestionChange index field value questions = Some edited) ∨
  (∃ optIndex value, handleOptionChange index optIndex value questions = Some edited) ∨
  (∃ field, handleRemoveImage index field questions = Some edited) →
  length edited = length questions ∧
  (∀ k, k ≠ index → edited !! k = questions !! k) ∧
  (∀ optIndex value q q',
     handleOptionChange index optIndex value questions = Some edited →
     questions !! index = Some q → edited !! index = Some q' →
     Form.text q' = Form.text q ∧ Form.type q' = Form.type q ∧
     Form.answer q' = Form.answer q ∧
     Form.options q' !! optIndex = Some value ∧
     (∀ j, j ≠ optIndex → Form.options q' !! j = Form.options q !! j)).
Proof.
  intros H.
  assert (∃ q', questions !! index ≠ None ∧ edited = <[index := q']> questions ∨
                edited = questions) as (q' & He).
  { destruct H as [(field & value & H)|[(optIndex & value & H)|(field & H)]].
    - unfold handleQuestionChange in H.
      destruct (questions !! index) eqn:E; simplify_eq/=. eexists. by left.
    - unfold handleOptionChange in H.
      destruct (questions !! index) eqn:E; [|done]. simpl in H.
      repeat case_bool_decide; simplify_eq/=; eexists; by left.
    - unfold handleRemoveImage in H.
      destruct field as [|[optIndex|]];
        [| |simplify_eq; exists newQuestion; by right];
        (destruct (questions !! index) as [q|] eqn:E; [|done]).
      + simplify_eq/=. eexists. by left.
      + destruct (Form.optionImages q); [|done].
        repeat case_bool_decide; simplify_eq/=; eexists; by left. }
  split; [|split].
  - destruct He as [[_ ->]| ->]; [apply length_insert|done].
  - intros k Hk. destruct He as [[_ ->]| ->]; [|done].
    by apply list_lookup_insert_ne.
  - intros optIndex value q q'' Ho Hq Hq'. unfold handleOptionChange in Ho.
    rewrite Hq in Ho. simpl in Ho.
    pose proof (lookup_lt_Some _ _ _ Hq) as Hlt.
    repeat case_bool_decide; simplify_eq/=;
      rewrite list_lookup_insert_eq in Hq' by done; simplify_eq/=;
      split_and!; try done.
    + by apply list_lookup_insert_eq.
    + intros j Hj. by apply list_lookup_insert_ne.
    + rewrite lookup_app_r by lia. by rewrite Nat.sub_diag.
    + intros j Hj. destruct (decide (j < length (Form.options q))).
      * by rewrite lookup_app_l.
      * rewrite !lookup_ge_None_2; [done|lia|rewrite length_app; simpl; lia].
Qed.

Lemma row_edits_touch_one_row_witness :
  handleOptionChange 0 1 "Madrid" [fq_mcq; fq_tf] =
    Some [Form.mk "Capital of France?" "mcq" ["Paris"; "Madrid"; "Oslo"; "Bern"]
            "Paris" (Some "") (Some [""; ""; ""; ""]); fq_tf] ∧
  length [Form.mk "Capital of France?" "mcq" ["Paris"; "Madrid"; "Oslo"; "Bern"]
            "Paris" (Some "") (Some [""; ""; ""; ""]); fq_tf] =
    length [fq_mcq; fq_tf].
Proof.
  split; [reflexivity|].
  refine (proj1 (row_edits_touch_one_row 0 [fq_mcq; fq_tf] _ _)).
  right. left. by exists 1, "Madrid".
Defined.

(** X26.  A row switched to the type true_false gets the options
    ["True","False"] and is ready to save exactly when it has a text and
    its answer was already "True" or "False" (any other answer is
    cleared); a row switched to short_answer loses its options and is ready
    to save exactly when its text and its answer are not blank. *)
Theorem type_switch_and_validity (index : nat) questions q :
  questions !! index = Some q →
  (∃ q', handleQuestionChange index FType "true_false" questions =
           Some (<[index := q']> questions) ∧
         Form.options q' = ["True"; "False"] ∧
         (row_valid q' ↔
            trim (Form.text q) ≠ "" ∧ Form.answer q ∈ ["True"; "False"])) ∧
  (∃ q', handleQuestionChange index FType "short_answer" questions =
           Some (<[index := q']> questions) ∧
         Form.options q' = [] ∧
         (row_valid q' ↔
            trim (Form.text q) ≠ "" ∧ trim (Form.answer q) ≠ "")).
Proof.
  intros Hq. unfold handleQuestionChange. rewrite Hq. split.
  - eexists. split; [done|]. split; [done|]. unfold row_valid. simpl.
    destruct (includes ["True"; "False"] (Form.answer q)) eqn:Hi; simpl.
    + apply includes_true in Hi. split.
      * by intros (? & _).
      * intros [Ht _]. split_and!; try done.
        apply elem_of_cons in Hi as [->|Hi]; [done|].
        apply elem_of_cons in Hi as [->|Hi]; [done|].
        by apply elem_of_nil in Hi.
    + apply includes_false in Hi. split.
      * by intros (_ & Ha & _).
      * by intros [_ ?].
  - eexists. split; [done|]. split; [done|]. unfold row_valid. simpl. split.
    + by intros (? & ? & _).
    + intros [??]. by split_and!.
Qed.

Lemma type_switch_and_validity_witness :
  [fq_mcq] !! 0 = Some fq_mcq ∧
  handleQuestionChange 0 FType "true_false" [fq_mcq] =
    Some [Form.mk "Capital of France?" "true_false" ["True"; "False"] ""
            (Some "") (Some [""; ""])].
Proof.
  split; [reflexivity|].
  destruct (type_switch_and_validity 0 [fq_mcq] fq_mcq eq_refl)
    as [(q' & Hc & _) _].
  reflexivity.
Defined.

End EditForm.

(** ** Listing, and the remaining failures of a generation *)

Section Failures.

Implicit Types (env : Env) (req : Request) (s : Store).

Ltac run_monad :=
  unfold handler, attempt, toString, throw, Quiz_find, mbind, M_bind, mret,
    M_ret in *.

Lemma query_limit_value_cases req :
  match query_limit req with
  | None => query_limit_value req = None
  | Some l =>
      match parse_integer l with
      | None => query_limit_value req = None
      | Some n =>
          query_limit_value req =
            if bool_decide (n = 0%Z) then None else Some (nearest_Number n)
      end
  end.
Proof.
  unfold query_limit_value, parseInt_string.
  destruct (query_limit req) as [l|]; [|done].
  unfold truthy. case_bool_decide as Hl; simpl; [by subst l|].
  destruct (parse_integer l) as [n|]; simpl; [|done].
  repeat case_bool_decide; try done.
  - exfalso. by apply nearest_Number_0 in H.
  - subst n. by destruct H.
Qed.

(** X27.  getQuizzes answers 401 to a request without identity and otherwise
    200 with what the store returns for the requester's own identity; the
    limit handed to the store is the Number parseInt returns for the limit
    of the query, that is the Number nearest to the integer its digits
    spell (9007199254740992 for the digits 9007199254740993), and no limit
    at all when the query has none or parseInt reads no integer or 0 from
    it. *)
Theorem list_is_for_the_requester env req s :
  (truthy_opt (adminId req) = false →
     getQuizzes env req s =
       (failure 401 "You must be logged in to view quizzes", s)) ∧
  (∀ a, adminId req = Some a → a ≠ "" →
     ∃ limit,
       getQuizzes env req s =
         (mkResponse 200 true None None None
            (Some (QuizList (find env s a limit))) None, s) ∧
       (limit = None ↔
          query_limit req = None ∨
          ∃ l, query_limit req = Some l ∧
               (parse_integer l = None ∨ parse_integer l = Some 0%Z)) ∧
       (∀ x, limit = Some x ↔
          ∃ l n, query_limit req = Some l ∧ parse_integer l = Some n ∧
                 n ≠ 0%Z ∧ x = nearest_Number n)) ∧
  nearest_Number 9007199254740993 = Finite 9007199254740992.
Proof.
  split; [|split; [|reflexivity]].
  - intros Ha. unfold getQuizzes. run_monad. by rewrite Ha.
  - intros a Ha Hne. exists (query_limit_value req). split.
    + unfold getQuizzes. run_monad. rewrite Ha. simpl. unfold truthy.
      by rewrite bool_decide_eq_false_2.
    + pose proof (query_limit_value_cases req) as H.
      destruct (query_limit req) as [l|]; [|rewrite H; split; [naive_solver|]].
      * destruct (parse_integer l) as [n|] eqn:Hn.
        -- rewrite H. case_bool_decide as H0; (split; [split|]).
           ++ intros _. right. exists l. subst n. auto.
           ++ done.
           ++ intros x. split; [done|].
              intros (l' & n' & [= <-] & Hn' & Hne' & _). congruence.
           ++ done.
           ++ intros [?|(l' & [= <-] & [?|?])]; congruence.
           ++ intros x. split.
              ** intros [= <-]. by exists l, n.
              ** intros (l' & n' & [= <-] & Hn' & _ & ->). congruence.
        -- rewrite H. split; [split; [|done]|].
           ++ intros _. right. exists l. auto.
           ++ intros x. split; [done|].
              intros (l' & n' & [= <-] & Hn' & _). congruence.
      * intros x. split; [done|]. by intros (l' & n' & ? & _).
Qed.

(** X28.  Once the provider has answered and the cleaned text holds both
    braces, the span between them decides: when the parser rejects it,
    generateQuiz answers 500 "AI response was not valid JSON." with the
    parser's message and an excerpt of the span of at most 500 characters;
    when the parsed object has no questions, it answers 500 "Failed to
    generate quiz".  Neither response carries quiz data, and the store is
    untouched. *)
Theorem unparsable_span_is_rejected env req s (text : string) (i j : nat) :
  truthy_opt (prompt (body req)) = true →
  truthy_opt (adminId req) = true →
  truthy_opt (GEMINI_API_KEY env) = true →
  generateContent env
    (fullPrompt (default "" (prompt (body req))) (quizType (body req))
       (questionCount (numberOfQuestions (body req)))) = inr text →
  indexOf "{" (cleaned text) = Some i →
  lastIndexOf "}" (cleaned text) = Some j →
  (∀ m, JSON_parse env (substring i (j + 1) (cleaned text)) = inl m →
     generateQuiz env req s =
       (mkResponse 500 false (Some "AI response was not valid JSON.") (Some m)
          (Some (substring 0 500 (substring i (j + 1) (cleaned text)))) None None,
        s) ∧
     String.length (substring 0 500 (substring i (j + 1) (cleaned text))) ≤ 500) ∧
  (∀ aiJson, JSON_parse env (substring i (j + 1) (cleaned text)) = inr aiJson →
     AiJson.questions aiJson = None →
     generateQuiz env req s =
       (mkResponse 500 false (Some "Failed to generate quiz")
          (Some "Cannot read properties of undefined (reading 'length')")
          None None None, s)).
Proof.
  intros Hp Ha Hk Hg Hi Hj.
  assert (∀ r, JSON_parse env (substring i (j + 1) (cleaned text)) = r →
    generateQuiz env req s =
      match r with
      | inl m =>
          (mkResponse 500 false (Some "AI response was not valid JSON.") (Some m)
             (Some (substring 0 500 (substring i (j + 1) (cleaned text))))
             None None, s)
      | inr aiJson =>
          match AiJson.questions aiJson with
          | None =>
              (mkResponse 500 false (Some "Failed to generate quiz")
                 (Some "Cannot read properties of undefined (reading 'length')")
                 None None None, s)
          | Some qs =>
              (mkResponse 200 true
                 (Some (responseMessage
                          (questionCount (numberOfQuestions (body req)))
                          (Z.of_nat (length (validatedQuestions qs)))))
                 None None
                 (Some (PreviewData (AiJson.title aiJson) (validatedQuestions qs) 10))
                 (Some true), s)
          end
      end) as Hrun.
  { intros r Hr. unfold generateQuiz. run_monad. cbv zeta.
    rewrite Hp, Ha, Hk. simpl. rewrite Hg. simpl. fold (cleaned text).
    rewrite Hi, Hj, Hr. destruct r as [m|aiJson]; [done|]. simpl.
    by destruct (AiJson.questions aiJson). }
  split.
  - intros m Hm. split; [by rewrite (Hrun _ Hm)|]. apply excerpt_spec.
  - intros aiJson Hparse Hq. by rewrite (Hrun _ Hparse), Hq.
Qed.

Lemma unparsable_span_is_rejected_witness :
  truthy_opt (prompt (body (generate_request 5))) = true ∧
  truthy_opt (adminId (generate_request 5)) = true ∧
  truthy_opt (GEMINI_API_KEY garbled_env) = true ∧
  indexOf "{" (cleaned "```json {quiz ``` }") = Some 0 ∧
  lastIndexOf "}" (cleaned "```json {quiz ``` }") = Some 7 ∧
  generateQuiz garbled_env (generate_request 5) sample_store =
    (mkResponse 500 false (Some "AI response was not valid JSON.")
       (Some "Unexpected token") (Some "{quiz  }") None None, sample_store) ∧
  generateQuiz hollow_env (generate_request 5) sample_store =
    (mkResponse 500 false (Some "Failed to generate quiz")
       (Some "Cannot read properties of undefined (reading 'length')")
       None None None, sample_store).
Proof.
  split; [reflexivity|]. split; [reflexivity|]. split; [reflexivity|].
  split; [reflexivity|]. split; [reflexivity|]. split.
  - exact (proj1 (proj1 (unparsable_span_is_rejected garbled_env
             (generate_request 5) sample_store "```json {quiz ``` }" 0 7
             eq_refl eq_refl eq_refl eq_refl eq_refl eq_refl)
             "Unexpected token" eq_refl)).
  - reflexivity.
Defined.



End Failures.
